(** * AutoGradenParser: log importer and irrigation analyzer

    A shallow embedding of [src/importer.py] and [src/analyzer.py].

    - Text is ASCII: a line is a [string], matched as a [list ascii].
    - A pandas DataFrame is the list of its rows, in row order.
    - A Python float is the rational it denotes ([Q]).  The arithmetic
      the analyzer itself does on floats, the score of line 123 and the
      [np.mean] of at most four scores of line 138, is IEEE 754 binary64
      ([Double]).  The parsing of a decimal text is exact, and so is
      the mean that pandas takes of a column, whose order of summation
      depends on how pandas was built: no property below depends on
      the rounding of either.  Infinities and NaN are not represented.
    - A Python dict read by key is a [gmap]; a dict that is iterated
      (the per-kind scores and details) is an association list in
      insertion order.
    - A Python exception is the [Raise] case of [result].
    - [pd.to_datetime] is a parameter of the importer, and the value of
      [datetime.now()] an argument of the scoring functions; instants
      are microseconds since 1970-01-01 ([Z]).
    - The analyzer is the one [main.py] builds: from the importer's
      DataFrame, which has no 'sensor_type' column of its own.
    - Printing and plotting are left out. *)

From Stdlib Require Import String Ascii List ZArith QArith Lia Bool.
From Stdlib Require Import Qround Qabs Qpower Qreduction Lqa SpecFloat.
From stdpp Require Import base option list strings gmap.

Local Open Scope string_scope.
Local Open Scope list_scope.

(** ** Exceptions and results *)

Inductive exn : Type :=
| KeyError (key : string)
| TypeError (msg : string)
| OverflowError (msg : string).

Inductive result (A : Type) : Type :=
| Ok (a : A)
| Raise (e : exn).
Arguments Ok {A} a.
Arguments Raise {A} e.

Definition rbind {A B} (m : result A) (f : A -> result B) : result B :=
  match m with
  | Ok a => f a
  | Raise e => Raise e
  end.

Notation "x <-! m ; k" := (rbind m (fun x => k))
  (at level 100, m at next level, right associativity, only parsing).

(** A Python [for] loop collecting one result per element: the first
    exception leaves the loop. *)
Fixpoint rmap {A B} (f : A -> result B) (l : list A) : result (list B) :=
  match l with
  | [] => Ok []
  | x :: l' => y <-! f x; ys <-! rmap f l'; Ok (y :: ys)
  end.

(** ** The part of Python's [re] that the importer's patterns use *)

Module Regex.

(** [\d], [\w], [\s] and [.] on ASCII text. *)
Definition code (c : ascii) : nat := nat_of_ascii c.

Definition is_digit (c : ascii) : bool :=
  (48 <=? code c)%nat && (code c <=? 57)%nat.

Definition is_word (c : ascii) : bool :=
  is_digit c
  || ((65 <=? code c)%nat && (code c <=? 90)%nat)
  || ((97 <=? code c)%nat && (code c <=? 122)%nat)
  || (code c =? 95)%nat.

Definition is_space (c : ascii) : bool :=
  ((9 <=? code c)%nat && (code c <=? 13)%nat)
  || ((28 <=? code c)%nat && (code c <=? 32)%nat).

Definition is_dot (c : ascii) : bool := negb (code c =? 10)%nat.

Definition is_char (a c : ascii) : bool := Ascii.eqb a c.

(** Patterns: every repetition in the importer is over one character
    class, so [Rep p n] is the greedy [p{n,}]. *)
Inductive re : Type :=
| Eps
| Cls (p : ascii -> bool)
| Rep (p : ascii -> bool) (n : nat)
| Cat (a b : re)
| Opt (a : re)
| Grp (i : nat) (a : re).

Definition Chr (a : ascii) : re := Cls (is_char a).

Fixpoint Lit (s : string) : re :=
  match s with
  | EmptyString => Eps
  | String a s' => Cat (Chr a) (Lit s')
  end.

Fixpoint Times (n : nat) (a : re) : re :=
  match n with
  | O => Eps
  | S n' => Cat a (Times n' a)
  end.

Definition Cats (l : list re) : re := foldr Cat Eps l.

(** Group bindings of a match; a group that took no part is [None]. *)
Definition groups := nat -> option (list ascii).

Definition no_groups : groups := fun _ => None.

Definition set_group (i : nat) (w : list ascii) (g : groups) : groups :=
  fun j => if (j =? i)%nat then Some w else g j.

Section Backtracking.
Context {A : Type}.

(** Greedy repetition: take one more character when possible, and
    come back to the continuation when the longer attempt fails. *)
Fixpoint rep (p : ascii -> bool) (n : nat) (s : list ascii)
    (k : list ascii -> option A) : option A :=
  let stop := match n with O => k s | S _ => None end in
  match s with
  | c :: s' =>
      if p c then
        match rep p (pred n) s' k with
        | Some x => Some x
        | None => stop
        end
      else stop
  | [] => stop
  end.

Fixpoint run (r : re) (s : list ascii) (g : groups)
    (k : list ascii -> groups -> option A) : option A :=
  match r with
  | Eps => k s g
  | Cls p =>
      match s with
      | c :: s' => if p c then k s' g else None
      | [] => None
      end
  | Rep p n => rep p n s (fun s' => k s' g)
  | Cat a b => run a s g (fun s' g' => run b s' g' k)
  | Opt a =>
      match run a s g k with
      | Some x => Some x
      | None => k s g
      end
  | Grp i a =>
      run a s g (fun s' g' =>
        k s' (set_group i (take (length s - length s') s) g'))
  end.
End Backtracking.

(** [re.match(pattern, line)]: anchored at the start, free at the end. *)
Definition re_match (r : re) (line : string) : option groups :=
  run r (list_ascii_of_string line) no_groups (fun _ g => Some g).

(** [match.group(i)] *)
Definition group (m : groups) (i : nat) : option string :=
  string_of_list_ascii <$> m i.

End Regex.

(** ** Configuration (the JSON document read by [Importer.import_data]) *)

Record Sensor : Type := {
  sensor_name : string;      (* sensors[id]['name'] *)
  sensor_model : string      (* sensors[id]['model'] *)
}.

Record Garden : Type := {
  name : string;
  location : string;
  vegetable_type : string;
  active : bool
}.

(** One target range of a vegetable: {'min': ..., 'max': ...}. *)
Record Range : Type := {
  min : Q;
  max : Q
}.

Record GardenConfig : Type := {
  gardens : gmap string Garden;
  vegetables : gmap string (gmap string Range);
  sensors : gmap string Sensor;
  sensor_garden_mapping : gmap string (list string)
}.

(** ** Rows of the importer's DataFrame *)

(** The 'value' cell: a float for a measurement, a string otherwise.
    The initialization marker is the string 'Init'. *)
Inductive Value : Type :=
| VFloat (q : Q)
| VStr (s : string).

Definition Init : Value := VStr "Init".

(** [cell != 'Init'] *)
Definition value_ne_Init (v : Value) : bool :=
  match v with
  | VFloat _ => true
  | VStr s => negb (String.eqb s "Init")
  end.

Definition is_numeric (v : Value) : bool :=
  match v with
  | VFloat _ => true
  | VStr _ => false
  end.

(** columns = ['timestamp', 'level', 'type', 'sensor_id', 'value'] *)
Record Reading : Type := {
  timestamp : Z;
  level : option string;
  type : option string;
  sensor_id : option string;
  value : Value
}.

(** ** importer.py *)

Module Importer.
Import Regex.

Fixpoint take_while (p : ascii -> bool) (s : list ascii) : list ascii :=
  match s with
  | c :: s' => if p c then c :: take_while p s' else []
  | [] => []
  end.

Fixpoint drop_while (p : ascii -> bool) (s : list ascii) : list ascii :=
  match s with
  | c :: s' => if p c then drop_while p s' else s
  | [] => []
  end.

(** [str.strip()] *)
Definition lstrip (s : list ascii) : list ascii := drop_while is_space s.
Definition strip (line : string) : string :=
  string_of_list_ascii
    (rev (lstrip (rev (lstrip (list_ascii_of_string line))))).

(** [float(text)] for the decimal texts group 5 can hold;
    [None] is ValueError. *)
Definition digit_value (c : ascii) : Z := Z.of_nat (code c) - 48.

Definition digits_value (ds : list ascii) : Z :=
  fold_left (fun acc c => 10 * acc + digit_value c)%Z ds 0%Z.

Definition all_digits (ds : list ascii) : bool :=
  negb (Nat.eqb (length ds) 0) && forallb is_digit ds.

Definition float_of (w : list ascii) : option Q :=
  let ip := take_while is_digit w in
  match drop_while is_digit w with
  | [] =>
      if all_digits ip then Some (inject_Z (digits_value ip)) else None
  | c :: fp =>
      if is_char "." c && all_digits ip && all_digits fp then
        Some (inject_Z (digits_value (ip ++ fp))
              / inject_Z (10 ^ Z.of_nat (length fp)))%Q
      else None
  end.

Definition float (text : option string) : option Q :=
  text ≫= fun s => float_of (list_ascii_of_string s).

(** The shared head of the three patterns, after the timestamp:
    [\]\s+(\w+)\s+(\w+)(?:\[id=(\d+)\])?] *)
Definition head_re : re :=
  Cats [Chr "]"; Rep is_space 1; Grp 2 (Rep is_word 1); Rep is_space 1;
        Grp 3 (Rep is_word 1);
        Opt (Cats [Lit "[id="; Grp 4 (Rep is_digit 1); Chr "]"])].

Definition is_digit_dash (c : ascii) : bool := is_digit c || is_char "-" c.
Definition is_digit_colon_dot (c : ascii) : bool :=
  is_digit c || is_char ":" c || is_char "." c.

(** [([\d-]+ [\d:.]+)] *)
Definition loose_stamp_re : re :=
  Grp 1 (Cats [Rep is_digit_dash 1; Chr " "; Rep is_digit_colon_dot 1]).

(** [(\d{4}-\d{2}-\d{2} [\d:.]+)] *)
Definition dated_stamp_re : re :=
  Grp 1 (Cats [Times 4 (Cls is_digit); Chr "-"; Times 2 (Cls is_digit);
               Chr "-"; Times 2 (Cls is_digit); Chr " ";
               Rep is_digit_colon_dot 1]).

(** importer.py line 26 *)
Definition init_re : re :=
  Cats [Chr "["; loose_stamp_re; head_re; Opt (Chr ":"); Rep is_space 1;
        Lit "Initialized sensor"].

(** importer.py line 35 *)
Definition data_re : re :=
  Cats [Chr "["; loose_stamp_re; head_re; Chr ":"; Rep is_space 0;
        Rep is_word 1; Chr "=";
        Grp 5 (Cats [Rep is_digit 1;
                     Opt (Cats [Chr "."; Rep is_digit 1])])].

(** importer.py line 43 *)
Definition text_re : re :=
  Cats [Chr "["; dated_stamp_re; head_re; Chr ":"; Rep is_space 0;
        Grp 5 (Rep is_dot 1)].

Inductive parsed : Type :=
| Row (r : Reading)      (* a row is appended to the database *)
| NoMatch                (* no pattern matches: nothing happens *)
| Caught.                (* an exception reaches the except clause *)

Definition text_of (o : option string) : string := default "" o.

Section Lines.
(** [pd.to_datetime] on a text, as microseconds; [None] when it raises. *)
Variable to_datetime : string -> option Z.

(** The row built from a match: [pd.to_datetime(match.group(1))],
    groups 2 to 4, and the value cell. *)
Definition row_of (m : groups) (v : option Value) : parsed :=
  match to_datetime (text_of (group m 1)), v with
  | Some t, Some v =>
      Row {| timestamp := t; level := group m 2; type := group m 3;
             sensor_id := group m 4; value := v |}
  | _, _ => Caught
  end.

(** The body of the [try] of [import_data] (lines 25 to 49). *)
Definition parse_line (line : string) : parsed :=
  match re_match init_re line with
  | Some m => row_of m (Some Init)
  | None =>
      match re_match data_re line with
      | Some m => row_of m (VFloat <$> float (group m 5))
      | None =>
          match re_match text_re line with
          | Some m => row_of m (VStr <$> group m 5)
          | None => NoMatch
          end
      end
  end.

(** The importer object: the loaded configuration, the DataFrame and
    what went to [self.logger.error]. *)
Record state : Type := {
  garden_config : option GardenConfig;
  database : list Reading;
  logged : list string
}.

(** [Importer.__init__] *)
Definition init : state :=
  {| garden_config := None; database := []; logged := [] |}.

(** One turn of the loop over [f.readlines()]. *)
Definition import_line (self : state) (raw : string) : state :=
  let line := strip raw in
  match parse_line line with
  | Row r =>
      {| garden_config := garden_config self;
         database := database self ++ [r];
         logged := logged self |}
  | NoMatch => self
  | Caught =>
      {| garden_config := garden_config self;
         database := database self;
         logged := logged self ++ [line] |}
  end.

(** [Importer.import_data], given the contents of the two files. *)
Definition import_data (self : state) (map_json : GardenConfig)
    (lines : list string) : state :=
  fold_left import_line lines
    {| garden_config := Some map_json;
       database := database self;
       logged := logged self |}.
End Lines.

End Importer.

(** ** Python's float arithmetic *)

(** IEEE 754 binary64 on the rationals: a double is the rational it
    denotes, and an operation gives the double nearest to the exact
    result, a tie going to the even significand.  The results below
    are reduced fractions.  Overflow is not represented: the operands
    of the analyzer's own arithmetic never exceed 400. *)
Module Double.

(** The exponent of the smallest subnormal. *)
Definition emin : Z := (-1074)%Z.

(** The exponent [e] of the leading bit of [q > 0]:
    [2^e <= q < 2^(e+1)]. *)
Definition ilog2 (q : Q) : Z :=
  let g := (Z.log2 (Qnum q) - Z.log2 (Zpos (Qden q)))%Z in
  if Qle_bool (2 ^ g) q then g else (g - 1)%Z.

(** The exponent of the unit in the last place of the doubles next to
    [q]: 53 significant bits, and no finer than the subnormals. *)
Definition ulp_exponent (q : Q) : Z := Z.max (ilog2 (Qabs q) - 52) emin.

Definition round_half_even (x : Q) : Z :=
  let f := Qfloor x in
  match (x - inject_Z f ?= 1 # 2)%Q with
  | Lt => f
  | Eq => if Z.even f then f else (f + 1)%Z
  | Gt => (f + 1)%Z
  end.

(** The double nearest to [q]. *)
Definition round (q : Q) : Q :=
  let r := Qred q in
  let c := ulp_exponent r in
  Qred (inject_Z (round_half_even (r / 2 ^ c)) * 2 ^ c).

Definition add (a b : Q) : Q := round (a + b).
Definition mul (a b : Q) : Q := round (a * b).

(** [a / b] on floats, and on ints (true division). *)
Definition div (a b : Q) : Q := round (a / b).

Arguments round : simpl never.
Arguments add : simpl never.
Arguments mul : simpl never.
Arguments div : simpl never.

(** The rational a binary64 datum of the Standard Library denotes. *)
Definition of_spec_float (f : spec_float) : option Q :=
  match f with
  | S754_zero _ => Some 0%Q
  | S754_finite s m e =>
      Some (Qred ((if s then -1 else 1) * inject_Z (Zpos m) * 2 ^ e))
  | _ => None
  end.

End Double.

(** ** analyzer.py *)

Module Analyzer.

(** [sub in s] on strings *)
Fixpoint contains (sub s : string) : bool :=
  String.prefix sub s
  || match s with
     | EmptyString => false
     | String _ s' => contains sub s'
     end.

(** The if/elif chain of [_prepare_data] on one sensor name. *)
Definition kind_of_name (n : string) : option string :=
  if contains "Temperature" n then Some "temperature"
  else if contains "Moisture" n then Some "moisture"
  else if contains "Light" n then Some "light"
  else if contains "Humidity" n then Some "humidity"
  else if contains "Pump" n then Some "pump"
  else None.

Definition sensor_type_map (sensors : gmap string Sensor)
    : gmap string string :=
  omap (fun info => kind_of_name (sensor_name info)) sensors.

(** A row of [self.df]: the importer's row with the two mapped columns
    ([None] is the NaN that [Series.map] gives for a missing key). *)
Record Sample : Type := {
  reading : Reading;
  sensor_type : option string;
  garden_ids : option (list string)
}.

(** A row of [self.expanded_df]. *)
Record ZoneReading : Type := {
  sample : Sample;
  garden_id : string;
  row_vegetable_type : string;    (* new_row['vegetable_type'] *)
  row_location : string           (* new_row['location'] *)
}.

Definition row_timestamp (z : ZoneReading) : Z := timestamp (reading (sample z)).
Definition row_value (z : ZoneReading) : Value := value (reading (sample z)).
Definition row_sensor_type (z : ZoneReading) : option string :=
  sensor_type (sample z).

Definition lookup_key {V} (d : gmap string V) (key : string) : result V :=
  match d !! key with
  | Some v => Ok v
  | None => Raise (KeyError key)
  end.

Section Prepare.
Variable cfg : GardenConfig.

(** Lines 53 to 58: the 'sensor_type' and 'garden_ids' columns. *)
Definition add_columns (r : Reading) : Sample :=
  {| reading := r;
     sensor_type := sensor_id r ≫= (sensor_type_map (sensors cfg) !!.);
     garden_ids := sensor_id r ≫= (sensor_garden_mapping cfg !!.) |}.

(** Lines 66 to 69. *)
Definition new_row (row : Sample) (gid : string) : result ZoneReading :=
  g <-! lookup_key (gardens cfg) gid;
  Ok {| sample := row; garden_id := gid;
        row_vegetable_type := vegetable_type g;
        row_location := location g |}.

(** Lines 64 to 70, for one row of [self.df]. *)
Definition expand_row (row : Sample) : result (list ZoneReading) :=
  match garden_ids row with
  | Some ids =>
      if (0 <? length ids)%nat then rmap (new_row row) ids else Ok []
  | None => Ok []
  end.

(** Line 60: [self.df[self.df['value'] != 'Init']] *)
Definition remove_inits (df : list Sample) : list Sample :=
  List.filter (fun row => value_ne_Init (value (reading row))) df.

Definition _prepare_data (database : list Reading)
    : result (list Sample * list ZoneReading) :=
  let df := remove_inits (map add_columns database) in
  expanded_rows <-! rmap expand_row df;
  Ok (df, concat expanded_rows).
End Prepare.

Record IrrigationAnalyzer : Type := {
  df : list Sample;
  config : GardenConfig;
  expanded_df : list ZoneReading
}.

(** [IrrigationAnalyzer.__init__] *)
Definition new (garden_config : GardenConfig) (sampling_data_df : list Reading)
    : result IrrigationAnalyzer :=
  prepared <-! _prepare_data garden_config sampling_data_df;
  Ok {| df := fst prepared; config := garden_config;
        expanded_df := snd prepared |}.

(** *** Compliance *)

(** details[sensor_type] *)
Inductive Detail : Type :=
| NoData
| Scored (status : string) (avg_value optimal_min optimal_max : Q)
         (readings_count in_range_count : nat).

Definition status (d : Detail) : string :=
  match d with
  | NoData => "No data"
  | Scored s _ _ _ _ _ => s
  end.

Definition avg_value (d : Detail) : option Q :=
  match d with
  | NoData => None
  | Scored _ a _ _ _ _ => Some a
  end.

Record ComplianceResult : Type := {
  result_garden_id : string;
  result_vegetable_type : string;
  overall_score : Q;
  individual_scores : list (string * option Q);
  details : list (string * Detail)
}.

Definition kinds : list string :=
  ["temperature"; "moisture"; "light"; "humidity"].

Definition microseconds_per_hour : Z := 3600000000.

(** Lines 94 to 98.  [pd.DataFrame([])] has no columns, so reading the
    'garden_id' column of an empty [expanded_df] raises KeyError. *)
Definition recent_rows (garden : string) (cutoff_time : Z)
    (expanded : list ZoneReading) : list ZoneReading :=
  List.filter
    (fun z => String.eqb (garden_id z) garden
              && (cutoff_time <=? row_timestamp z)%Z)
    expanded.

Definition recent_data (expanded : list ZoneReading) (garden : string)
    (cutoff_time : Z) : result (list ZoneReading) :=
  match expanded with
  | [] => Raise (KeyError "garden_id")
  | _ => Ok (recent_rows garden cutoff_time expanded)
  end.

(** Line 107 *)
Definition of_kind (kind : string) (rows : list ZoneReading)
    : list ZoneReading :=
  List.filter
    (fun z => bool_decide (row_sensor_type z = Some kind)) rows.

(** Element-wise comparison of a cell with a number: Python refuses to
    order a string and a number. *)
Definition cell_ge (v : Value) (x : Q) : result bool :=
  match v with
  | VFloat q => Ok (Qle_bool x q)
  | VStr _ => Raise (TypeError "'>=' not supported between 'str' and 'float'")
  end.

Definition cell_le (v : Value) (x : Q) : result bool :=
  match v with
  | VFloat q => Ok (Qle_bool q x)
  | VStr _ => Raise (TypeError "'<=' not supported between 'str' and 'float'")
  end.

(** [rows[mask]] *)
Definition select {A} (mask : list bool) (rows : list A) : list A :=
  map snd (List.filter fst (combine mask rows)).

Definition cell_float (v : Value) : result Q :=
  match v with
  | VFloat q => Ok q
  | VStr _ => Raise (TypeError "could not convert string to float")
  end.

Definition Qsum (l : list Q) : Q := foldr Qplus 0%Q l.

Definition Qmean (l : list Q) : Q :=
  (Qsum l / inject_Z (Z.of_nat (length l)))%Q.

(** [Series.mean()] *)
Definition mean (column : list Value) : result Q :=
  xs <-! rmap cell_float column; Ok (Qmean xs).

Definition status_of (compliance_score : Q) : string :=
  if Qle_bool 80 compliance_score then "Good"
  else if Qle_bool 60 compliance_score then "Needs Attention"
  else "Poor".

(** Line 123, [len(in_range) / len(sensor_data) * 100]: the true
    division of two ints, then a product of floats. *)
Definition percentage (in_range_count readings_count : nat) : Q :=
  Double.mul
    (Double.div (inject_Z (Z.of_nat in_range_count))
                (inject_Z (Z.of_nat readings_count)))
    100.

Arguments percentage : simpl never.

(** Lines 109 to 134: the entry of one kind that has a range. *)
Definition score_kind (rng : Range) (sensor_data : list ZoneReading)
    : result (option Q * Detail) :=
  if (length sensor_data =? 0)%nat then Ok (None, NoData)
  else
    let column := map row_value sensor_data in
    ge <-! rmap (fun v => cell_ge v (min rng)) column;
    le <-! rmap (fun v => cell_le v (max rng)) column;
    let in_range := select (zip_with andb ge le) sensor_data in
    let compliance_score :=
      percentage (length in_range) (length sensor_data) in
    avg <-! mean column;
    Ok (Some compliance_score,
        Scored (status_of compliance_score) avg (min rng) (max rng)
               (length sensor_data) (length in_range)).

(** Lines 103 to 134: the loop over the four kinds. *)
Fixpoint score_kinds (optimal_ranges : gmap string Range)
    (recent : list ZoneReading) (todo : list string)
    : result (list (string * (option Q * Detail))) :=
  match todo with
  | [] => Ok []
  | kind :: todo' =>
      match optimal_ranges !! kind with
      | None => score_kinds optimal_ranges recent todo'
      | Some rng =>
          entry <-! score_kind rng (of_kind kind recent);
          rest <-! score_kinds optimal_ranges recent todo';
          Ok ((kind, entry) :: rest)
      end
  end.

(** Lines 137 and 138 *)
Definition valid_scores (scores : list (string * option Q)) : list Q :=
  omap snd scores.

(** [np.mean] of a list of floats: numpy adds fewer than eight numbers
    one after the other, from 0, and divides the sum by their count. *)
Definition np_mean (l : list Q) : Q :=
  Double.div (fold_left Double.add l 0%Q) (inject_Z (Z.of_nat (length l))).

Arguments np_mean : simpl never.

Definition overall (scores : list (string * option Q)) : Q :=
  match valid_scores scores with
  | [] => 0%Q
  | vs => np_mean vs
  end.

(** The range of [datetime]: 0001-01-01 00:00:00 to
    9999-12-31 23:59:59.999999. *)
Definition datetime_min : Z := (-62135596800000000)%Z.
Definition datetime_max : Z := 253402300799999999%Z.

(** The instants a pandas [Timestamp] holds (nanoseconds in 64 bits),
    to the microsecond: 1677-09-21 00:12:43.145225 to
    2262-04-11 23:47:16.854775.  Every timestamp of [expanded_df] is one
    of them.  How line 97 compares them with a cutoff outside this
    range depends on the version of pandas; the model compares the
    instants, as pandas 2 does, and the properties of returned results
    are stated for a cutoff inside this range. *)
Definition timestamp_min : Z := (-9223372036854775)%Z.
Definition timestamp_max : Z := 9223372036854775%Z.

(** Line 94, [datetime.now() - timedelta(hours=time_window_hours)]: an
    instant outside the range of [datetime] is an OverflowError, of the
    subtraction or already of [timedelta]. *)
Definition hours_before (now time_window_hours : Z) : result Z :=
  let cutoff_time := (now - time_window_hours * microseconds_per_hour)%Z in
  if ((datetime_min <=? cutoff_time) && (cutoff_time <=? datetime_max))%Z
  then Ok cutoff_time
  else Raise (OverflowError "date value out of range").

(** [calculate_compliance_score(garden_id, time_window_hours)], with
    [now] the value of [datetime.now()]. *)
Definition calculate_compliance_score (self : IrrigationAnalyzer)
    (now : Z) (garden : string) (time_window_hours : Z)
    : result ComplianceResult :=
  g <-! lookup_key (gardens (config self)) garden;
  optimal_ranges <-! lookup_key (vegetables (config self)) (vegetable_type g);
  cutoff_time <-! hours_before now time_window_hours;
  recent <-! recent_data (expanded_df self) garden cutoff_time;
  entries <-! score_kinds optimal_ranges recent kinds;
  let compliance_scores := map (fun e => (fst e, fst (snd e))) entries in
  Ok {| result_garden_id := garden;
        result_vegetable_type := vegetable_type g;
        overall_score := overall compliance_scores;
        individual_scores := compliance_scores;
        details := map (fun e => (fst e, snd (snd e))) entries |}.

Definition default_time_window_hours : Z := 2400000.

(** *** Recommendations *)

(** One recommendation line; the numbers are the ones the f-string
    interpolates. *)
Inductive Recommendation : Type :=
| NoRecentData (kind : string)          (* "...: No recent data - check sensors" *)
| IncreaseIrrigation (avg lo : Q)       (* moisture below the minimum *)
| IncreaseHumidity (avg lo : Q)         (* humidity below the minimum *)
| TemperatureTooLow (avg lo : Q)        (* temperature below the minimum *)
| ReduceIrrigation (avg hi : Q)         (* moisture above the maximum *)
| ImproveVentilation (avg hi : Q)       (* humidity above the maximum *)
| TemperatureTooHigh (avg hi : Q)       (* temperature above the maximum *)
| WithinOptimalRange (kind : string) (avg : Q)
| AllWithinOptimalRanges.               (* "All parameters are within optimal ranges!" *)

Definition Qlt_bool (a b : Q) : bool := negb (Qle_bool b a).

(** Lines 359 to 389: what one entry of [details] appends. *)
Definition recommend (kind : string) (d : Detail) : list Recommendation :=
  match d with
  | NoData => [NoRecentData kind]
  | Scored _ avg lo hi _ _ =>
      if Qlt_bool avg lo then
        if String.eqb kind "moisture" then [IncreaseIrrigation avg lo]
        else if String.eqb kind "humidity" then [IncreaseHumidity avg lo]
        else if String.eqb kind "temperature" then [TemperatureTooLow avg lo]
        else []
      else if Qlt_bool hi avg then
        if String.eqb kind "moisture" then [ReduceIrrigation avg hi]
        else if String.eqb kind "humidity" then [ImproveVentilation avg hi]
        else if String.eqb kind "temperature" then [TemperatureTooHigh avg hi]
        else []
      else [WithinOptimalRange kind avg]
  end.

(** [get_irrigation_recommendations(garden_id)] *)
Definition get_irrigation_recommendations (self : IrrigationAnalyzer)
    (now : Z) (garden : string) : result (list Recommendation) :=
  compliance <-! calculate_compliance_score self now garden
                   default_time_window_hours;
  _ <-! lookup_key (gardens (config self)) garden;
  let recommendations :=
    flat_map (fun e => recommend (fst e) (snd e)) (details compliance) in
  Ok (match recommendations with
      | [] => [AllWithinOptimalRanges]
      | _ => recommendations
      end).

End Analyzer.

(** ** importer.py: [apply_mapping] and [run] *)

Module ImporterRun.
Import Importer.

(** The importer after [apply_mapping]: the 'name' and 'model' columns
    of the database, [None] for a column that was not added. *)
Record mapped : Type := {
  importer : state;
  name_column : option (list (option string));
  model_column : option (list (option string))
}.

(** [self.garden_config['sensors'].get(x, {}).get(key)] for a loaded
    configuration; [x] is the 'sensor_id' cell. *)
Definition sensor_get (cfg : GardenConfig) (key : Sensor -> string)
    (x : option string) : option string :=
  key <$> (x ≫= (sensors cfg !!.)).

(** [apply_mapping]: with no configuration loaded ([{}]), the lambda
    raises KeyError on the first row, the except clause logs it and no
    column is added; on an empty database the lambda is never called. *)
Definition apply_mapping (self : state) : mapped :=
  match garden_config self, database self with
  | Some cfg, rows =>
      {| importer := self;
         name_column := Some (map (fun r => sensor_get cfg sensor_name (sensor_id r)) rows);
         model_column := Some (map (fun r => sensor_get cfg sensor_model (sensor_id r)) rows) |}
  | None, [] =>
      {| importer := self; name_column := Some []; model_column := Some [] |}
  | None, _ :: _ =>
      {| importer :=
           {| garden_config := garden_config self;
              database := database self;
              logged := logged self ++ ["Mapping error: "] |};
         name_column := None;
         model_column := None |}
  end.

(** [Importer.run] *)
Definition run (to_datetime : string -> option Z) (self : state)
    (map_json : GardenConfig) (lines : list string) : mapped :=
  apply_mapping (import_data to_datetime self map_json lines).

End ImporterRun.

(** ** Notions used to state the properties *)

Module RegexSpec.
Import Regex.

(** The words a pattern accepts, groups left aside. *)
Fixpoint lang (r : re) (w : list ascii) : Prop :=
  match r with
  | Eps => w = []
  | Cls p => exists c, w = [c] /\ p c = true
  | Rep p n => forallb p w = true /\ (n <= length w)%nat
  | Cat a b => exists w1 w2, w = w1 ++ w2 /\ lang a w1 /\ lang b w2
  | Opt a => lang a w \/ w = []
  | Grp _ a => lang a w
  end.

(** [r] is a sequence whose last item is the group [i] over [body]. *)
Inductive ends_with_group (i : nat) (body : re) : re -> Prop :=
| ends_here : ends_with_group i body (Cat (Grp i body) Eps)
| ends_later a b :
    ends_with_group i body b -> ends_with_group i body (Cat a b).

End RegexSpec.

(** ** Notions used to state the properties of the importer *)

Module ImporterSpec.
Import Regex Importer.

Section Lines.
Variable to_datetime : string -> option Z.

(** [m] is the match of the first pattern, in the order of the code,
    that matches [line]. *)
Definition first_match (line : string) (m : groups) : Prop :=
  re_match init_re line = Some m
  \/ (re_match init_re line = None /\ re_match data_re line = Some m)
  \/ (re_match init_re line = None /\ re_match data_re line = None
      /\ re_match text_re line = Some m).

(** The rows a batch of lines adds to the database. *)
Definition rows_of (lines : list string) : list Reading :=
  flat_map (fun raw => match parse_line to_datetime (strip raw) with
                       | Row r => [r]
                       | _ => []
                       end) lines.
End Lines.
End ImporterSpec.

(** ** Notions used to state the properties of the analyzer *)

Module AnalyzerSpec.
Import Analyzer.

(** [d[key]] on a dict kept in insertion order. *)
Fixpoint dict_get {V} (key : string) (d : list (string * V)) : option V :=
  match d with
  | [] => None
  | (k, v) :: d' => if String.eqb k key then Some v else dict_get key d'
  end.

(** A value inside the inclusive range [min, max]. *)
Definition within (rng : Range) (v : Value) : bool :=
  match v with
  | VFloat q => Qle_bool (min rng) q && Qle_bool q (max rng)
  | VStr _ => false
  end.

(** The two masks of line 118 and the cells of line 124, on a column
    that holds numbers only. *)
Definition ge_min (rng : Range) (v : Value) : bool :=
  match v with VFloat q => Qle_bool (min rng) q | VStr _ => false end.
Definition le_max (rng : Range) (v : Value) : bool :=
  match v with VFloat q => Qle_bool q (max rng) | VStr _ => false end.
Definition float_or_zero (v : Value) : Q :=
  match v with VFloat q => q | VStr _ => 0%Q end.

(** The per-kind scores that are defined, and their arithmetic mean. *)
Fixpoint defined_scores (scores : list (string * option Q)) : list Q :=
  match scores with
  | [] => []
  | (_, Some q) :: rest => q :: defined_scores rest
  | (_, None) :: rest => defined_scores rest
  end.

(** The sum and the arithmetic mean of a list, in exact arithmetic. *)
Fixpoint total (l : list Q) : Q :=
  match l with
  | [] => 0%Q
  | x :: l' => (x + total l')%Q
  end.

Definition arithmetic_mean (l : list Q) : Q :=
  (total l / inject_Z (Z.of_nat (length l)))%Q.

(** 100*K/N, in exact arithmetic. *)
Definition percent_in_range (K N : nat) : Q :=
  (100 * inject_Z (Z.of_nat K) / inject_Z (Z.of_nat N))%Q.

(** How far two roundings take a score from 100*K/N (2^-46), and the
    roundings of [np.mean] the mean of at most four scores from their
    arithmetic mean (2^-44). *)
Definition score_tolerance : Q := 1 # 70368744177664.
Definition mean_tolerance : Q := 1 # 17592186044416.

(** The readings of a zone and a kind that are not older than
    [windowStart]. *)
Definition matching_rows (garden : string) (windowStart : Z) (kind : string)
    (expanded : list ZoneReading) : list ZoneReading :=
  List.filter
    (fun z => String.eqb (garden_id z) garden
              && (windowStart <=? row_timestamp z)%Z
              && bool_decide (row_sensor_type z = Some kind))
    expanded.

Definition numeric_rows (rows : list ZoneReading) : list ZoneReading :=
  List.filter (fun z => is_numeric (row_value z)) rows.

Definition rows_within (rng : Range) (rows : list ZoneReading)
    : list ZoneReading :=
  List.filter (fun z => within rng (row_value z)) rows.

(** The selection as the specification words it: the zone's rows with
    windowStart <= t <= windowEnd. *)
Definition window_rows_spec (garden : string) (windowStart windowEnd : Z)
    (expanded : list ZoneReading) : list ZoneReading :=
  List.filter
    (fun z => String.eqb (garden_id z) garden
              && (windowStart <=? row_timestamp z)%Z
              && (row_timestamp z <=? windowEnd)%Z)
    expanded.

(** What one reading adds to [expanded_df]. *)
Definition zone_rows (cfg : GardenConfig) (r : Reading)
    : result (list ZoneReading) :=
  if value_ne_Init (value r) then expand_row cfg (add_columns cfg r)
  else Ok [].

(** The rows of a loop that appends a list per element. *)
Definition flatten {X} (m : result (list (list X))) : result (list X) :=
  rows <-! m; Ok (concat rows).

(** A zone row made from reading [r] for zone [id]. *)
Definition row_for (cfg : GardenConfig) (r : Reading) (z : ZoneReading)
    (id : string) : Prop :=
  garden_id z = id /\ reading (sample z) = r
  /\ exists g, gardens cfg !! id = Some g
               /\ row_vegetable_type z = vegetable_type g
               /\ row_location z = location g.

End AnalyzerSpec.

(** ** analyzer.py: the report and the data of the overview *)

Module Reports.
Import Analyzer AnalyzerSpec.

(** [get_optimal_ranges] *)
Definition get_optimal_ranges (self : IrrigationAnalyzer)
    (vegetable : string) : result (gmap string Range) :=
  lookup_key (vegetables (config self)) vegetable.

(** What [generate_garden_report] prints, with the numbers it formats. *)
Inductive ReportLine : Type :=
| GardenHeader (garden_name garden_location vegetable : string)
               (is_active : bool) (overall : Q)
| SensorSection (kind : string) (average optimal_min optimal_max compliance : Q)
                (status : string) (in_range_count readings_count : nat).

(** Lines 164 to 171 for one entry of [details]: the score is read from
    [individual_scores] (KeyError when absent) and formatted with
    [:.1f] (TypeError on None). *)
Definition report_section (scores : list (string * option Q))
    (kind : string) (d : Detail) : result (list ReportLine) :=
  match d with
  | NoData => Ok []
  | Scored st avg lo hi n k =>
      match dict_get kind scores with
      | None => Raise (KeyError kind)
      | Some None =>
          Raise (TypeError "unsupported format string passed to NoneType.__format__")
      | Some (Some score) => Ok [SensorSection kind avg lo hi score st k n]
      end
  end.

(** [generate_garden_report(garden_id)]: the lines printed and the
    result returned. *)
Definition generate_garden_report (self : IrrigationAnalyzer) (now : Z)
    (garden : string) : result (list ReportLine * ComplianceResult) :=
  compliance <-! calculate_compliance_score self now garden
                   default_time_window_hours;
  g <-! lookup_key (gardens (config self)) garden;
  sections <-! rmap (fun e => report_section (individual_scores compliance)
                                (fst e) (snd e))
                 (details compliance);
  Ok (GardenHeader (name g) (location g) (vegetable_type g) (active g)
        (overall_score compliance) :: concat sections,
      compliance).

(** Lines 218 to 223 of [plot_garden_compliance_overview]: the row of
    the heat map for one result. *)
Definition matrix_row (comp : ComplianceResult) : list Q :=
  map (fun sensor_type =>
         match default (Some 0%Q) (dict_get sensor_type (individual_scores comp)) with
         | Some score => score
         | None => 0%Q
         end)
      ["temperature"; "moisture"; "light"; "humidity"].

Definition compliance_matrix (compliance_data : list ComplianceResult)
    : list (list Q) :=
  map matrix_row compliance_data.

(** Lines 243 to 246: [counts[veg] = counts.get(veg, 0) + 1]. *)
Fixpoint count_up (veg : string) (counts : list (string * nat))
    : list (string * nat) :=
  match counts with
  | [] => [(veg, 1%nat)]
  | (k, n) :: rest =>
      if String.eqb k veg then (k, S n) :: rest else (k, n) :: count_up veg rest
  end.

Definition vegetable_counts (compliance_data : list ComplianceResult)
    : list (string * nat) :=
  fold_left (fun counts comp => count_up (result_vegetable_type comp) counts)
    compliance_data [].

End Reports.

(** ** Notions used to state further properties *)

Module Invariants.
Import Regex RegexSpec Importer ImporterSpec Analyzer AnalyzerSpec.

(** Every group of [r] holds only words that [P] allows. *)
Fixpoint groups_ok (P : nat -> list ascii -> Prop) (r : re) : Prop :=
  match r with
  | Grp i a => (forall w, lang a w -> P i w) /\ groups_ok P a
  | Cat a b => groups_ok P a /\ groups_ok P b
  | Opt a => groups_ok P a
  | _ => True
  end.

(** Group [i] takes part in every match of [r]. *)
Fixpoint binds (i : nat) (r : re) : bool :=
  match r with
  | Grp j a => (i =? j)%nat || binds i a
  | Cat a b => binds i a || binds i b
  | _ => false
  end.

Definition groups_hold (P : nat -> list ascii -> Prop) (g : groups) : Prop :=
  forall i w, g i = Some w -> P i w.

(** What the groups of the importer's patterns hold; [P5] is for the
    value group. *)
Definition shape_groups (P5 : list ascii -> Prop) (i : nat) (w : list ascii)
    : Prop :=
  match i with
  | 2 | 3 => lang (Rep is_word 1) w
  | 4 => lang (Rep is_digit 1) w
  | 5 => P5 w
  | _ => True
  end.

(** A text that is not empty and made of characters of one class. *)
Definition text_all (p : ascii -> bool) (s : string) : Prop :=
  s <> "" /\ forallb p (list_ascii_of_string s) = true.

Definition is_no_match (p : parsed) : bool :=
  match p with NoMatch => true | _ => false end.

(** The lines of a batch that match no pattern. *)
Definition dropped_lines (to_datetime : string -> option Z)
    (lines : list string) : list string :=
  List.filter (fun raw => is_no_match (parse_line to_datetime (strip raw))) lines.

(** The kinds that are scored for a profile: those of the four that
    have a range, in the order of the loop. *)
Definition ranged_kinds (ranges : gmap string Range) : list string :=
  List.filter (fun kind => bool_decide (is_Some (ranges !! kind))) kinds.

Definition readings_count_of (d : Detail) : nat :=
  match d with
  | NoData => 0%nat
  | Scored _ _ _ _ n _ => n
  end.

(** A score and a detail that belong together: the score is the
    percentage of the readings in range up to rounding, and exactly
    100 or 0 when all or none of them are. *)
Definition consistent (rng : Range) (score : option Q) (d : Detail) : Prop :=
  match score, d with
  | None, NoData => True
  | Some s, Scored st avg lo hi n k =>
      (1 <= n)%nat /\ (k <= n)%nat
      /\ (Qabs (s - percent_in_range k n) <= score_tolerance)%Q
      /\ (k = n -> s = 100%Q) /\ (k = 0%nat -> s = 0%Q)
      /\ (0 <= s)%Q /\ (s <= 100)%Q
      /\ st = status_of s /\ lo = min rng /\ hi = max rng
  | _, _ => False
  end.

(** The zone rows a reading is expanded to. *)
Definition fan_out (cfg : GardenConfig) (r : Reading) : nat :=
  if value_ne_Init (value r)
  then length (default [] (sensor_id r ≫= (sensor_garden_mapping cfg !!.)))
  else 0%nat.


(** [word] occurs in [text]. *)
Definition has_word (word text : string) : Prop :=
  exists before after, text = (before ++ word ++ after)%string.

(** The kind a line of the report is about. *)
Definition section_kind (l : Reports.ReportLine) : option string :=
  match l with
  | Reports.SensorSection kind _ _ _ _ _ _ _ => Some kind
  | Reports.GardenHeader _ _ _ _ _ => None
  end.

Definition has_score (s : string * option Q) : bool :=
  match snd s with Some _ => true | None => false end.

(** The results whose vegetable is [veg]. *)
Definition of_vegetable (veg : string) (data : list ComplianceResult)
    : list ComplianceResult :=
  List.filter (fun comp => String.eqb (result_vegetable_type comp) veg) data.

End Invariants.

(** ** Data for the examples *)

Module Examples.
Import Regex Importer Analyzer.

(** An instance of [to_datetime] for the examples: the instant, in
    microseconds since 1970, of a text of the form
    [YYYY-MM-DD HH:MM:SS] or [YYYY-MM-DD HH:MM:SS.ffffff]. *)
Definition two_digits : re := Times 2 (Cls is_digit).

Definition iso_re : re :=
  Cats [Grp 1 (Times 4 (Cls is_digit)); Chr "-"; Grp 2 two_digits; Chr "-";
        Grp 3 two_digits; Chr " "; Grp 4 two_digits; Chr ":";
        Grp 5 two_digits; Chr ":"; Grp 6 two_digits;
        Opt (Cats [Chr "."; Grp 7 (Rep is_digit 1)])].

Definition field (m : groups) (i : nat) : Z :=
  digits_value (default [] (m i)).

Definition is_leap (y : Z) : bool :=
  ((y mod 4 =? 0) && negb (y mod 100 =? 0) || (y mod 400 =? 0))%Z.

Definition days_in_month (y mo : Z) : Z :=
  if (mo =? 2)%Z then (if is_leap y then 29 else 28)%Z
  else if ((mo =? 4) || (mo =? 6) || (mo =? 9) || (mo =? 11))%Z then 30%Z
  else 31%Z.

Definition days_from_civil (y mo d : Z) : Z :=
  let y' := (if mo <=? 2 then y - 1 else y)%Z in
  let era := (y' / 400)%Z in
  let yoe := (y' - era * 400)%Z in
  let doy := ((153 * (if mo <=? 2 then mo + 9 else mo - 3) + 2) / 5 + d - 1)%Z in
  let doe := (yoe * 365 + yoe / 4 - yoe / 100 + doy)%Z in
  (era * 146097 + doe - 719468)%Z.

Definition sample_to_datetime (text : string) : option Z :=
  match run iso_re (list_ascii_of_string text) no_groups
          (fun rest g => match rest with [] => Some g | _ => None end) with
  | Some m =>
      let y := field m 1 in
      let mo := field m 2 in
      let d := field m 3 in
      let h := field m 4 in
      let mi := field m 5 in
      let s := field m 6 in
      let frac := default [] (m 7) in
      if ((1 <=? mo) && (mo <=? 12) && (1 <=? d) && (d <=? days_in_month y mo)
          && (h <? 24) && (mi <? 60) && (s <? 60)
          && (Z.of_nat (length frac) <=? 6))%Z
      then Some ((((days_from_civil y mo d * 24 + h) * 60 + mi) * 60 + s)
                 * 1000000
                 + digits_value frac * 10 ^ (6 - Z.of_nat (length frac)))%Z
      else None
  | None => None
  end.

(** The log of tests/test_importer.py. *)
Definition sample_log_data : list string :=
  ["[2025-01-15 10:30:00] INFO TempSensor[id=1001]: Initialized sensor";
   "[2025-01-15 10:30:15] INFO TempSensor[id=1001]: temperature=23.5";
   "[2025-01-15 10:30:30] DEBUG HumiditySensor[id=1002]: humidity=65.2";
   "[2025-01-15 10:30:45] WARNING SoilSensor[id=2001]: moisture=45.8";
   "[2025-01-15 10:31:00] ERROR PumpCtrl[id=2002]: Pump failure on init";
   "[2025-01-15 10:31:15] INFO TempSensor: temperature=24.1";
   "Invalid log line that should be ignored";
   "[2025-01-15 10:33:15] INFO TempSensor: temperature=25.1"].

Definition invalid_line : string := "Invalid log line that should be ignored".

(** A configuration in the shape of the test's: three gardens watched
    by the sensors of the test log and by a light sensor. *)
Definition tomato_ranges : gmap string Range :=
  {[ "temperature" := {| min := 18; max := 28 |};
     "moisture" := {| min := 40; max := 70 |};
     "light" := {| min := 200; max := 800 |} ]}.

Definition garden_1 : Garden :=
  {| name := "Garden 1 - Tomatoes"; location := "North bed";
     vegetable_type := "tomato"; active := true |}.

Definition garden_2 : Garden :=
  {| name := "Garden 2 - Lettuce"; location := "South bed";
     vegetable_type := "lettuce"; active := true |}.

Definition garden_3 : Garden :=
  {| name := "Garden 3 - Basil"; location := "Window sill";
     vegetable_type := "basil"; active := true |}.

Definition sample_sensors : gmap string Sensor :=
  {[ "1001" := {| sensor_name := "Temperature_Sensor_1";
                  sensor_model := "TempPro" |};
     "1002" := {| sensor_name := "Humidity_Sensor_1";
                  sensor_model := "HumidMax" |};
     "2001" := {| sensor_name := "Soil_Moisture_1";
                  sensor_model := "SoilSense" |};
     "2002" := {| sensor_name := "Pump_Controller_1";
                  sensor_model := "PumpCtrl" |};
     "3001" := {| sensor_name := "Light_Sensor_1";
                  sensor_model := "LuxOne" |} ]}.

Definition config_with (mapping : gmap string (list string)) : GardenConfig :=
  {| gardens := {[ "garden_1" := garden_1; "garden_2" := garden_2;
                   "garden_3" := garden_3 ]};
     vegetables :=
       {[ "tomato" := tomato_ranges;
          "lettuce" := {[ "moisture" := {| min := 50; max := 80 |} ]};
          "basil" := {[ "light" := {| min := 200; max := 800 |} ]} ]};
     sensors := sample_sensors;
     sensor_garden_mapping := mapping |}.

Definition sample_config : GardenConfig :=
  config_with {[ "1001" := ["garden_1"]; "2001" := ["garden_1"; "garden_2"];
                 "3001" := ["garden_1"; "garden_3"]; "1002" := [] ]}.

(** The same, with the pump controller mapped to a zone that is not a
    garden. *)
Definition dangling_config : GardenConfig :=
  config_with {[ "1001" := ["garden_1"]; "2001" := ["garden_1"; "garden_2"];
                 "2002" := ["garden_9"] ]}.

(** A row of sensor [id] at instant [t]. *)
Definition row_at (t : Z) (id : string) (v : Value) : Reading :=
  {| timestamp := t; level := Some "INFO"; type := Some "Sensor";
     sensor_id := Some id; value := v |}.

(** 2025-01-15 12:00:00 *)
Definition noon : Z := 1736942400000000.

(** The analyzer built from a database, when building it raises
    nothing. *)
Definition built (cfg : GardenConfig) (database : list Reading)
    : IrrigationAnalyzer :=
  match new cfg database with
  | Ok a => a
  | Raise _ => {| df := []; config := cfg; expanded_df := [] |}
  end.

(** The result of scoring, when scoring raises nothing. *)
Definition scored (self : IrrigationAnalyzer) (now : Z) (garden : string)
    (hours : Z) : ComplianceResult :=
  match calculate_compliance_score self now garden hours with
  | Ok res => res
  | Raise _ =>
      {| result_garden_id := garden; result_vegetable_type := "";
         overall_score := 0; individual_scores := []; details := [] |}
  end.

(** Two moisture readings of the past hour, 50 and 80 (the end-to-end
    example of the specification). *)
Definition moisture_rows : list Reading :=
  [row_at (noon - 1800000000) "2001" (VFloat 50);
   row_at (noon - 900000000) "2001" (VFloat 80)].

(** One moisture reading stamped one hour after [noon]. *)
Definition late_rows : list Reading :=
  [row_at (noon + 3600000000) "2001" (VFloat 50)].

(** A temperature reading and a free-text line of the same sensor. *)
Definition faulty_sensor_lines : list string :=
  ["[2025-01-15 10:30:15] INFO TempSensor[id=1001]: temperature=23.5";
   "[2025-01-15 10:31:00] ERROR TempSensor[id=1001]: Sensor failure"].

Definition init_line_2001 : string :=
  "[2025-01-15 10:30:00] INFO SoilSensor[id=2001]: Initialized sensor".

Definition init_line_2002 : string :=
  "[2025-01-15 10:30:00] INFO PumpCtrl[id=2002]: Initialized sensor".

Definition pump_failure_row : Reading :=
  {| timestamp := 1736937060000000; level := Some "ERROR";
     type := Some "PumpCtrl"; sensor_id := Some "2002";
     value := VStr "Pump failure on init" |}.

(** The database the importer holds after reading [lines]. *)
Definition imported (cfg : GardenConfig) (lines : list string)
    : list Reading :=
  database (import_data sample_to_datetime init cfg lines).

(** One light reading below the range. *)
Definition dim_rows : list Reading :=
  [row_at (noon - 900000000) "3001" (VFloat 100)].

(** Twenty moisture readings of the past hour, a minute apart: eleven
    of 50 and nine of 90. *)
Definition twenty_rows : list Reading :=
  map (fun i => row_at (noon - 60000000 * Z.of_nat (S i)) "2001"
                  (VFloat (if (i <? 11)%nat then 50 else 90)))
    (seq 0 20).

(** A temperature reading inside the range of garden 1 and three
    moisture readings, one of them inside. *)
Definition mixed_rows : list Reading :=
  [row_at (noon - 1800000000) "1001" (VFloat 23.5);
   row_at (noon - 1500000000) "2001" (VFloat 50);
   row_at (noon - 1200000000) "2001" (VFloat 90);
   row_at (noon - 900000000) "2001" (VFloat 95)].

(** [len(in_range) / len(sensor_data) * 100] computed with the binary64
    operations of the Standard Library. *)
Definition binary64_of_nat (n : nat) : spec_float :=
  match Z.of_nat n with
  | Zpos p => SFdiv 53 1024 (S754_finite false p 0) (S754_finite false 1 0)
  | _ => S754_zero false
  end.

Definition binary64_score (kn : nat * nat) : spec_float :=
  SFmul 53 1024
    (SFdiv 53 1024 (binary64_of_nat (fst kn)) (binary64_of_nat (snd kn)))
    (binary64_of_nat 100).

Definition binary64_percentage (k n : nat) : option Q :=
  Double.of_spec_float (binary64_score (k, n)).

(** The sum from 0, one number after the other, divided by the count,
    with the same operations. *)
Definition binary64_mean (l : list spec_float) : option Q :=
  Double.of_spec_float
    (SFdiv 53 1024 (fold_left (SFadd 53 1024) l (S754_zero false))
       (binary64_of_nat (length l))).

(** The pairs (k, n) with k <= n and 1 <= n <= [m]. *)
Definition counts_up_to (m : nat) : list (nat * nat) :=
  flat_map (fun n => map (fun k => (k, S n)) (seq 0 (S (S n)))) (seq 0 m).

(** The lists of one, two or three pairs of [counts_up_to m]. *)
Definition count_lists (m : nat) : list (list (nat * nat)) :=
  let one := map (fun a => [a]) (counts_up_to m) in
  let more := flat_map (fun l => map (fun a => a :: l) (counts_up_to m)) in
  one ++ more one ++ more (more one).

End Examples.

(** * Properties *)

Section RegexFacts.
Import Regex RegexSpec.
Context {A : Type}.

Lemma rep_sound (p : ascii -> bool) (s : list ascii) :
  forall (n : nat) (k : list ascii -> option A) (x : A),
    rep p n s k = Some x ->
    exists w s', s = w ++ s' /\ forallb p w = true /\ (n <= length w)%nat
                 /\ k s' = Some x.
Proof.
  induction s as [|c s IH]; intros n k x H; simpl in H.
  - destruct n; [|discriminate]. exists [], []. simpl. auto with lia.
  - assert (Hstop : match n with O => k (c :: s) | S _ => None end = Some x ->
                    exists w s', c :: s = w ++ s' /\ forallb p w = true
                                 /\ (n <= length w)%nat /\ k s' = Some x).
    { destruct n; [|discriminate]. intros Hk.
      exists [], (c :: s). simpl. auto with lia. }
    destruct (p c) eqn:Hp; [|auto].
    destruct (rep p (pred n) s k) eqn:Hr; [|auto].
    injection H as ->.
    destruct (IH _ _ _ Hr) as (w & s' & -> & Hw & Hn & Hk).
    exists (c :: w), s'. simpl. rewrite Hp, Hw. repeat split; auto; lia.
Qed.

Lemma run_sound (r : re) :
  forall (s : list ascii) (g : groups)
         (k : list ascii -> groups -> option A) (x : A),
    run r s g k = Some x ->
    exists w s' g', s = w ++ s' /\ lang r w /\ k s' g' = Some x.
Proof.
  induction r as [|p|p n|a IHa b IHb|a IHa|i a IHa]; intros s g k x H;
    simpl in H.
  - exists [], s, g. repeat split; auto.
  - destruct s as [|c s]; [discriminate|].
    destruct (p c) eqn:Hp; [|discriminate].
    exists [c], s, g. simpl. eauto.
  - destruct (rep_sound _ _ _ _ _ H) as (w & s' & -> & Hw & Hn & Hk).
    exists w, s', g. simpl. auto.
  - destruct (IHa _ _ _ _ H) as (w1 & s1 & g1 & -> & Hw1 & H1).
    destruct (IHb _ _ _ _ H1) as (w2 & s2 & g2 & -> & Hw2 & H2).
    exists (w1 ++ w2), s2, g2. rewrite <- app_assoc. simpl. eauto 8.
  - destruct (run a s g k) eqn:Ha.
    + injection H as ->.
      destruct (IHa _ _ _ _ Ha) as (w & s' & g' & -> & Hw & Hk).
      exists w, s', g'. simpl. auto.
    + exists [], s, g. simpl. auto.
  - destruct (IHa _ _ _ _ H) as (w & s' & g' & -> & Hw & Hk).
    exists w, s', (set_group i (take (length (w ++ s') - length s') (w ++ s')) g').
    auto.
Qed.
End RegexFacts.

Section LastGroup.
Import Regex RegexSpec.

(** A match of a sequence ending in group [i] binds group [i] to a word
    of the group's pattern. *)
Lemma ends_with_group_bound (i : nat) (body r : re) :
  ends_with_group i body r ->
  forall (s : list ascii) (g m : groups),
    run r s g (fun _ g' => Some g') = Some m ->
    exists w, m i = Some w /\ lang body w.
Proof.
  induction 1 as [|a b _ IH]; intros s g m H; simpl in H.
  - destruct (run_sound _ _ _ _ _ H) as (w & s' & g' & -> & Hw & Hk).
    injection Hk as <-. exists w. split; [|exact Hw].
    unfold set_group. rewrite Nat.eqb_refl. f_equal.
    rewrite length_app.
    replace (length w + length s' - length s')%nat with (length w) by lia.
    apply take_app_length.
  - destruct (run_sound _ _ _ _ _ H) as (w & s' & g' & _ & _ & Hk).
    exact (IH _ _ _ Hk).
Qed.
End LastGroup.

(** ** The importer *)

Section FloatFacts.
Import Regex RegexSpec Importer.

Lemma take_drop_while_stop (p : ascii -> bool) (d : list ascii) :
  forall rest,
    forallb p d = true ->
    match rest with [] => True | c :: _ => p c = false end ->
    take_while p (d ++ rest) = d /\ drop_while p (d ++ rest) = rest.
Proof.
  induction d as [|c d IH]; intros rest Hd Hrest; simpl in *.
  - destruct rest as [|c rest]; [auto|]. simpl. rewrite Hrest. auto.
  - apply andb_true_iff in Hd as [Hc Hd]. rewrite Hc.
    destruct (IH rest Hd Hrest) as [-> ->]. auto.
Qed.

Lemma digits_all (w : list ascii) :
  lang (Rep is_digit 1) w -> all_digits w = true.
Proof.
  intros [Hw Hn]. unfold all_digits. rewrite Hw.
  destruct w; simpl in *; [lia|reflexivity].
Qed.

(** [float] accepts every text of [\d+(?:\.\d+)?]. *)
Lemma float_of_decimal (w : list ascii) :
  lang (Cats [Rep is_digit 1; Opt (Cats [Chr "."; Rep is_digit 1])]) w ->
  exists q, float_of w = Some q.
Proof.
  intros (d1 & w2 & -> & Hd1 & w3 & w4 & -> & Hopt & ->).
  rewrite app_nil_r. pose proof (digits_all _ Hd1) as Hall1.
  destruct Hd1 as [Hd1 _]. unfold float_of.
  destruct Hopt as [(c & w5 & -> & (c' & -> & Hc) & d2 & w6 & -> & Hd2 & ->)| ->].
  - apply Ascii.eqb_eq in Hc. subst c'. rewrite app_nil_r. simpl.
    destruct (take_drop_while_stop is_digit d1 ("."%char :: d2) Hd1 eq_refl)
      as [-> ->].
    rewrite Hall1, (digits_all _ Hd2). simpl. eauto.
  - destruct (take_drop_while_stop is_digit d1 [] Hd1 I) as [-> ->].
    rewrite Hall1. eauto.
Qed.

Lemma data_match_float (line : string) (m : groups) :
  re_match data_re line = Some m -> exists q, float (group m 5) = Some q.
Proof.
  intros H.
  destruct (ends_with_group_bound 5
              (Cats [Rep is_digit 1; Opt (Cats [Chr "."; Rep is_digit 1])])
              data_re) with (2 := H) as (w & Hm & Hw).
  { unfold data_re, Cats. simpl.
    repeat first [apply ends_here | apply ends_later]. }
  destruct (float_of_decimal w Hw) as [q Hq].
  exists q. unfold float, group. rewrite Hm. simpl.
  rewrite list_ascii_of_string_of_list_ascii. exact Hq.
Qed.

Lemma text_match_payload (line : string) (m : groups) :
  re_match text_re line = Some m -> exists s, group m 5 = Some s.
Proof.
  intros H.
  destruct (ends_with_group_bound 5 (Rep is_dot 1) text_re) with (2 := H)
    as (w & Hm & _).
  { unfold text_re, Cats. simpl.
    repeat first [apply ends_here | apply ends_later]. }
  unfold group. rewrite Hm. simpl. eauto.
Qed.
End FloatFacts.

Section ParseLine.
Import Regex RegexSpec Importer ImporterSpec.
Variable to_datetime : string -> option Z.


End ParseLine.

Section ImportData.
Import Regex Importer ImporterSpec.
Variable to_datetime : string -> option Z.
Local Abbreviation rows_of := (ImporterSpec.rows_of to_datetime).

Lemma fold_import_line_database (lines : list string) :
  forall st : state,
    database (fold_left (import_line to_datetime) lines st)
    = database st ++ rows_of lines.
Proof.
  induction lines as [|raw lines IH]; intros st; simpl.
  - symmetry. apply app_nil_r.
  - rewrite IH. unfold import_line.
    destruct (parse_line to_datetime (strip raw)); simpl;
      rewrite <- ?app_assoc; reflexivity.
Qed.

Lemma import_line_no_match (st : state) (raw : string) :
  parse_line to_datetime (strip raw) = NoMatch ->
  import_line to_datetime st raw = st.
Proof. unfold import_line. intros ->. reflexivity. Qed.

(** C3, as the code has it: the database after [import_data] is the
    rows parsed from the lines, in line order, after what it held; a
    line that matches none of the three patterns adds no row and
    changes nothing else, so the importer is left exactly as if the
    line were not in the batch (no count of skipped lines is kept). *)
Theorem import_data_rows (self : state) (map_json : GardenConfig)
    (lines : list string) :
  database (import_data to_datetime self map_json lines)
  = database self ++ rows_of lines
  /\ forall pre raw post,
       lines = pre ++ raw :: post ->
       parse_line to_datetime (strip raw) = NoMatch ->
       rows_of lines = rows_of pre ++ rows_of post
       /\ import_data to_datetime self map_json lines
          = import_data to_datetime self map_json (pre ++ post).
Proof.
  split.
  - unfold import_data. rewrite fold_import_line_database. reflexivity.
  - intros pre raw post -> Hno. split.
    + unfold rows_of. rewrite !flat_map_app. simpl. rewrite Hno. reflexivity.
    + unfold import_data. rewrite !fold_left_app. simpl.
      rewrite import_line_no_match by exact Hno. reflexivity.
Qed.
End ImportData.

(** ** Loops that may raise *)

Section ResultFacts.
Context {A B : Type}.
Implicit Types (f : A -> result B) (l : list A).

Lemma rmap_app f l1 l2 :
  rmap f (l1 ++ l2)
  = (a <-! rmap f l1; b <-! rmap f l2; Ok (a ++ b)).
Proof.
  induction l1 as [|x l1 IH]; simpl.
  - destruct (rmap f l2); reflexivity.
  - destruct (f x); simpl; [|reflexivity]. rewrite IH.
    destruct (rmap f l1); simpl; [|reflexivity].
    destruct (rmap f l2); reflexivity.
Qed.

Lemma rmap_ok_map f (g : A -> B) l :
  (forall x, In x l -> f x = Ok (g x)) -> rmap f l = Ok (map g l).
Proof.
  induction l as [|x l IH]; intros H; simpl; [reflexivity|].
  rewrite (H x) by (left; reflexivity). simpl.
  rewrite IH by (intros y Hy; apply H; right; exact Hy). reflexivity.
Qed.

Lemma rmap_ok_inv f l :
  forall ys, rmap f l = Ok ys -> Forall2 (fun x y => f x = Ok y) l ys.
Proof.
  induction l as [|x l IH]; simpl; intros ys H.
  - injection H as <-. constructor.
  - destruct (f x) eqn:Hx; simpl in H; [|discriminate].
    destruct (rmap f l) eqn:Hl; simpl in H; [|discriminate].
    injection H as <-. constructor; auto.
Qed.

Lemma rmap_ok_rel f (R : B -> A -> Prop) l :
  (forall x, In x l -> exists y, f x = Ok y /\ R y x) ->
  exists ys, rmap f l = Ok ys /\ Forall2 R ys l.
Proof.
  induction l as [|x l IH]; intros H; simpl.
  - exists []. split; [reflexivity|constructor].
  - destruct (H x) as (y & -> & Hy); [left; reflexivity|].
    destruct IH as (ys & -> & Hys); [intros z Hz; apply H; right; exact Hz|].
    exists (y :: ys). split; [reflexivity|constructor; assumption].
Qed.

(** A loop with a raising element raises, with the exception of one of
    its elements. *)
Lemma rmap_raise_in f l x e0 :
  In x l -> f x = Raise e0 ->
  exists y e, In y l /\ f y = Raise e /\ rmap f l = Raise e.
Proof.
  induction l as [|z l IH]; simpl; intros Hin Hx; [contradiction|].
  destruct (f z) eqn:Hz.
  - destruct Hin as [->|Hin]; [congruence|].
    destruct (IH Hin Hx) as (y & e & Hy & Hfy & ->).
    exists y, e. auto.
  - exists z, e. auto.
Qed.

Lemma rmap_raise_inv f l e :
  rmap f l = Raise e -> exists x, In x l /\ f x = Raise e.
Proof.
  induction l as [|z l IH]; simpl; intros H; [discriminate|].
  destruct (f z) eqn:Hz; simpl in H.
  - destruct (rmap f l); simpl in H; [discriminate|].
    destruct (IH H) as (x & Hx & Hfx). eauto.
  - injection H as ->. eauto.
Qed.
End ResultFacts.

(** ** Zone expansion *)

Section Expansion.
Import Analyzer AnalyzerSpec.
Variable cfg : GardenConfig.

Lemma value_ne_Init_iff (v : Value) : value_ne_Init v = true <-> v <> Init.
Proof.
  unfold Init. destruct v as [q|s]; simpl.
  - split; [discriminate|reflexivity].
  - rewrite negb_true_iff. destruct (String.eqb_spec s "Init") as [->|Hne].
    + split; [discriminate|congruence].
    + split; [congruence|reflexivity].
Qed.

Lemma expand_after_remove_inits (database : list Reading) :
  flatten (rmap (expand_row cfg) (remove_inits (map (add_columns cfg) database)))
  = flatten (rmap (zone_rows cfg) database).
Proof.
  induction database as [|r db IH]; simpl; [reflexivity|].
  unfold zone_rows at 1. unfold flatten in *.
  destruct (value_ne_Init (value r)); simpl.
  - destruct (expand_row cfg (add_columns cfg r)); simpl; [|reflexivity].
    destruct (rmap (expand_row cfg) _), (rmap (zone_rows cfg) db);
      simpl in *; congruence.
  - destruct (rmap (expand_row cfg) _), (rmap (zone_rows cfg) db);
      simpl in *; congruence.
Qed.

(** The analyzer is built exactly when every reading expands, and then
    [expanded_df] is the readings' zone rows, reading after reading. *)
Lemma new_ok_iff (database : list Reading) (rows : list ZoneReading) :
  (exists a, new cfg database = Ok a /\ expanded_df a = rows)
  <-> flatten (rmap (zone_rows cfg) database) = Ok rows.
Proof.
  rewrite <- expand_after_remove_inits. unfold new, _prepare_data, flatten.
  destruct (rmap (expand_row cfg) _); simpl; split.
  - intros (a' & Ha & <-). injection Ha as <-. reflexivity.
  - intros H. injection H as <-. eauto.
  - intros (a' & Ha & _). discriminate.
  - discriminate.
Qed.

Lemma new_raise_iff (database : list Reading) (e : exn) :
  new cfg database = Raise e
  <-> flatten (rmap (zone_rows cfg) database) = Raise e.
Proof.
  rewrite <- expand_after_remove_inits. unfold new, _prepare_data, flatten.
  destruct (rmap (expand_row cfg) _); simpl; split; congruence.
Qed.

Lemma flatten_around (pre post : list Reading) (r : Reading)
    (zpre zs zpost : list ZoneReading) :
  flatten (rmap (zone_rows cfg) pre) = Ok zpre ->
  flatten (rmap (zone_rows cfg) post) = Ok zpost ->
  zone_rows cfg r = Ok zs ->
  flatten (rmap (zone_rows cfg) (pre ++ r :: post)) = Ok (zpre ++ zs ++ zpost).
Proof.
  unfold flatten. rewrite rmap_app. simpl. intros Hpre Hpost ->. simpl.
  destruct (rmap (zone_rows cfg) pre); simpl in *; [|discriminate].
  destruct (rmap (zone_rows cfg) post); simpl in *; [|discriminate].
  injection Hpre as <-. injection Hpost as <-.
  rewrite concat_app. reflexivity.
Qed.

Lemma new_row_ok (row : Sample) (id : string) (g : Garden) :
  gardens cfg !! id = Some g ->
  new_row cfg row id
  = Ok {| sample := row; garden_id := id;
          row_vegetable_type := vegetable_type g;
          row_location := location g |}.
Proof. unfold new_row, lookup_key. intros ->. reflexivity. Qed.

Lemma new_row_raise (row : Sample) (id : string) (e : exn) :
  new_row cfg row id = Raise e ->
  e = KeyError id /\ gardens cfg !! id = None.
Proof.
  unfold new_row, lookup_key. destruct (gardens cfg !! id); simpl.
  - discriminate.
  - intros H. injection H as <-. auto.
Qed.

Lemma zone_rows_raise (r : Reading) (e : exn) :
  zone_rows cfg r = Raise e ->
  exists key, e = KeyError key /\ gardens cfg !! key = None.
Proof.
  unfold zone_rows, expand_row.
  destruct (value_ne_Init (value r)); [|discriminate].
  destruct (garden_ids (add_columns cfg r)) as [ids|]; [|discriminate].
  destruct (0 <? length ids)%nat; [|discriminate].
  intros H. apply rmap_raise_inv in H as (id & _ & H).
  apply new_row_raise in H. eauto.
Qed.

Lemma garden_ids_mapped (r : Reading) (s : string) :
  sensor_id r = Some s ->
  garden_ids (add_columns cfg r) = sensor_garden_mapping cfg !! s.
Proof. unfold add_columns. simpl. intros ->. reflexivity. Qed.
End Expansion.

Section ExpansionClaims.
Import Analyzer AnalyzerSpec.
Variable cfg : GardenConfig.

(** C5, as the code has it: between the zone rows of the readings
    before it and those of the readings after it, a reading whose
    value is not the Init marker and whose sensor is mapped to the
    zones [ids], all of them gardens, contributes one zone row per
    entry of [ids], in order, each with that garden's vegetable type
    and location; a reading whose value is the Init marker, or without
    sensor id, or whose sensor is unmapped or mapped to no zone,
    contributes none. *)
Theorem expansion_fan_out (pre post : list Reading) (r : Reading)
    (apre apost : IrrigationAnalyzer) :
  new cfg pre = Ok apre ->
  new cfg post = Ok apost ->
  (forall s ids,
      value r <> Init ->
      sensor_id r = Some s ->
      sensor_garden_mapping cfg !! s = Some ids ->
      (forall id, In id ids -> is_Some (gardens cfg !! id)) ->
      exists a zs,
        new cfg (pre ++ r :: post) = Ok a
        /\ expanded_df a = expanded_df apre ++ zs ++ expanded_df apost
        /\ length zs = length ids
        /\ Forall2 (row_for cfg r) zs ids)
  /\ (value r = Init
      \/ sensor_id r = None
      \/ (exists s, sensor_id r = Some s
                    /\ (sensor_garden_mapping cfg !! s = None
                        \/ sensor_garden_mapping cfg !! s = Some [])) ->
      exists a,
        new cfg (pre ++ r :: post) = Ok a
        /\ expanded_df a = expanded_df apre ++ expanded_df apost).
Proof.
  intros Hpre Hpost.
  assert (Hzpre : flatten (rmap (zone_rows cfg) pre) = Ok (expanded_df apre))
    by (apply new_ok_iff; eauto).
  assert (Hzpost : flatten (rmap (zone_rows cfg) post) = Ok (expanded_df apost))
    by (apply new_ok_iff; eauto).
  split.
  - intros s ids Hv Hs Hids Hall.
    assert (Hrows : exists zs, zone_rows cfg r = Ok zs
                               /\ Forall2 (row_for cfg r) zs ids).
    { unfold zone_rows, expand_row.
      apply value_ne_Init_iff in Hv. rewrite Hv.
      rewrite (garden_ids_mapped cfg r s Hs), Hids.
      destruct ids as [|id0 ids'].
      - exists []. split; [reflexivity|constructor].
      - change (0 <? length (id0 :: ids'))%nat with true. cbv iota.
        apply rmap_ok_rel. intros id Hid.
        destruct (Hall id Hid) as [g Hg].
        eexists. split; [apply new_row_ok; exact Hg|].
        unfold row_for. simpl. eauto 6. }
    destruct Hrows as (zs & Hzs & Hrel).
    pose proof (flatten_around cfg pre post r _ _ _ Hzpre Hzpost Hzs) as H.
    apply new_ok_iff in H as (a & Ha & Hexp).
    exists a, zs. repeat split; auto.
    eapply Forall2_length; eassumption.
  - intros Hnone.
    assert (Hzs : zone_rows cfg r = Ok []).
    { unfold zone_rows, expand_row.
      destruct (value_ne_Init (value r)) eqn:Hv; [|reflexivity].
      destruct Hnone as [Hi | [Hs | (s & Hs & [Hm | Hm])]].
      - rewrite Hi in Hv. discriminate.
      - unfold add_columns. simpl. rewrite Hs. reflexivity.
      - rewrite (garden_ids_mapped cfg r s Hs), Hm. reflexivity.
      - rewrite (garden_ids_mapped cfg r s Hs), Hm. reflexivity. }
    pose proof (flatten_around cfg pre post r _ _ _ Hzpre Hzpost Hzs) as H.
    apply new_ok_iff in H as (a & Ha & Hexp). exists a. auto.
Qed.

(** C10, as the code has it: when some reading whose value is not the
    Init marker has a sensor mapped to a zone id that is not a key of
    [gardens], building the analyzer raises KeyError for a zone id
    missing from [gardens], and no analyzer (so no expanded rows) is
    produced. *)
Theorem expansion_unknown_zone_raises (database : list Reading)
    (r : Reading) (s id : string) (ids : list string) :
  In r database ->
  value r <> Init ->
  sensor_id r = Some s ->
  sensor_garden_mapping cfg !! s = Some ids ->
  In id ids ->
  gardens cfg !! id = None ->
  exists key,
    new cfg database = Raise (KeyError key) /\ gardens cfg !! key = None.
Proof.
  intros Hr Hv Hs Hids Hid Hnone.
  assert (Hraise : exists e, zone_rows cfg r = Raise e).
  { unfold zone_rows, expand_row.
    apply value_ne_Init_iff in Hv. rewrite Hv.
    rewrite (garden_ids_mapped cfg r s Hs), Hids.
    destruct ids as [|id0 ids']; [contradiction|].
    change (0 <? length (id0 :: ids'))%nat with true. cbv iota.
    destruct (rmap_raise_in (new_row cfg (add_columns cfg r)) (id0 :: ids')
                id (KeyError id) Hid) as (y & e & _ & _ & ->).
    { unfold new_row, lookup_key. rewrite Hnone. reflexivity. }
    eauto. }
  destruct Hraise as [e0 He0].
  destruct (rmap_raise_in (zone_rows cfg) database r e0 Hr He0)
    as (y & e & _ & Hy & Hall).
  destruct (zone_rows_raise cfg y e Hy) as (key & -> & Hkey).
  exists key. split; [|exact Hkey].
  apply new_raise_iff. unfold flatten. rewrite Hall. reflexivity.
Qed.
End ExpansionClaims.

(** ** Double arithmetic: rounding, the score and the mean *)

Section DoubleFacts.
Import Double Analyzer AnalyzerSpec.
Local Open Scope Q_scope.

Lemma round_half_even_floor (x : Q) :
  (Qfloor x <= round_half_even x <= Qfloor x + 1)%Z.
Proof.
  unfold round_half_even.
  destruct (x - inject_Z (Qfloor x) ?= 1 # 2); [destruct (Z.even _)| |]; lia.
Qed.

Lemma round_half_even_error (x : Q) :
  x - (1 # 2) <= inject_Z (round_half_even x) <= x + (1 # 2).
Proof.
  pose proof (Qfloor_le x) as Hlo. pose proof (Qlt_floor x) as Hhi.
  rewrite inject_Z_plus in Hhi. change (inject_Z 1) with 1 in Hhi.
  unfold round_half_even.
  destruct (x - inject_Z (Qfloor x) ?= 1 # 2) eqn:Hc.
  - apply Qeq_alt in Hc.
    destruct (Z.even _); rewrite ?inject_Z_plus;
      change (inject_Z 1) with 1; lra.
  - apply Qlt_alt in Hc. lra.
  - apply Qgt_alt in Hc. rewrite inject_Z_plus.
    change (inject_Z 1) with 1. lra.
Qed.

Lemma round_half_even_nonneg (x : Q) : 0 <= x -> (0 <= round_half_even x)%Z.
Proof.
  intros Hx. pose proof (Qfloor_resp_le _ _ Hx) as H.
  change (Qfloor 0) with 0%Z in H.
  pose proof (round_half_even_floor x). lia.
Qed.

Lemma round_half_even_Z (x : Q) (z : Z) :
  x == inject_Z z -> round_half_even x = z.
Proof.
  intros Hx. unfold round_half_even.
  assert (Hf : Qfloor x = z) by (rewrite Hx; apply Qfloor_Z).
  rewrite Hf.
  assert (Hc : (x - inject_Z z ?= 1 # 2) = Lt).
  { apply (proj1 (Qlt_alt _ _)). lra. }
  rewrite Hc. reflexivity.
Qed.

Lemma round_half_even_ext (x y : Q) :
  x == y -> round_half_even x = round_half_even y.
Proof.
  intros H. unfold round_half_even.
  assert (Hf : Qfloor x = Qfloor y) by (rewrite H; reflexivity).
  rewrite Hf.
  assert (Hc : (x - inject_Z (Qfloor y) ?= 1 # 2)
               = (y - inject_Z (Qfloor y) ?= 1 # 2)) by (rewrite H; reflexivity).
  rewrite Hc. reflexivity.
Qed.

Lemma round_half_even_le (x : Q) (z : Z) :
  x <= inject_Z z -> (round_half_even x <= z)%Z.
Proof.
  intros Hx. pose proof (Qfloor_resp_le _ _ Hx) as Hf. rewrite Qfloor_Z in Hf.
  destruct (Z.eq_dec (Qfloor x) z) as [He|Hne].
  - pose proof (Qfloor_le x) as Hlo. rewrite He in Hlo.
    rewrite (round_half_even_Z x z); [lia|lra].
  - pose proof (round_half_even_floor x). lia.
Qed.

Lemma pow2_pos (c : Z) : 0 < 2 ^ c.
Proof. apply Qpower_0_lt. reflexivity. Qed.

Lemma pow2_Z (a : Z) : (0 <= a)%Z -> inject_Z (2 ^ a) == 2 ^ a.
Proof. intros Ha. apply (Zpower_Qpower 2 a Ha). Qed.

Lemma pow2_succ (c : Z) : 2 ^ (c + 1) == 2 * 2 ^ c.
Proof. rewrite Qpower_plus by discriminate. change (2 ^ 1) with 2. ring. Qed.

Lemma pow2_lt_inv (a b : Z) : 2 ^ a < 2 ^ b -> (a < b)%Z.
Proof. intros H. apply (Qpower_lt_compat_l_inv 2 a b H). reflexivity. Qed.

Lemma pow2_le (a b : Z) : (a <= b)%Z -> 2 ^ a <= 2 ^ b.
Proof. intros H. apply Qpower_le_compat_l; [exact H|discriminate]. Qed.

Lemma Qabs_nonneg (q : Q) : 0 <= q -> Qabs q = q.
Proof.
  destruct q as [n d]. unfold Qle, Qabs. simpl. intros H.
  f_equal. apply Z.abs_eq. lia.
Qed.

Lemma div_lt_div (n d a b : Q) :
  0 < d -> 0 < b -> n * b < a * d -> n / d < a / b.
Proof.
  intros Hd Hb H. apply Qlt_shift_div_l; [exact Hb|].
  assert (E : n / d * b == n * b / d) by (field; lra). rewrite E.
  apply Qlt_shift_div_r; [exact Hd|exact H].
Qed.

Lemma div_le_div (n d a b : Q) :
  0 < d -> 0 < b -> n * b <= a * d -> n / d <= a / b.
Proof.
  intros Hd Hb H. apply Qle_shift_div_l; [exact Hb|].
  assert (E : n / d * b == n * b / d) by (field; lra). rewrite E.
  apply Qle_shift_div_r; [exact Hd|exact H].
Qed.

(** [ilog2] is the exponent of the leading bit. *)
Lemma ilog2_spec (q : Q) :
  0 < q -> 2 ^ ilog2 q <= q /\ q < 2 ^ (ilog2 q + 1).
Proof.
  intros Hq. destruct q as [n d].
  assert (Hn : (0 < n)%Z) by (unfold Qlt in Hq; simpl in Hq; lia).
  unfold ilog2. cbn [Qnum Qden].
  set (a := Z.log2 n). set (b := Z.log2 (Zpos d)).
  assert (Ha : (0 <= a)%Z) by apply Z.log2_nonneg.
  assert (Hb : (0 <= b)%Z) by apply Z.log2_nonneg.
  destruct (Z.log2_spec n Hn) as [Hn1 Hn2]. fold a in Hn1, Hn2.
  destruct (Z.log2_spec (Zpos d) eq_refl) as [Hd1 Hd2]. fold b in Hd1, Hd2.
  assert (Hqd : n # d == inject_Z n / inject_Z (Zpos d)) by apply Qmake_Qdiv.
  assert (HD : 0 < inject_Z (Zpos d)) by reflexivity.
  assert (HN : 0 < inject_Z n).
  { change (inject_Z 0 < inject_Z n). rewrite <- Zlt_Qlt. exact Hn. }
  assert (HA : 2 ^ a <= inject_Z n).
  { rewrite <- pow2_Z by exact Ha. rewrite <- Zle_Qle. exact Hn1. }
  assert (HA' : inject_Z n < 2 ^ (a + 1)).
  { rewrite <- pow2_Z by lia. rewrite <- Zlt_Qlt. exact Hn2. }
  assert (HB : 2 ^ b <= inject_Z (Zpos d)).
  { rewrite <- pow2_Z by exact Hb. rewrite <- Zle_Qle. exact Hd1. }
  assert (HB' : inject_Z (Zpos d) < 2 ^ (b + 1)).
  { rewrite <- pow2_Z by lia. rewrite <- Zlt_Qlt. exact Hd2. }
  pose proof (pow2_pos a) as Pa. pose proof (pow2_pos b) as Pb.
  pose proof (pow2_pos (a + 1)) as Pa1. pose proof (pow2_pos (b + 1)) as Pb1.
  destruct (Qle_bool (2 ^ (a - b)) (n # d)) eqn:Hcmp.
  - apply Qle_bool_iff in Hcmp. split; [exact Hcmp|].
    replace (a - b + 1)%Z with (a + 1 - b)%Z by lia.
    rewrite Qpower_minus by discriminate. rewrite Hqd.
    apply div_lt_div; [exact HD|exact Pb|].
    apply Qle_lt_trans with (inject_Z n * inject_Z (Zpos d)).
    + apply Qmult_le_l; [exact HN|exact HB].
    + apply Qmult_lt_r; [exact HD|exact HA'].
  - assert (Hlt : n # d < 2 ^ (a - b)).
    { apply Qnot_le_lt. intros H. apply Qle_bool_iff in H. congruence. }
    split.
    + replace (a - b - 1)%Z with (a - (b + 1))%Z by lia.
      rewrite Qpower_minus by discriminate. rewrite Hqd.
      apply div_le_div; [exact Pb1|exact HD|].
      apply Qle_trans with (2 ^ a * 2 ^ (b + 1)).
      * apply Qmult_le_l; [exact Pa|]. apply Qlt_le_weak. exact HB'.
      * apply Qmult_le_r; [exact Pb1|exact HA].
    + replace (a - b - 1 + 1)%Z with (a - b)%Z by lia. exact Hlt.
Qed.

Lemma ulp_exponent_le (q : Q) (E : Z) :
  0 <= q -> q < 2 ^ E -> (0 <= E)%Z -> (ulp_exponent q <= E - 53)%Z.
Proof.
  intros H0 HE HE0. unfold ulp_exponent, emin.
  rewrite (Qabs_nonneg q H0).
  destruct (Qlt_le_dec 0 q) as [Hpos|Hz].
  - destruct (ilog2_spec q Hpos) as [Hlo _].
    assert (ilog2 q < E)%Z.
    { apply pow2_lt_inv. eapply Qle_lt_trans; eassumption. }
    lia.
  - destruct q as [n d].
    assert (Hn : n = 0%Z).
    { unfold Qle in H0, Hz. simpl in H0, Hz. clear - H0 Hz. lia. }
    subst n. unfold ilog2. cbn [Qnum Qden]. change (Z.log2 0) with 0%Z.
    pose proof (Z.log2_nonneg (Zpos d)).
    destruct (Qle_bool _ _) eqn:Hcmp; [|lia].
    apply Qle_bool_iff in Hcmp.
    pose proof (pow2_pos (0 - Z.log2 (Zpos d))) as Hp.
    exfalso. apply (Qlt_irrefl 0).
    eapply Qlt_le_trans; [exact Hp|]. eapply Qle_trans; eassumption.
Qed.

Lemma round_proper (q q' : Q) : q == q' -> round q = round q'.
Proof. intros H. unfold round. rewrite (Qred_complete q q' H). reflexivity. Qed.

(** What [round] computes, up to [==]. *)
Lemma round_value (q : Q) :
  round q
  == inject_Z (round_half_even (q / 2 ^ ulp_exponent (Qred q)))
     * 2 ^ ulp_exponent (Qred q).
Proof.
  unfold round. cbv zeta. eapply Qeq_trans; [apply Qred_correct|].
  assert (H : Qred q / 2 ^ ulp_exponent (Qred q)
              == q / 2 ^ ulp_exponent (Qred q)).
  { unfold Qdiv. apply Qmult_comp; [apply Qred_correct|reflexivity]. }
  rewrite (round_half_even_ext _ _ H). reflexivity.
Qed.

Lemma ulp_exponent_red (q : Q) (E : Z) :
  0 <= q -> q < 2 ^ E -> (0 <= E)%Z -> (ulp_exponent (Qred q) <= E - 53)%Z.
Proof.
  intros H0 HE HE0. pose proof (Qred_correct q) as Hr.
  apply ulp_exponent_le; [| |exact HE0].
  - eapply Qle_trans; [exact H0|]. apply Qle_lteq. right. symmetry. exact Hr.
  - eapply Qle_lt_trans; [|exact HE]. apply Qle_lteq. right. exact Hr.
Qed.

Lemma scaled_Z (B c : Z) :
  (c <= 0)%Z -> inject_Z (B * 2 ^ (- c)) == inject_Z B / 2 ^ c.
Proof.
  intros Hc. rewrite inject_Z_mult, pow2_Z by lia.
  rewrite Qpower_opp. reflexivity.
Qed.

Lemma Qred_Z (z : Z) : Qred (inject_Z z) = inject_Z z.
Proof.
  unfold Qred, inject_Z.
  generalize (Z.ggcd_gcd z 1) (Z.ggcd_correct_divisors z 1).
  destruct (Z.ggcd z 1) as [g [aa bb]]. simpl.
  rewrite Z.gcd_1_r. intros -> [Ha Hb].
  replace aa with z by lia. replace bb with 1%Z by lia. reflexivity.
Qed.

(** A double never leaves an interval whose ends are small integers. *)
Lemma round_bounds (q : Q) (B : Z) :
  0 <= q -> q <= inject_Z B -> (B < 2 ^ 53)%Z ->
  0 <= round q /\ round q <= inject_Z B.
Proof.
  intros H0 HB H53.
  assert (Hc : (ulp_exponent (Qred q) <= 53 - 53)%Z).
  { apply ulp_exponent_red; [exact H0| |lia].
    eapply Qle_lt_trans; [exact HB|].
    rewrite <- pow2_Z by lia. rewrite <- Zlt_Qlt. exact H53. }
  rewrite round_value. set (c := ulp_exponent (Qred q)) in *.
  pose proof (pow2_pos c) as Hp.
  split.
  - apply Qmult_le_0_compat; [|apply Qlt_le_weak; exact Hp].
    change 0 with (inject_Z 0). rewrite <- Zle_Qle.
    apply round_half_even_nonneg.
    apply Qle_shift_div_l; [exact Hp|]. rewrite Qmult_0_l. exact H0.
  - assert (Hm : (round_half_even (q / 2 ^ c) <= B * 2 ^ (- c))%Z).
    { apply round_half_even_le. rewrite scaled_Z by lia.
      unfold Qdiv. apply Qmult_le_compat_r; [exact HB|].
      apply Qlt_le_weak, Qinv_lt_0_compat, Hp. }
    rewrite Zle_Qle in Hm. rewrite scaled_Z in Hm by lia.
    apply Qle_trans with (inject_Z B / 2 ^ c * 2 ^ c).
    + apply Qmult_le_compat_r; [exact Hm|apply Qlt_le_weak; exact Hp].
    + apply Qle_lteq. right. field. lra.
Qed.

(** Integers below 2^53 are doubles. *)
Lemma round_Z (z : Z) :
  (0 <= z < 2 ^ 53)%Z -> round (inject_Z z) = inject_Z z.
Proof.
  intros Hz.
  assert (Hc : (ulp_exponent (Qred (inject_Z z)) <= 53 - 53)%Z).
  { apply ulp_exponent_red; [| |lia].
    - change 0 with (inject_Z 0). rewrite <- Zle_Qle. lia.
    - rewrite <- pow2_Z by lia. rewrite <- Zlt_Qlt. lia. }
  assert (H : round (inject_Z z) == inject_Z z).
  { rewrite round_value. set (c := ulp_exponent (Qred (inject_Z z))) in *.
    pose proof (pow2_pos c) as Hp.
    rewrite (round_half_even_Z _ (z * 2 ^ (- c))).
    - rewrite scaled_Z by lia. field. lra.
    - rewrite scaled_Z by lia. reflexivity. }
  apply Qred_complete in H. rewrite Qred_Z in H.
  transitivity (Qred (round (inject_Z z))); [|exact H].
  unfold round. cbv zeta. symmetry. apply Qred_complete, Qred_correct.
Qed.

(** The rounding error of a double below 2^E is at most half a unit in
    the last place. *)
Lemma round_error (q : Q) (E : Z) :
  0 <= q -> q < 2 ^ E -> (0 <= E)%Z ->
  q - 2 ^ (E - 54) <= round q /\ round q <= q + 2 ^ (E - 54).
Proof.
  intros H0 HE HE0.
  pose proof (ulp_exponent_red q E H0 HE HE0) as Hc.
  rewrite round_value. set (c := ulp_exponent (Qred q)) in *.
  pose proof (pow2_pos c) as Hp.
  destruct (round_half_even_error (q / 2 ^ c)) as [Hlo Hhi].
  set (m := inject_Z (round_half_even (q / 2 ^ c))) in *.
  assert (Hhalf : (1 # 2) * 2 ^ c <= 2 ^ (E - 54)).
  { apply Qle_trans with (2 ^ (c - 1)).
    - apply Qle_lteq. right. unfold Z.sub. rewrite Qpower_plus by discriminate.
      change (2 ^ (- (1))) with (1 # 2). ring.
    - apply pow2_le. lia. }
  assert (Hl : q - (1 # 2) * 2 ^ c <= m * 2 ^ c).
  { apply Qle_trans with ((q / 2 ^ c - (1 # 2)) * 2 ^ c).
    - apply Qle_lteq. right. field. lra.
    - apply Qmult_le_compat_r; [exact Hlo|apply Qlt_le_weak; exact Hp]. }
  assert (Hu : m * 2 ^ c <= q + (1 # 2) * 2 ^ c).
  { apply Qle_trans with ((q / 2 ^ c + (1 # 2)) * 2 ^ c).
    - apply Qmult_le_compat_r; [exact Hhi|apply Qlt_le_weak; exact Hp].
    - apply Qle_lteq. right. field. lra. }
  split; lra.
Qed.


Lemma exact_ratio_bounds (k n : nat) :
  (1 <= n)%nat -> (k <= n)%nat ->
  0 <= inject_Z (Z.of_nat k) / inject_Z (Z.of_nat n)
  /\ inject_Z (Z.of_nat k) / inject_Z (Z.of_nat n) <= 1.
Proof.
  intros Hn Hk.
  assert (Hn' : 0 < inject_Z (Z.of_nat n)).
  { change 0 with (inject_Z 0). rewrite <- Zlt_Qlt. lia. }
  assert (Hk0 : 0 <= inject_Z (Z.of_nat k)).
  { change 0 with (inject_Z 0). rewrite <- Zle_Qle. lia. }
  assert (Hkn : inject_Z (Z.of_nat k) <= inject_Z (Z.of_nat n)).
  { rewrite <- Zle_Qle. lia. }
  split.
  - apply Qle_shift_div_l; [exact Hn'|]. lra.
  - apply Qle_shift_div_r; [exact Hn'|]. lra.
Qed.

Lemma percentage_bounds (k n : nat) :
  (1 <= n)%nat -> (k <= n)%nat -> 0 <= percentage k n /\ percentage k n <= 100.
Proof.
  intros Hn Hk. destruct (exact_ratio_bounds k n Hn Hk) as [H0 H1].
  unfold percentage, mul, div.
  destruct (round_bounds _ 1 H0 H1 eq_refl) as [Hd0 Hd1].
  change (inject_Z 1) with 1 in Hd1.
  apply (round_bounds _ 100); [lra| |reflexivity].
  change (inject_Z 100) with 100. lra.
Qed.

Lemma percentage_full (n : nat) : (1 <= n)%nat -> percentage n n = 100.
Proof.
  intros Hn. unfold percentage, mul, div.
  assert (H1 : inject_Z (Z.of_nat n) / inject_Z (Z.of_nat n) == inject_Z 1).
  { change (inject_Z 1) with 1. field. intros H.
    unfold Qeq in H. simpl in H. lia. }
  rewrite (round_proper _ _ H1), round_Z by (split; [lia|reflexivity]).
  rewrite (round_proper (inject_Z 1 * 100) (inject_Z 100)) by reflexivity.
  apply round_Z. split; [lia|reflexivity].
Qed.

Lemma percentage_zero (n : nat) : (1 <= n)%nat -> percentage 0 n = 0.
Proof.
  intros Hn. unfold percentage, mul, div.
  assert (H0 : inject_Z (Z.of_nat 0) / inject_Z (Z.of_nat n) == inject_Z 0).
  { change (inject_Z (Z.of_nat 0)) with 0. change (inject_Z 0) with 0.
    field. intros H. unfold Qeq in H. simpl in H. lia. }
  rewrite (round_proper _ _ H0), round_Z by (split; [lia|reflexivity]).
  rewrite (round_proper (inject_Z 0 * 100) (inject_Z 0)) by reflexivity.
  apply round_Z. split; [lia|reflexivity].
Qed.

(** The score is 100*k/n up to the rounding of one division and one
    multiplication. *)
Lemma percentage_close (k n : nat) :
  (1 <= n)%nat -> (k <= n)%nat ->
  Qabs (percentage k n - percent_in_range k n) <= score_tolerance.
Proof.
  intros Hn Hk. unfold percent_in_range. apply Qabs_Qle_condition.
  assert (Hn' : ~ inject_Z (Z.of_nat n) == 0).
  { intros H. unfold Qeq in H. simpl in H. lia. }
  destruct (Nat.eq_dec k n) as [->|Hne].
  - rewrite percentage_full by exact Hn.
    assert (E : 100 - 100 * inject_Z (Z.of_nat n) / inject_Z (Z.of_nat n) == 0)
      by (field; exact Hn').
    rewrite E. split; discriminate.
  - destruct (exact_ratio_bounds k n Hn Hk) as [H0 _].
    set (x := inject_Z (Z.of_nat k) / inject_Z (Z.of_nat n)) in *.
    assert (Hx1 : x < 2 ^ 0).
    { change (2 ^ 0) with 1. unfold x.
      apply Qlt_shift_div_r.
      - change 0 with (inject_Z 0). rewrite <- Zlt_Qlt. lia.
      - rewrite Qmult_1_l. rewrite <- Zlt_Qlt. lia. }
    destruct (round_error x 0 H0 Hx1 ltac:(lia)) as [Hd1 Hd2].
    change (2 ^ (0 - 54)) with (1 # 18014398509481984) in Hd1, Hd2.
    destruct (round_bounds x 1 H0) as [Hb0 Hb1];
      [change (2 ^ 0) with 1 in Hx1; change (inject_Z 1) with 1; lra
      |reflexivity|].
    change (inject_Z 1) with 1 in Hb1.
    assert (Hp0 : 0 <= round x * 100) by lra.
    assert (Hp1 : round x * 100 < 2 ^ 7) by (change (2 ^ 7) with 128; lra).
    destruct (round_error (round x * 100) 7 Hp0 Hp1 ltac:(lia)) as [Hm1 Hm2].
    change (2 ^ (7 - 54)) with (1 # 140737488355328) in Hm1, Hm2.
    assert (E : 100 * inject_Z (Z.of_nat k) / inject_Z (Z.of_nat n) == 100 * x)
      by (unfold x; field; exact Hn').
    rewrite E. unfold percentage, mul, div. fold x. unfold score_tolerance.
    split; lra.
Qed.


Lemma fold_add_bounds (l : list Q) :
  forall (acc : Q) (A : Z),
    Forall (fun q => 0 <= q /\ q <= 100) l ->
    0 <= acc -> acc <= inject_Z A ->
    (A + 100 * Z.of_nat (length l) < 2 ^ 53)%Z ->
    0 <= fold_left add l acc
    /\ fold_left add l acc <= inject_Z (A + 100 * Z.of_nat (length l)).
Proof.
  induction l as [|x l IH]; intros acc A Hall H0 HA Hlen.
  - simpl. replace (A + 100 * Z.of_nat 0)%Z with A by lia. auto.
  - inversion Hall as [|? ? [Hx0 Hx1] Hall']; subst.
    cbn [fold_left]. cbn [length] in Hlen.
    destruct (round_bounds (acc + x) (A + 100)) as [Hr0 Hr1].
    + lra.
    + rewrite inject_Z_plus. change (inject_Z 100) with 100. lra.
    + lia.
    + destruct (IH (add acc x) (A + 100)%Z Hall' Hr0 Hr1) as [H1 H2]; [lia|].
      split; [exact H1|].
      replace (A + 100 * Z.of_nat (length (x :: l)))%Z
        with (A + 100 + 100 * Z.of_nat (length l))%Z
        by (cbn [length]; lia).
      exact H2.
Qed.

Lemma fold_add_close (l : list Q) :
  forall (acc : Q) (A : Z),
    Forall (fun q => 0 <= q /\ q <= 100) l ->
    0 <= acc -> acc <= inject_Z A ->
    (A + 100 * Z.of_nat (length l) <= 511)%Z ->
    acc + total l - inject_Z (Z.of_nat (length l)) * (1 # 35184372088832)
    <= fold_left add l acc
    /\ fold_left add l acc
       <= acc + total l + inject_Z (Z.of_nat (length l)) * (1 # 35184372088832).
Proof.
  induction l as [|x l IH]; intros acc A Hall H0 HA Hlen.
  - cbn [fold_left total length]. change (inject_Z (Z.of_nat 0)) with 0.
    split; lra.
  - inversion Hall as [|? ? [Hx0 Hx1] Hall']; subst.
    cbn [fold_left total]. cbn [length] in Hlen.
    assert (HA' : inject_Z (A + 100) == inject_Z A + 100)
      by (rewrite inject_Z_plus; reflexivity).
    assert (H511 : inject_Z A + 100 <= 511).
    { rewrite <- HA'. change 511 with (inject_Z 511). rewrite <- Zle_Qle. lia. }
    destruct (round_bounds (acc + x) (A + 100)) as [Hr0 Hr1];
      [lra|lra|lia|].
    destruct (round_error (acc + x) 9) as [He1 He2];
      [lra|change (2 ^ 9) with 512; lra|lia|].
    change (2 ^ (9 - 54)) with (1 # 35184372088832) in He1, He2.
    destruct (IH (add acc x) (A + 100)%Z Hall' Hr0 Hr1) as [H1 H2]; [lia|].
    unfold add in *.
    replace (Z.of_nat (length (x :: l))) with (Z.of_nat (length l) + 1)%Z
      by (cbn [length]; lia).
    rewrite inject_Z_plus. change (inject_Z 1) with 1.
    split; lra.
Qed.

Lemma inject_nat_pos (n : nat) : (1 <= n)%nat -> 0 < inject_Z (Z.of_nat n).
Proof. intros H. change 0 with (inject_Z 0). rewrite <- Zlt_Qlt. lia. Qed.

Lemma np_mean_bounds (l : list Q) :
  l <> [] -> (length l <= 4)%nat -> Forall (fun q => 0 <= q /\ q <= 100) l ->
  0 <= np_mean l /\ np_mean l <= 100.
Proof.
  intros Hne Hlen Hall.
  assert (Hn : (1 <= length l)%nat) by (destruct l; simpl; [congruence|lia]).
  pose proof (inject_nat_pos _ Hn) as Hn'.
  destruct (fold_add_bounds l 0 0 Hall) as [H0 H1];
    [lra|discriminate|simpl; lia|].
  rewrite Z.add_0_l, inject_Z_mult in H1. change (inject_Z 100) with 100 in H1.
  unfold np_mean, div. apply (round_bounds _ 100); [| |reflexivity].
  - apply Qle_shift_div_l; [exact Hn'|]. lra.
  - apply Qle_shift_div_r; [exact Hn'|]. change (inject_Z 100) with 100. lra.
Qed.

(** [np.mean] of at most four percentages is their arithmetic mean up
    to the rounding of the additions and of the division. *)
Lemma np_mean_close (l : list Q) :
  l <> [] -> (length l <= 4)%nat -> Forall (fun q => 0 <= q /\ q <= 100) l ->
  Qabs (np_mean l - arithmetic_mean l) <= mean_tolerance.
Proof.
  intros Hne Hlen Hall. apply Qabs_Qle_condition.
  assert (Hn : (1 <= length l)%nat) by (destruct l; simpl; [congruence|lia]).
  pose proof (inject_nat_pos _ Hn) as Hn'.
  destruct (fold_add_bounds l 0 0 Hall) as [H0 H1];
    [lra|discriminate|simpl; lia|].
  rewrite Z.add_0_l, inject_Z_mult in H1. change (inject_Z 100) with 100 in H1.
  destruct (fold_add_close l 0 0 Hall) as [Hc1 Hc2];
    [lra|discriminate|lia|].
  set (s := fold_left add l 0) in *.
  set (n := inject_Z (Z.of_nat (length l))) in *.
  assert (Hq0 : 0 <= s / n) by (apply Qle_shift_div_l; [exact Hn'|]; lra).
  assert (Hq1 : s / n <= 100) by (apply Qle_shift_div_r; [exact Hn'|]; lra).
  destruct (round_error (s / n) 7) as [He1 He2];
    [exact Hq0|change (2 ^ 7) with 128; lra|lia|].
  change (2 ^ (7 - 54)) with (1 # 140737488355328) in He1, He2.
  assert (Hd1 : total l / n - (1 # 35184372088832) <= s / n).
  { apply Qle_shift_div_l; [exact Hn'|].
    assert (E : (total l / n - (1 # 35184372088832)) * n
                == total l - n * (1 # 35184372088832)) by (field; lra).
    rewrite E. lra. }
  assert (Hd2 : s / n <= total l / n + (1 # 35184372088832)).
  { apply Qle_shift_div_r; [exact Hn'|].
    assert (E : (total l / n + (1 # 35184372088832)) * n
                == total l + n * (1 # 35184372088832)) by (field; lra).
    rewrite E. lra. }
  unfold np_mean, div, arithmetic_mean, mean_tolerance. fold s n.
  split; lra.
Qed.
End DoubleFacts.

(** ** Compliance scoring *)

Section Scoring.
Import Analyzer AnalyzerSpec.

Lemma recent_rows_in (garden : string) (cutoff_time : Z)
    (expanded : list ZoneReading) (z : ZoneReading) :
  In z (recent_rows garden cutoff_time expanded)
  <-> In z expanded /\ garden_id z = garden
      /\ (cutoff_time <= row_timestamp z)%Z.
Proof.
  unfold recent_rows. rewrite filter_In, andb_true_iff, Z.leb_le.
  rewrite String.eqb_eq. tauto.
Qed.

Lemma of_kind_in (kind : string) (rows : list ZoneReading) (z : ZoneReading) :
  In z (of_kind kind rows) <-> In z rows /\ row_sensor_type z = Some kind.
Proof. unfold of_kind. rewrite filter_In, bool_decide_eq_true. tauto. Qed.

Lemma select_both (f g : Value -> bool) (rows : list ZoneReading) :
  select (zip_with andb (map f (map row_value rows))
                        (map g (map row_value rows))) rows
  = List.filter (fun z => f (row_value z) && g (row_value z)) rows.
Proof.
  unfold select. induction rows as [|z rows IH]; simpl; [reflexivity|].
  destruct (f (row_value z) && g (row_value z)); simpl; rewrite IH;
    reflexivity.
Qed.

Lemma within_split (rng : Range) (rows : list ZoneReading) :
  List.filter (fun z => ge_min rng (row_value z) && le_max rng (row_value z))
    rows
  = rows_within rng rows.
Proof.
  unfold rows_within. apply List.filter_ext. intros z.
  unfold within, ge_min, le_max. destruct (row_value z); reflexivity.
Qed.

Lemma all_numeric_column (rows : list ZoneReading) :
  Forall (fun z => is_numeric (row_value z) = true) rows ->
  forall v, In v (map row_value rows) -> is_numeric v = true.
Proof.
  rewrite Forall_forall. intros H v Hv.
  apply in_map_iff in Hv as (z & <- & Hz).
  apply H. apply list_elem_of_In. exact Hz.
Qed.

(** The score of a kind whose selected rows are all numbers. *)
Lemma score_kind_numeric (rng : Range) (rows : list ZoneReading) :
  rows <> [] ->
  Forall (fun z => is_numeric (row_value z) = true) rows ->
  let score := percentage (length (rows_within rng rows)) (length rows) in
  score_kind rng rows
  = Ok (Some score,
        Scored (status_of score)
               (Qmean (map float_or_zero (map row_value rows)))
               (min rng) (max rng)
               (length rows) (length (rows_within rng rows))).
Proof.
  intros Hne Hnum. pose proof (all_numeric_column rows Hnum) as Hcol.
  unfold score_kind. destruct rows as [|z0 rows']; [congruence|].
  change (length (z0 :: rows') =? 0)%nat with false. cbv iota.
  set (rows := z0 :: rows') in *.
  rewrite (rmap_ok_map _ (ge_min rng)); cycle 1.
  { intros v Hv. specialize (Hcol v Hv). destruct v; [reflexivity|discriminate]. }
  cbn [rbind].
  rewrite (rmap_ok_map _ (le_max rng)); cycle 1.
  { intros v Hv. specialize (Hcol v Hv). destruct v; [reflexivity|discriminate]. }
  cbn [rbind]. unfold mean.
  rewrite (rmap_ok_map _ float_or_zero); cycle 1.
  { intros v Hv. specialize (Hcol v Hv). destruct v; [reflexivity|discriminate]. }
  cbn [rbind]. rewrite select_both, within_split. reflexivity.
Qed.

(** A kind is scored only when its selected rows are all numbers. *)
Lemma score_kind_ok_numeric (rng : Range) (rows : list ZoneReading)
    (entry : option Q * Detail) :
  score_kind rng rows = Ok entry ->
  Forall (fun z => is_numeric (row_value z) = true) rows.
Proof.
  unfold score_kind. destruct (length rows =? 0)%nat eqn:Hlen.
  - apply Nat.eqb_eq in Hlen. destruct rows; [constructor|discriminate].
  - destruct (rmap _ (map row_value rows)) as [ge|] eqn:Hge; [|discriminate].
    intros _. apply rmap_ok_inv in Hge. clear Hlen.
    revert ge Hge. induction rows as [|z rows IH]; intros ge Hge.
    + constructor.
    + simpl in Hge. inversion Hge as [|v b col ge' Hv Hrest]; subst.
      constructor; [|eapply IH; eassumption].
      destruct (row_value z); [reflexivity|discriminate].
Qed.

Lemma score_kind_no_rows (rng : Range) :
  score_kind rng [] = Ok (None, NoData).
Proof. reflexivity. Qed.

Lemma dict_get_map {V W} (h : V -> W) (key : string) (d : list (string * V)) :
  dict_get key (map (fun e => (fst e, h (snd e))) d) = h <$> dict_get key d.
Proof.
  induction d as [|[k v] d IH]; simpl; [reflexivity|].
  destruct (String.eqb k key); [reflexivity|exact IH].
Qed.

(** The loop over the kinds gives each kind that has a range the entry
    computed from its rows. *)
Lemma score_kinds_entry (ranges : gmap string Range)
    (recent : list ZoneReading) (kind : string) (rng : Range) :
  forall todo entries,
    score_kinds ranges recent todo = Ok entries ->
    In kind todo ->
    ranges !! kind = Some rng ->
    exists entry,
      score_kind rng (of_kind kind recent) = Ok entry
      /\ dict_get kind entries = Some entry.
Proof.
  induction todo as [|k todo IH]; simpl; intros entries H Hin Hrng;
    [contradiction|].
  destruct (String.eqb_spec k kind) as [->|Hne].
  - rewrite Hrng in H.
    destruct (score_kind rng (of_kind kind recent)) as [entry|]; [|discriminate].
    cbn [rbind] in H.
    destruct (score_kinds ranges recent todo); [|discriminate].
    injection H as <-. exists entry. simpl. rewrite String.eqb_refl. auto.
  - destruct Hin as [->|Hin]; [congruence|].
    destruct (ranges !! k) as [rng'|] eqn:Hk; [|eauto].
    destruct (score_kind rng' (of_kind k recent)) as [entry'|]; [|discriminate].
    cbn [rbind] in H.
    destruct (score_kinds ranges recent todo) as [rest|] eqn:Hrest;
      [|discriminate].
    injection H as <-. destruct (IH rest eq_refl Hin Hrng) as (entry & He & Hg).
    exists entry. simpl. apply String.eqb_neq in Hne. rewrite Hne. auto.
Qed.

(** The cutoff is the instant [hours] before [now], when that is an
    instant of [datetime]. *)
Lemma hours_before_ok (now hours t : Z) :
  hours_before now hours = Ok t
  <-> t = (now - hours * microseconds_per_hour)%Z
      /\ (datetime_min <= t <= datetime_max)%Z.
Proof.
  unfold hours_before.
  destruct (_ && _) eqn:Hin.
  - apply andb_true_iff in Hin. rewrite !Z.leb_le in Hin. split.
    + intros H. injection H as <-. auto.
    + intros [-> _]. reflexivity.
  - apply andb_false_iff in Hin. rewrite !Z.leb_gt in Hin. split.
    + discriminate.
    + intros [-> ?]. lia.
Qed.

Lemma timestamp_is_datetime (t : Z) :
  (timestamp_min <= t <= timestamp_max)%Z ->
  (datetime_min <= t <= datetime_max)%Z.
Proof. unfold timestamp_min, timestamp_max, datetime_min, datetime_max. lia. Qed.

Lemma hours_before_raise (now hours : Z) (e : exn) :
  hours_before now hours = Raise e ->
  (exists msg, e = OverflowError msg)
  /\ ~ (datetime_min <= now - hours * microseconds_per_hour <= datetime_max)%Z.
Proof.
  unfold hours_before.
  destruct (_ && _) eqn:Hin; [discriminate|].
  apply andb_false_iff in Hin. rewrite !Z.leb_gt in Hin.
  intros H. injection H as <-. split; [eauto|lia].
Qed.

(** What a returned result was computed from. *)
Lemma calculate_compliance_score_ok (self : IrrigationAnalyzer) (now : Z)
    (garden : string) (hours : Z) (res : ComplianceResult) :
  calculate_compliance_score self now garden hours = Ok res ->
  exists g ranges entries,
    gardens (config self) !! garden = Some g
    /\ vegetables (config self) !! vegetable_type g = Some ranges
    /\ expanded_df self <> []
    /\ score_kinds ranges
         (recent_rows garden (now - hours * microseconds_per_hour)
            (expanded_df self)) kinds = Ok entries
    /\ individual_scores res = map (fun e => (fst e, fst (snd e))) entries
    /\ details res = map (fun e => (fst e, snd (snd e))) entries
    /\ overall_score res = overall (individual_scores res).
Proof.
  unfold calculate_compliance_score, lookup_key, recent_data.
  destruct (gardens (config self) !! garden) as [g|] eqn:Hg; [|discriminate].
  cbn [rbind].
  destruct (vegetables (config self) !! vegetable_type g) as [ranges|] eqn:Hr;
    [|discriminate].
  cbn [rbind].
  destruct (hours_before now hours) as [t|] eqn:Ht; [|discriminate].
  apply hours_before_ok in Ht as [-> _].
  cbn [rbind]. destruct (expanded_df self) as [|z0 rows] eqn:Hexp;
    [discriminate|].
  cbn [rbind].
  destruct (score_kinds ranges _ kinds) as [entries|] eqn:Hentries;
    [|discriminate].
  cbn [rbind]. intros H. injection H as <-.
  exists g, ranges, entries. simpl. repeat split; auto.
Qed.

Lemma calculate_compliance_score_cutoff (self : IrrigationAnalyzer) (now : Z)
    (garden : string) (hours : Z) (res : ComplianceResult) :
  calculate_compliance_score self now garden hours = Ok res ->
  hours_before now hours = Ok (now - hours * microseconds_per_hour)%Z.
Proof.
  unfold calculate_compliance_score.
  destruct (lookup_key _ garden) as [g|]; [|discriminate]. cbn [rbind].
  destruct (lookup_key _ (vegetable_type g)); [|discriminate]. cbn [rbind].
  destruct (hours_before now hours) as [t|] eqn:Ht; [|discriminate].
  intros _. pose proof Ht as Ht'. apply hours_before_ok in Ht' as [-> _].
  reflexivity.
Qed.
End Scoring.

(** ** When scoring returns *)

Section ScoringReturns.
Import Analyzer AnalyzerSpec.

Lemma score_kinds_numeric (ranges : gmap string Range)
    (recent : list ZoneReading) :
  forall todo,
    (forall kind, In kind todo -> is_Some (ranges !! kind) ->
       Forall (fun z => is_numeric (row_value z) = true) (of_kind kind recent)) ->
    exists entries, score_kinds ranges recent todo = Ok entries.
Proof.
  induction todo as [|k todo IH]; intros Hnum; simpl; [eauto|].
  destruct IH as [rest Hrest].
  { intros kind Hin. apply Hnum. right. exact Hin. }
  rewrite Hrest. destruct (ranges !! k) as [rng|] eqn:Hk; [|eauto].
  assert (Hrows : Forall (fun z => is_numeric (row_value z) = true)
                    (of_kind k recent)).
  { apply Hnum; [left; reflexivity|]. rewrite Hk. eauto. }
  destruct (of_kind k recent) as [|z rows] eqn:Hof.
  - rewrite score_kind_no_rows. simpl. eauto.
  - rewrite score_kind_numeric by (auto; discriminate). simpl. eauto.
Qed.

(** Scoring returns a result for a configured garden as soon as the
    cutoff is an instant of [datetime], some reading was expanded and
    the selected rows of the kinds that have a range are all numbers. *)
Lemma calculate_compliance_score_returns (self : IrrigationAnalyzer)
    (now : Z) (garden : string) (hours : Z) (g : Garden)
    (ranges : gmap string Range) :
  gardens (config self) !! garden = Some g ->
  vegetables (config self) !! vegetable_type g = Some ranges ->
  (datetime_min <= now - hours * microseconds_per_hour <= datetime_max)%Z ->
  expanded_df self <> [] ->
  (forall kind, In kind kinds -> is_Some (ranges !! kind) ->
     Forall (fun z => is_numeric (row_value z) = true)
       (of_kind kind
          (recent_rows garden (now - hours * microseconds_per_hour)
             (expanded_df self)))) ->
  exists res, calculate_compliance_score self now garden hours = Ok res.
Proof.
  intros Hg Hr Hin Hne Hnum.
  unfold calculate_compliance_score, lookup_key, recent_data.
  rewrite Hg. cbn [rbind]. rewrite Hr. cbn [rbind].
  rewrite (proj2 (hours_before_ok now hours _) (conj eq_refl Hin)).
  cbn [rbind].
  destruct (expanded_df self) as [|z0 rows] eqn:Hexp; [congruence|].
  cbn [rbind].
  destruct (score_kinds_numeric ranges _ kinds Hnum) as [entries ->].
  cbn [rbind]. eauto.
Qed.
End ScoringReturns.

Section ScoringClaims.
Import Analyzer AnalyzerSpec.
Variables (self : IrrigationAnalyzer) (now : Z) (garden : string) (hours : Z).

Local Abbreviation windowStart := (now - hours * microseconds_per_hour)%Z.
Local Abbreviation selected := (recent_rows garden windowStart (expanded_df self)).

Lemma filter_all_true {X} (f : X -> bool) (l : list X) :
  Forall (fun x => f x = true) l -> List.filter f l = l.
Proof.
  induction 1 as [|x l Hx _ IH]; simpl; [reflexivity|].
  rewrite Hx, IH. reflexivity.
Qed.

Lemma window_rows_spec_recent (windowEnd : Z) (expanded : list ZoneReading) :
  window_rows_spec garden windowStart windowEnd expanded
  = List.filter (fun z => (row_timestamp z <=? windowEnd)%Z)
      (recent_rows garden windowStart expanded).
Proof.
  unfold window_rows_spec, recent_rows.
  induction expanded as [|z l IH]; simpl; [reflexivity|].
  destruct (String.eqb (garden_id z) garden && (windowStart <=? row_timestamp z)%Z);
    simpl; [|exact IH].
  destruct (row_timestamp z <=? windowEnd)%Z; rewrite IH; reflexivity.
Qed.

(** C1, as the code has it: a returned result is computed from the
    selected rows, which are exactly the rows of [expanded_df] whose
    zone is the requested one and whose timestamp t satisfies
    now - window <= t, inclusive; there is no upper bound: the rows
    with windowStart <= t <= windowEnd are the selected rows that are
    not after windowEnd, and the selected rows after it are scored as
    well. *)
Theorem compliance_window_selection (res : ComplianceResult) :
  calculate_compliance_score self now garden hours = Ok res ->
  (forall z, In z selected
             <-> In z (expanded_df self) /\ garden_id z = garden
                 /\ (windowStart <= row_timestamp z)%Z)
  /\ (forall windowEnd,
        window_rows_spec garden windowStart windowEnd (expanded_df self)
        = List.filter (fun z => (row_timestamp z <=? windowEnd)%Z) selected)
  /\ exists g ranges,
       gardens (config self) !! garden = Some g
       /\ vegetables (config self) !! vegetable_type g = Some ranges
       /\ forall kind rng,
            In kind kinds -> ranges !! kind = Some rng ->
            exists entry,
              score_kind rng (of_kind kind selected) = Ok entry
              /\ dict_get kind (individual_scores res) = Some (fst entry)
              /\ dict_get kind (details res) = Some (snd entry).
Proof.
  intros H. split; [intros z; apply recent_rows_in|].
  split; [intros windowEnd; apply window_rows_spec_recent|].
  destruct (calculate_compliance_score_ok _ _ _ _ _ H)
    as (g & ranges & entries & Hg & Hr & _ & Hentries & Hs & Hd & _).
  exists g, ranges. repeat split; auto.
  intros kind rng Hkind Hrng.
  destruct (score_kinds_entry _ _ _ _ _ _ Hentries Hkind Hrng)
    as (entry & Hentry & Hget).
  exists entry. rewrite Hs, Hd, !dict_get_map, Hget. auto.
Qed.

(** The rows the loop looks at for a kind are the readings of the zone
    and the kind that are not older than the cutoff. *)
Lemma of_kind_recent_rows (kind : string) (expanded : list ZoneReading) :
  of_kind kind (recent_rows garden windowStart expanded)
  = matching_rows garden windowStart kind expanded.
Proof.
  unfold of_kind, recent_rows, matching_rows.
  induction expanded as [|z l IH]; simpl; [reflexivity|].
  destruct (String.eqb (garden_id z) garden && (windowStart <=? row_timestamp z)%Z);
    simpl; [|exact IH].
  destruct (bool_decide (row_sensor_type z = Some kind)); rewrite IH;
    reflexivity.
Qed.

(** C4, as the code has it: for a configured zone, a window whose start
    is an instant a [Timestamp] holds and a kind with a target range, when no
    matching reading of a scored kind holds a text and the kind has
    N >= 1 matching numeric readings, K of them inside the inclusive
    range [min, max], scoring returns and the kind's score is the
    double K/N*100: within 2^-46 of 100*K/N, exactly 100 when K = N and
    exactly 0 when K = 0; the detail carries N and K, and a reading
    equal to min or to max is among the K. *)
Theorem compliance_score_ratio (g : Garden) (ranges : gmap string Range)
    (kind : string) (rng : Range) :
  (timestamp_min <= windowStart <= timestamp_max)%Z ->
  gardens (config self) !! garden = Some g ->
  vegetables (config self) !! vegetable_type g = Some ranges ->
  ranges !! kind = Some rng ->
  In kind kinds ->
  (forall other z,
      In other kinds -> is_Some (ranges !! other) ->
      In z (matching_rows garden windowStart other (expanded_df self)) ->
      is_numeric (row_value z) = true) ->
  let rows := matching_rows garden windowStart kind (expanded_df self) in
  let N := length (numeric_rows rows) in
  let K := length (rows_within rng (numeric_rows rows)) in
  (1 <= N)%nat ->
  exists res score avg,
    calculate_compliance_score self now garden hours = Ok res
    /\ dict_get kind (individual_scores res) = Some (Some score)
    /\ score = percentage K N
    /\ (Qabs (score - percent_in_range K N) <= score_tolerance)%Q
    /\ (K = N -> score = 100%Q)
    /\ (K = 0%nat -> score = 0%Q)
    /\ dict_get kind (details res)
       = Some (Scored (status_of score) avg (min rng) (max rng) N K)
    /\ forall z q,
         In z (numeric_rows rows) -> row_value z = VFloat q ->
         (min rng <= max rng)%Q ->
         (q == min rng \/ q == max rng)%Q ->
         In z (rows_within rng (numeric_rows rows)).
Proof.
  intros Hts Hg Hr Hrng Hkind Hnum rows N K HN.
  assert (Hin : (datetime_min <= windowStart <= datetime_max)%Z)
    by (apply timestamp_is_datetime; exact Hts).
  assert (Hall : numeric_rows rows = rows).
  { apply filter_all_true, Forall_forall. intros z Hz.
    apply (Hnum kind z Hkind); [rewrite Hrng; eauto|].
    apply list_elem_of_In. exact Hz. }
  subst N K. rewrite Hall in *.
  assert (Hne : rows <> []) by (destruct rows; simpl in HN; [lia|discriminate]).
  assert (Hexp : expanded_df self <> []).
  { intros He. apply Hne. unfold rows. rewrite He. reflexivity. }
  destruct (calculate_compliance_score_returns self now garden hours g ranges
              Hg Hr Hin Hexp) as [res H].
  { intros other Hother Hsome. apply Forall_forall. intros z Hz.
    apply (Hnum other z Hother Hsome). rewrite <- of_kind_recent_rows.
    apply list_elem_of_In. exact Hz. }
  destruct (calculate_compliance_score_ok _ _ _ _ _ H)
    as (g' & ranges' & entries & Hg' & Hr' & _ & Hentries & Hs & Hd & _).
  assert (g' = g) by congruence. subst g'.
  assert (ranges' = ranges) by congruence. subst ranges'.
  destruct (score_kinds_entry _ _ _ _ _ _ Hentries Hkind Hrng)
    as (entry & Hentry & Hget).
  rewrite of_kind_recent_rows in Hentry. fold rows in Hentry.
  pose proof (score_kind_ok_numeric _ _ _ Hentry) as Hrows.
  rewrite (score_kind_numeric rng rows Hne Hrows) in Hentry.
  injection Hentry as <-.
  assert (Hk : (length (rows_within rng rows) <= length rows)%nat)
    by apply List.filter_length_le.
  exists res. eexists. eexists.
  rewrite Hs, Hd, !dict_get_map, Hget. cbn [fmap option_fmap option_map fst snd].
  split; [exact H|]. split; [reflexivity|]. split; [reflexivity|].
  split; [apply percentage_close; assumption|].
  split; [intros ->; apply percentage_full; exact HN|].
  split; [intros ->; apply percentage_zero; exact HN|].
  split; [reflexivity|].
  intros z q Hz Hq Hle Hb. unfold rows_within. apply filter_In.
  split; [exact Hz|]. rewrite Hq. unfold within.
  apply andb_true_iff. rewrite !Qle_bool_iff.
  destruct Hb as [Hb|Hb]; rewrite Hb; split;
    solve [apply Qle_refl | exact Hle].
Qed.

Lemma valid_scores_defined (scores : list (string * option Q)) :
  valid_scores scores = defined_scores scores.
Proof.
  unfold valid_scores.
  induction scores as [|[k [q|]] scores IH]; simpl; [reflexivity| |].
  - f_equal. exact IH.
  - exact IH.
Qed.

Lemma defined_scores_none (scores : list (string * option Q)) :
  (forall kind score, In (kind, score) scores -> score = None) ->
  defined_scores scores = [].
Proof.
  induction scores as [|[k [q|]] l IH]; simpl; intros Hnone; [reflexivity| |].
  - specialize (Hnone k (Some q) (or_introl eq_refl)). discriminate.
  - apply IH. intros k' s' Hin. apply (Hnone k' s'). right. exact Hin.
Qed.
End ScoringClaims.

(** ** What holds around the failing inputs *)

Section Nearby.
Import Analyzer AnalyzerSpec.

Lemma rmap_ok_in {A B} (f : A -> result B) (l : list A) :
  forall ys y, rmap f l = Ok ys -> In y ys -> exists x, In x l /\ f x = Ok y.
Proof.
  induction l as [|x l IH]; simpl; intros ys y H Hy.
  - injection H as <-. contradiction.
  - destruct (f x) as [b|] eqn:Hx; simpl in H; [|discriminate].
    destruct (rmap f l) as [bs|] eqn:Hl; simpl in H; [|discriminate].
    injection H as <-. destruct Hy as [<-|Hy]; [eauto|].
    destruct (IH bs y eq_refl Hy) as (x' & Hx' & Hfx'). eauto.
Qed.

(** No Init row reaches [expanded_df]: every expanded row carries the
    value of a reading of the database that is not the Init marker. *)
Lemma expanded_rows_hold_no_init (cfg : GardenConfig) (database : list Reading)
    (a : IrrigationAnalyzer) (z : ZoneReading) :
  new cfg database = Ok a ->
  In z (expanded_df a) ->
  row_value z <> Init /\ In (reading (sample z)) database.
Proof.
  intros Ha Hz.
  assert (H : flatten (rmap (zone_rows cfg) database) = Ok (expanded_df a))
    by (apply new_ok_iff; eauto).
  unfold flatten in H.
  destruct (rmap (zone_rows cfg) database) as [rows|] eqn:Hrows;
    simpl in H; [|discriminate].
  injection H as H. rewrite <- H in Hz.
  apply in_concat in Hz as (zs & Hzs & Hz).
  destruct (rmap_ok_in _ _ _ _ Hrows Hzs) as (r & Hr & Hrz).
  unfold zone_rows, expand_row in Hrz.
  destruct (value_ne_Init (value r)) eqn:Hv;
    [|injection Hrz as <-; contradiction].
  destruct (garden_ids (add_columns cfg r)) as [ids|];
    [|injection Hrz as <-; contradiction].
  destruct (0 <? length ids)%nat; [|injection Hrz as <-; contradiction].
  destruct (rmap_ok_in _ _ _ _ Hrz Hz) as (id & _ & Hid).
  unfold new_row in Hid.
  destruct (lookup_key (gardens cfg) id); simpl in Hid; [|discriminate].
  injection Hid as <-. unfold row_value. simpl.
  split; [apply value_ne_Init_iff; exact Hv | exact Hr].
Qed.

(** X20: a kind with a range and no selected row at all has score None
    and the detail 'No data' in every result that scoring returns. *)
Lemma kind_without_rows_has_no_data (self : IrrigationAnalyzer) (now : Z)
    (garden : string) (hours : Z) (res : ComplianceResult) (g : Garden)
    (ranges : gmap string Range) (kind : string) (rng : Range) :
  calculate_compliance_score self now garden hours = Ok res ->
  gardens (config self) !! garden = Some g ->
  vegetables (config self) !! vegetable_type g = Some ranges ->
  ranges !! kind = Some rng ->
  In kind kinds ->
  of_kind kind
    (recent_rows garden (now - hours * microseconds_per_hour)
       (expanded_df self)) = [] ->
  dict_get kind (individual_scores res) = Some None
  /\ (status <$> dict_get kind (details res)) = Some "No data".
Proof.
  intros H Hg Hr Hrng Hkind Hrows.
  destruct (calculate_compliance_score_ok _ _ _ _ _ H)
    as (g' & ranges' & entries & Hg' & Hr' & _ & Hentries & Hs & Hd & _).
  assert (g' = g) by congruence. subst g'.
  assert (ranges' = ranges) by congruence. subst ranges'.
  destruct (score_kinds_entry _ _ _ _ _ _ Hentries Hkind Hrng)
    as (entry & Hentry & Hget).
  rewrite Hrows, score_kind_no_rows in Hentry. injection Hentry as <-.
  rewrite Hs, Hd, !dict_get_map, Hget. auto.
Qed.

(** X21: every entry of [details] for temperature, moisture or humidity
    adds exactly one line; so does an entry for light that is 'No data'
    or whose mean is inside the range. *)
Lemma recommend_one_line (kind : string) (d : Detail) :
  In kind ["temperature"; "moisture"; "humidity"]
  \/ d = NoData
  \/ (exists s avg lo hi n k,
        d = Scored s avg lo hi n k
        /\ Qlt_bool avg lo = false /\ Qlt_bool hi avg = false) ->
  exists line, recommend kind d = [line].
Proof.
  intros [Hkind | [-> | (s & avg & lo & hi & n & k & -> & Hlo & Hhi)]].
  - destruct d as [|s avg lo hi n k]; simpl; [eauto|].
    destruct Hkind as [<-|[<-|[<-|[]]]]; simpl;
      destruct (Qlt_bool avg lo), (Qlt_bool hi avg); eauto.
  - simpl. eauto.
  - simpl. rewrite Hlo, Hhi. eauto.
Qed.
End Nearby.

(** ** The importer on the test log *)

Section ImporterExamples.
Import Regex Importer ImporterSpec Examples.


(** The test log with and without its unparseable line leaves the same
    importer. *)
Lemma import_data_rows_witness :
  parse_line sample_to_datetime (strip invalid_line) = NoMatch
  /\ import_data sample_to_datetime init sample_config sample_log_data
     = import_data sample_to_datetime init sample_config
         (take 6 sample_log_data ++ drop 7 sample_log_data).
Proof.
  assert (Hno : parse_line sample_to_datetime (strip invalid_line) = NoMatch)
    by (vm_compute; reflexivity).
  split; [exact Hno|].
  destruct (import_data_rows sample_to_datetime init sample_config
              sample_log_data) as [_ H].
  apply (H (take 6 sample_log_data) invalid_line (drop 7 sample_log_data));
    [reflexivity | exact Hno].
Defined.

(** C3, as the specification words it, fails: the importer after a
    batch with the unparseable line of the test log is the importer
    after the batch without it, so nothing in it counts that line. *)
Lemma import_data_keeps_no_skip_count :
  parse_line sample_to_datetime (strip invalid_line) = NoMatch
  /\ forall count : state -> nat,
       count (import_data sample_to_datetime init sample_config
                sample_log_data)
       <> S (count (import_data sample_to_datetime init sample_config
                      (take 6 sample_log_data ++ drop 7 sample_log_data))).
Proof.
  split; [vm_compute; reflexivity|]. intros count.
  replace (import_data sample_to_datetime init sample_config sample_log_data)
    with (import_data sample_to_datetime init sample_config
            (take 6 sample_log_data ++ drop 7 sample_log_data))
    by (vm_compute; reflexivity).
  apply n_Sn.
Qed.
End ImporterExamples.

(** ** The analyzer on the examples *)

Section AnalyzerExamples.
Import Importer Analyzer AnalyzerSpec Examples.

(** A moisture reading of sensor 2001, mapped to two gardens, gives two
    zone rows. *)
Lemma expansion_fan_out_witness :
  new sample_config [] = Ok (built sample_config [])
  /\ sensor_garden_mapping sample_config !! "2001"
     = Some ["garden_1"; "garden_2"]
  /\ exists a zs,
       new sample_config [row_at noon "2001" (VFloat 50)] = Ok a
       /\ expanded_df a = zs /\ length zs = 2%nat.
Proof.
  assert (H0 : new sample_config [] = Ok (built sample_config []))
    by (vm_compute; reflexivity).
  assert (Hm : sensor_garden_mapping sample_config !! "2001"
               = Some ["garden_1"; "garden_2"]) by (vm_compute; reflexivity).
  split; [exact H0|]. split; [exact Hm|].
  destruct (expansion_fan_out sample_config [] []
              (row_at noon "2001" (VFloat 50)) _ _ H0 H0) as [H _].
  destruct (H "2001" ["garden_1"; "garden_2"]) as (a & zs & Ha & Hexp & Hlen & _).
  - discriminate.
  - reflexivity.
  - exact Hm.
  - intros id [<-|[<-|[]]]; [exists garden_1 | exists garden_2];
      vm_compute; reflexivity.
  - exists a, zs. split; [exact Ha|]. split; [|exact Hlen].
    rewrite Hexp. apply app_nil_r.
Defined.

(** C5, as the specification words it, fails: the Init row of a sensor
    mapped to two gardens is expanded to no zone row. *)
Lemma init_reading_is_not_expanded :
  map (fun r => (sensor_id r, value r)) (imported sample_config [init_line_2001])
  = [(Some "2001", Init)]
  /\ sensor_garden_mapping sample_config !! "2001"
     = Some ["garden_1"; "garden_2"]
  /\ exists a,
       new sample_config (imported sample_config [init_line_2001]) = Ok a
       /\ expanded_df a = [].
Proof.
  split; [vm_compute; reflexivity|]. split; [vm_compute; reflexivity|].
  exists (built sample_config (imported sample_config [init_line_2001])).
  split; vm_compute; reflexivity.
Qed.

(** The pump failure line of the test log, with the pump mapped to a
    zone that is not a garden, makes the construction raise. *)
Lemma expansion_unknown_zone_raises_witness :
  In pump_failure_row (imported dangling_config sample_log_data)
  /\ gardens dangling_config !! "garden_9" = None
  /\ exists key,
       new dangling_config (imported dangling_config sample_log_data)
       = Raise (KeyError key)
       /\ gardens dangling_config !! key = None.
Proof.
  assert (Hin : In pump_failure_row (imported dangling_config sample_log_data)).
  { vm_compute. do 4 right. left. reflexivity. }
  assert (Hg : gardens dangling_config !! "garden_9" = None)
    by (vm_compute; reflexivity).
  split; [exact Hin|]. split; [exact Hg|].
  apply (expansion_unknown_zone_raises dangling_config _ pump_failure_row
           "2002" "garden_9" ["garden_9"] Hin).
  - discriminate.
  - reflexivity.
  - vm_compute; reflexivity.
  - left; reflexivity.
  - exact Hg.
Defined.

(** C10, as it is worded, fails: the Init row of a sensor mapped to a
    zone that is not a garden raises nothing; the analyzer is built,
    with no zone row. *)
Lemma init_reading_of_unknown_zone_raises_nothing :
  map (fun r => (sensor_id r, value r)) (imported dangling_config [init_line_2002])
  = [(Some "2002", Init)]
  /\ sensor_garden_mapping dangling_config !! "2002" = Some ["garden_9"]
  /\ gardens dangling_config !! "garden_9" = None
  /\ exists a,
       new dangling_config (imported dangling_config [init_line_2002]) = Ok a
       /\ expanded_df a = [].
Proof.
  split; [vm_compute; reflexivity|]. split; [vm_compute; reflexivity|].
  split; [vm_compute; reflexivity|].
  exists (built dangling_config (imported dangling_config [init_line_2002])).
  split; vm_compute; reflexivity.
Qed.
End AnalyzerExamples.

Section ScoringExamples.
Import Importer Analyzer AnalyzerSpec Examples.

Local Abbreviation day_before :=
  (noon - 24 * microseconds_per_hour)%Z.

(** The selection behind the scores of garden 1 on the two moisture
    readings. *)
Lemma compliance_window_selection_witness :
  calculate_compliance_score (built sample_config moisture_rows) noon
    "garden_1" 24
  = Ok (scored (built sample_config moisture_rows) noon "garden_1" 24)
  /\ forall z,
       In z (recent_rows "garden_1" day_before
               (expanded_df (built sample_config moisture_rows)))
       <-> In z (expanded_df (built sample_config moisture_rows))
           /\ garden_id z = "garden_1"
           /\ (day_before <= row_timestamp z)%Z.
Proof.
  assert (H : calculate_compliance_score (built sample_config moisture_rows)
                noon "garden_1" 24
              = Ok (scored (built sample_config moisture_rows) noon
                      "garden_1" 24)) by (vm_compute; reflexivity).
  split; [exact H|].
  exact (proj1 (compliance_window_selection _ _ _ _ _ H)).
Defined.

(** C1, as the specification words it, fails: a reading stamped one
    hour after the end of the window (the instant of scoring) is
    selected and scored, where the window [windowStart, windowEnd]
    holds no row. *)
Lemma reading_after_window_end_is_scored :
  map row_timestamp (expanded_df (built sample_config late_rows))
  = [(noon + 3600000000)%Z; (noon + 3600000000)%Z]
  /\ window_rows_spec "garden_1" day_before noon
       (expanded_df (built sample_config late_rows)) = []
  /\ length (recent_rows "garden_1" day_before
               (expanded_df (built sample_config late_rows))) = 1%nat
  /\ exists res,
       calculate_compliance_score (built sample_config late_rows) noon
         "garden_1" 24 = Ok res
       /\ dict_get "moisture" (individual_scores res) = Some (Some 100%Q)
       /\ dict_get "moisture" (details res)
          = Some (Scored "Good" 50 40 70 1 1).
Proof.
  split; [vm_compute; reflexivity|]. split; [vm_compute; reflexivity|].
  split; [vm_compute; reflexivity|].
  exists (scored (built sample_config late_rows) noon "garden_1" 24).
  repeat split; vm_compute; reflexivity.
Qed.

(** Garden 1 accepts moisture in [40, 70]: of twenty readings, eleven
    of 50 and nine of 90, eleven are inside; the score is the double
    11/20*100, within the tolerance of 55. *)
Lemma compliance_score_ratio_witness :
  exists res score,
    calculate_compliance_score (built sample_config twenty_rows) noon
      "garden_1" 24 = Ok res
    /\ dict_get "moisture" (individual_scores res) = Some (Some score)
    /\ score = percentage 11 20
    /\ (Qabs (score - percent_in_range 11 20) <= score_tolerance)%Q.
Proof.
  destruct (compliance_score_ratio (built sample_config twenty_rows) noon
              "garden_1" 24 garden_1 tomato_ranges "moisture"
              {| min := 40; max := 70 |})
    as (res & score & avg & H & Hs & Hp & Hc & _).
  - vm_compute. split; discriminate.
  - vm_compute; reflexivity.
  - vm_compute; reflexivity.
  - vm_compute; reflexivity.
  - right; left; reflexivity.
  - intros other z Hother _. revert z. apply forallb_forall.
    destruct Hother as [<-|[<-|[<-|[<-|[]]]]]; vm_compute; reflexivity.
  - vm_compute. lia.
  - exists res, score. split; [exact H|]. split; [exact Hs|].
    split; [exact Hp | exact Hc].
Defined.

(** C4, as the specification words it, fails: with eleven of twenty
    readings in range the score is not exactly 100*11/20 = 55; the
    division rounds 11/20 and the product rounds again, which leaves
    55 + 2^-47. *)
Lemma score_of_eleven_in_twenty_is_not_55 :
  length (numeric_rows
            (matching_rows "garden_1" day_before "moisture"
               (expanded_df (built sample_config twenty_rows)))) = 20%nat
  /\ length (rows_within {| min := 40; max := 70 |}
               (numeric_rows
                  (matching_rows "garden_1" day_before "moisture"
                     (expanded_df (built sample_config twenty_rows)))))
     = 11%nat
  /\ (percent_in_range 11 20 == 55)%Q
  /\ exists res score,
       calculate_compliance_score (built sample_config twenty_rows) noon
         "garden_1" 24 = Ok res
       /\ dict_get "moisture" (individual_scores res) = Some (Some score)
       /\ ~ (score == percent_in_range 11 20)%Q
       /\ (score - 55 == 1 # 140737488355328)%Q.
Proof.
  split; [vm_compute; reflexivity|]. split; [vm_compute; reflexivity|].
  split; [vm_compute; reflexivity|].
  exists (scored (built sample_config twenty_rows) noon "garden_1" 24).
  eexists. split; [vm_compute; reflexivity|].
  split; [vm_compute; reflexivity|].
  split; [|vm_compute; reflexivity].
  vm_compute. discriminate.
Qed.

(** C7 at its failing input: a garden whose sensors have sent nothing
    but their initialization gets no overall score of 0 but a KeyError,
    where a garden without readings next to a reading of another garden
    gets the 0: the code attempts it. *)
Lemma overall_without_readings_raises :
  (exists a,
      new sample_config (imported sample_config [init_line_2001]) = Ok a
      /\ calculate_compliance_score a noon "garden_1" 24
         = Raise (KeyError "garden_id"))
  /\ exists res,
       calculate_compliance_score (built sample_config dim_rows) noon
         "garden_2" 24 = Ok res
       /\ individual_scores res = [("moisture", None)]
       /\ overall_score res = 0%Q.
Proof.
  split.
  - exists (built sample_config (imported sample_config [init_line_2001])).
    split; vm_compute; reflexivity.
  - exists (scored (built sample_config dim_rows) noon "garden_2" 24).
    repeat split; vm_compute; reflexivity.
Qed.

(** The mean of up to three scores agrees with the binary64 operations
    of the Standard Library, for all scores on up to 4 readings. *)
Lemma np_mean_agrees_with_binary64 :
  forallb (fun l => match binary64_mean (map binary64_score l) with
                    | Some q =>
                        Qeq_bool q
                          (np_mean (map (fun kn => percentage (fst kn) (snd kn)) l))
                    | None => false
                    end)
    (count_lists 4)
  = true.
Proof. vm_compute. reflexivity. Qed.

(** The double-precision score agrees with the binary64 operations of
    the Standard Library on all counts up to 40 readings. *)
Lemma percentage_agrees_with_binary64 :
  forallb (fun kn => match binary64_percentage (fst kn) (snd kn) with
                     | Some q => Qeq_bool q (percentage (fst kn) (snd kn))
                     | None => false
                     end)
    (counts_up_to 40)
  = true.
Proof. vm_compute. reflexivity. Qed.

(** C2 at its failing input: the free-text row of a temperature sensor
    is kept by the importer, survives the removal of the Init rows, is
    one of the two rows selected for the kind (one of them numeric),
    and the comparison of its value with the range raises. *)
Lemma free_text_row_is_compared :
  map value (imported sample_config faulty_sensor_lines)
  = [VFloat 23.5; VStr "Sensor failure"]
  /\ exists a,
       new sample_config (imported sample_config faulty_sensor_lines) = Ok a
       /\ map row_value
            (of_kind "temperature"
               (recent_rows "garden_1" day_before (expanded_df a)))
          = [VFloat 23.5; VStr "Sensor failure"]
       /\ exists msg,
            calculate_compliance_score a noon "garden_1" 24
            = Raise (TypeError msg).
Proof.
  split; [vm_compute; reflexivity|].
  exists (built sample_config (imported sample_config faulty_sensor_lines)).
  split; [vm_compute; reflexivity|]. split; [vm_compute; reflexivity|].
  eexists. vm_compute. reflexivity.
Qed.

(** C8 at its failing inputs: with no expanded row at all, scoring a
    garden raises KeyError instead of giving the 'No data' state; and
    with a free-text row as the only row of a kind (no numeric
    reading), it raises TypeError. *)
Lemma no_reading_raises :
  (exists a,
      new sample_config [] = Ok a
      /\ expanded_df a = []
      /\ calculate_compliance_score a noon "garden_1" 24
         = Raise (KeyError "garden_id"))
  /\ (exists a,
        new sample_config [row_at (noon - 1) "1001" (VStr "Sensor failure")]
        = Ok a
        /\ numeric_rows
             (of_kind "temperature"
                (recent_rows "garden_1" day_before (expanded_df a))) = []
        /\ exists msg,
             calculate_compliance_score a noon "garden_1" 24
             = Raise (TypeError msg)).
Proof.
  split.
  - exists (built sample_config []). repeat split; vm_compute; reflexivity.
  - exists (built sample_config
              [row_at (noon - 1) "1001" (VStr "Sensor failure")]).
    split; [vm_compute; reflexivity|]. split; [vm_compute; reflexivity|].
    eexists. vm_compute. reflexivity.
Qed.

(** C6 at its failing input: a garden scored on light only, whose mean
    light (100) is below the minimum (200), gets no line for light; the
    only line returned says that all parameters are within range. *)
Lemma light_below_range_gets_no_line :
  details (scored (built sample_config dim_rows) noon "garden_3"
             default_time_window_hours)
  = [("light", Scored "Poor" 100 200 800 1 0)]
  /\ recommend "light" (Scored "Poor" 100 200 800 1 0) = []
  /\ get_irrigation_recommendations (built sample_config dim_rows) noon
       "garden_3"
     = Ok [AllWithinOptimalRanges].
Proof. repeat split; vm_compute; reflexivity. Qed.
End ScoringExamples.


(** * Further properties *)

(** ** What the patterns capture *)

Section GroupFacts.
Import Regex RegexSpec Invariants.
Context {A : Type}.
Variable P : nat -> list ascii -> Prop.

Lemma run_groups (r : re) :
  forall (s : list ascii) (g : groups)
         (k : list ascii -> groups -> option A) (x : A),
    groups_ok P r ->
    groups_hold P g ->
    run r s g k = Some x ->
    exists w s' g',
      s = w ++ s' /\ lang r w /\ groups_hold P g'
      /\ (forall i, binds i r = true \/ is_Some (g i) -> is_Some (g' i))
      /\ k s' g' = Some x.
Proof.
  induction r as [|p|p n|a IHa b IHb|a IHa|i a IHa]; intros s g k x Hok Hg H;
    simpl in H.
  - exists [], s, g. repeat split; auto. intros i [Hb|Hi]; [discriminate|auto].
  - destruct s as [|c s]; [discriminate|].
    destruct (p c) eqn:Hp; [|discriminate].
    exists [c], s, g. repeat split; simpl; eauto.
    intros i [Hb|Hi]; [discriminate|auto].
  - destruct (rep_sound _ _ _ _ _ H) as (w & s' & -> & Hw & Hn & Hk).
    exists w, s', g. repeat split; simpl; auto.
    intros i [Hb|Hi]; [discriminate|auto].
  - destruct Hok as [Hoka Hokb].
    destruct (IHa _ _ _ _ Hoka Hg H) as (w1 & s1 & g1 & -> & Hw1 & Hg1 & Hb1 & H1).
    destruct (IHb _ _ _ _ Hokb Hg1 H1) as (w2 & s2 & g2 & -> & Hw2 & Hg2 & Hb2 & H2).
    exists (w1 ++ w2), s2, g2. rewrite <- app_assoc.
    repeat split; simpl; eauto 8.
    intros i [Hb|Hi].
    + apply orb_true_iff in Hb as [Hb|Hb]; [apply Hb2, or_intror, Hb1; auto|].
      apply Hb2. auto.
    + apply Hb2, or_intror, Hb1. auto.
  - destruct (run a s g k) eqn:Ha.
    + injection H as ->.
      destruct (IHa _ _ _ _ Hok Hg Ha) as (w & s' & g' & -> & Hw & Hg' & Hb & Hk).
      exists w, s', g'. repeat split; simpl; auto.
      intros i [Hi|Hi]; [discriminate|]. apply Hb. auto.
    + exists [], s, g. repeat split; simpl; auto.
      intros i [Hi|Hi]; [discriminate|auto].
  - destruct Hok as [Hi Hok].
    destruct (IHa _ _ _ _ Hok Hg H) as (w & s' & g' & -> & Hw & Hg' & Hb & Hk).
    rewrite length_app in Hk.
    replace (length w + length s' - length s')%nat with (length w) in Hk by lia.
    rewrite take_app_length in Hk.
    exists w, s', (set_group i w g'). repeat split; simpl; auto.
    + intros j v. unfold set_group. destruct (j =? i)%nat eqn:Hj.
      * apply Nat.eqb_eq in Hj. subst j. intros Hv. injection Hv as <-. auto.
      * apply Hg'.
    + intros j Hj. unfold set_group. destruct (j =? i)%nat eqn:Hji; [eauto|].
      apply Hb. simpl in Hj. destruct Hj as [Hj|Hj]; auto.
Qed.
End GroupFacts.

Section MatchFacts.
Import Regex RegexSpec Importer Invariants.

Lemma match_groups (P : nat -> list ascii -> Prop) (r : re) (line : string)
    (m : groups) :
  groups_ok P r ->
  re_match r line = Some m ->
  groups_hold P m /\ (forall i, binds i r = true -> is_Some (m i)).
Proof.
  intros Hok H. unfold re_match in H.
  assert (H0 : groups_hold P no_groups) by (intros i w; discriminate).
  destruct (run_groups P r _ _ _ _ Hok H0 H)
    as (w & s' & g' & _ & _ & Hg & Hb & Hk).
  injection Hk as <-. split; [exact Hg|]. intros i Hi. apply Hb. auto.
Qed.

Lemma init_re_groups : groups_ok (shape_groups (fun _ => True)) init_re.
Proof. unfold init_re, Cats. simpl. intuition. Qed.

Lemma data_re_groups :
  groups_ok
    (shape_groups
       (lang (Cats [Rep is_digit 1; Opt (Cats [Chr "."; Rep is_digit 1])])))
    data_re.
Proof. unfold data_re, Cats. simpl. intuition. Qed.

Lemma text_re_groups : groups_ok (shape_groups (lang (Rep is_dot 1))) text_re.
Proof. unfold text_re, Cats. simpl. intuition. Qed.

Lemma text_all_of_word (p : ascii -> bool) (w : list ascii) :
  lang (Rep p 1) w -> text_all p (string_of_list_ascii w).
Proof.
  intros [Hw Hn]. split.
  - destruct w; simpl in *; [lia|discriminate].
  - rewrite list_ascii_of_string_of_list_ascii. exact Hw.
Qed.

Lemma digit_value_nonneg (c : ascii) : is_digit c = true -> (0 <= digit_value c)%Z.
Proof.
  unfold is_digit, digit_value. intros H.
  apply andb_true_iff in H as [H _]. apply Nat.leb_le in H. lia.
Qed.

Lemma digits_value_nonneg (ds : list ascii) :
  forallb is_digit ds = true -> (0 <= digits_value ds)%Z.
Proof.
  unfold digits_value.
  assert (H : forall acc, (0 <= acc)%Z -> forallb is_digit ds = true ->
                (0 <= fold_left (fun a c => 10 * a + digit_value c) ds acc)%Z).
  { induction ds as [|c ds IH]; simpl; intros acc Hs Hd; [exact Hs|].
    apply andb_true_iff in Hd as [Hc Hd]. apply IH; [|exact Hd].
    pose proof (digit_value_nonneg c Hc). lia. }
  apply H. lia.
Qed.

Lemma float_of_nonneg (w : list ascii) (q : Q) :
  float_of w = Some q -> (0 <= q)%Q.
Proof.
  unfold float_of, all_digits.
  destruct (drop_while is_digit w) as [|c fp].
  - destruct (negb _ && forallb is_digit (take_while is_digit w)) eqn:H;
      [|discriminate].
    apply andb_true_iff in H as [_ H]. intros Hq. injection Hq as <-.
    pose proof (digits_value_nonneg _ H) as Hv.
    unfold Qle. simpl. lia.
  - destruct (is_char "." c && _ && _) eqn:H; [|discriminate].
    apply andb_true_iff in H as [H Hfp].
    apply andb_true_iff in H as [_ Hip].
    apply andb_true_iff in Hip as [_ Hip].
    apply andb_true_iff in Hfp as [_ Hfp].
    intros Hq. injection Hq as <-.
    assert (Hv : (0 <= digits_value (take_while is_digit w ++ fp))%Z).
    { apply digits_value_nonneg. rewrite forallb_app, Hip, Hfp. reflexivity. }
    apply Qle_shift_div_l.
    + assert (0 < 10 ^ Z.of_nat (length fp))%Z by (apply Z.pow_pos_nonneg; lia).
      unfold Qlt. simpl. lia.
    + rewrite Qmult_0_l. unfold Qle. simpl. lia.
Qed.
End MatchFacts.

(** ** The rows the importer builds *)

Section ParsedRows.
Import Regex RegexSpec Importer ImporterSpec Invariants.
Variable to_datetime : string -> option Z.

Lemma shape_row (P5 : list ascii -> Prop) (r : re) (line : string)
    (m : groups) (v : option Value) (row : Reading) :
  groups_ok (shape_groups P5) r ->
  binds 2 r = true -> binds 3 r = true ->
  re_match r line = Some m ->
  row_of to_datetime m v = Row row ->
  (exists stamp, to_datetime stamp = Some (timestamp row))
  /\ (exists lv, level row = Some lv /\ text_all is_word lv)
  /\ (exists ty, type row = Some ty /\ text_all is_word ty)
  /\ (forall id, sensor_id row = Some id -> text_all is_digit id)
  /\ v = Some (value row)
  /\ groups_hold (shape_groups P5) m.
Proof.
  intros Hok H2 H3 Hm Hrow.
  destruct (match_groups _ _ _ _ Hok Hm) as [Hg Hb].
  unfold row_of in Hrow.
  destruct (to_datetime (text_of (group m 1))) as [t|] eqn:Ht; [|discriminate].
  destruct v as [v|]; [|discriminate]. injection Hrow as <-. simpl.
  split; [eauto|]. unfold group.
  destruct (Hb 2%nat H2) as [w2 Hw2]. destruct (Hb 3%nat H3) as [w3 Hw3].
  rewrite Hw2, Hw3. simpl.
  split; [eexists; split; [reflexivity|]; apply text_all_of_word, (Hg 2%nat), Hw2|].
  split; [eexists; split; [reflexivity|]; apply text_all_of_word, (Hg 3%nat), Hw3|].
  split; [|auto].
  intros id Hid. destruct (m 4%nat) as [w4|] eqn:Hw4; [|discriminate].
  injection Hid as <-. apply text_all_of_word, (Hg 4%nat), Hw4.
Qed.

(** X1: every row the importer builds has a timestamp that
    [pd.to_datetime] gave, a level and a device type that are non-empty
    words, a sensor id that, when present, is a non-empty string of
    digits, and a value that is the text 'Init', a non-empty text
    without line break, or a number that is not negative. *)
Theorem parsed_row_fields (line : string) (row : Reading) :
  parse_line to_datetime line = Row row ->
  (exists stamp, to_datetime stamp = Some (timestamp row))
  /\ (exists lv, level row = Some lv /\ text_all is_word lv)
  /\ (exists ty, type row = Some ty /\ text_all is_word ty)
  /\ (forall id, sensor_id row = Some id -> text_all is_digit id)
  /\ match value row with
     | VFloat q => (0 <= q)%Q
     | VStr s => s = "Init" \/ text_all is_dot s
     end.
Proof.
  unfold parse_line.
  destruct (re_match init_re line) as [m|] eqn:H1.
  { intros Hrow.
    destruct (shape_row _ _ _ _ _ _ init_re_groups eq_refl eq_refl H1 Hrow)
      as (Ht & Hl & Hy & Hs & Hv & _).
    injection Hv as <-. refine (conj Ht (conj Hl (conj Hy (conj Hs _)))).
    left. reflexivity. }
  destruct (re_match data_re line) as [m|] eqn:H2.
  { intros Hrow.
    destruct (shape_row _ _ _ _ _ _ data_re_groups eq_refl eq_refl H2 Hrow)
      as (Ht & Hl & Hy & Hs & Hv & _).
    refine (conj Ht (conj Hl (conj Hy (conj Hs _)))).
    unfold float in Hv. destruct (group m 5) as [s|]; [|discriminate].
    simpl in Hv. destruct (float_of (list_ascii_of_string s)) as [q|] eqn:Hq;
      [|discriminate].
    injection Hv as <-. eapply float_of_nonneg. exact Hq. }
  destruct (re_match text_re line) as [m|] eqn:H3; [|discriminate].
  intros Hrow.
  destruct (shape_row _ _ _ _ _ _ text_re_groups eq_refl eq_refl H3 Hrow)
    as (Ht & Hl & Hy & Hs & Hv & Hg).
  refine (conj Ht (conj Hl (conj Hy (conj Hs _)))).
  unfold group in Hv. destruct (m 5%nat) as [w|] eqn:Hw; [|discriminate].
  injection Hv as <-. right. apply text_all_of_word, (Hg 5%nat), Hw.
Qed.

(** X2: a line is dropped without a trace exactly when none of the three
    patterns matches it, and it ends in the except clause (and is
    logged) exactly when the first pattern that matches it captured a
    timestamp text that [pd.to_datetime] rejects; nothing else in a line
    makes the importer raise. *)
Theorem parse_line_outcomes (line : string) :
  (parse_line to_datetime line = NoMatch
   <-> re_match init_re line = None /\ re_match data_re line = None
       /\ re_match text_re line = None)
  /\ (parse_line to_datetime line = Caught
      <-> exists m, first_match line m
                    /\ to_datetime (text_of (group m 1)) = None).
Proof.
  unfold parse_line, first_match, row_of.
  destruct (re_match init_re line) as [m1|] eqn:H1;
    [|destruct (re_match data_re line) as [m2|] eqn:H2;
      [destruct (data_match_float _ _ H2) as [q Hq]; rewrite Hq; simpl
      |destruct (re_match text_re line) as [m3|] eqn:H3;
       [destruct (text_match_payload _ _ H3) as [s Hs]; rewrite Hs; simpl|]]];
    try match goal with
        | |- context [to_datetime ?x] => destruct (to_datetime x) eqn:Ht
        end;
    (split; split; intros;
     repeat match goal with
            | H : _ /\ _ |- _ => destruct H
            | H : exists _, _ |- _ => destruct H
            | H : _ \/ _ |- _ => destruct H
            end;
     try discriminate; try congruence; eauto 8).
Qed.

(** X3: every line of a batch is accounted for exactly once: it adds a
    row to the database, or an entry to the error log, or it matches no
    pattern. *)
Theorem import_data_accounts_for_lines (self : state) (map_json : GardenConfig)
    (lines : list string) :
  let after := import_data to_datetime self map_json lines in
  (length (database after) + length (logged after)
   + length (dropped_lines to_datetime lines)
   = length (database self) + length (logged self) + length lines)%nat.
Proof.
  unfold import_data.
  set (start := {| garden_config := Some map_json; database := database self;
                   logged := logged self |}).
  change (database self) with (database start).
  change (logged self) with (logged start).
  generalize start. clear start.
  induction lines as [|raw lines IH]; intros st; simpl; [lia|].
  specialize (IH (import_line to_datetime st raw)). simpl in IH.
  unfold import_line in *.
  destruct (parse_line to_datetime (strip raw)); simpl in *;
    rewrite ?length_app in IH; simpl in IH; lia.
Qed.

(** X4: importing a second batch continues the first: the database is
    never reset, so the result is that of importing the two batches as
    one, and importing the same lines twice holds every row twice. *)
Theorem import_data_continues (self : state) (map_json : GardenConfig)
    (first second : list string) :
  import_data to_datetime
    (import_data to_datetime self map_json first) map_json second
  = import_data to_datetime self map_json (first ++ second)
  /\ database (import_data to_datetime
                 (import_data to_datetime self map_json first) map_json first)
     = database self ++ rows_of to_datetime first ++ rows_of to_datetime first.
Proof.
  assert (Hstate : forall st lines,
            garden_config (fold_left (import_line to_datetime) lines st)
            = garden_config st).
  { intros st lines. revert st.
    induction lines as [|raw lines IH]; intros st; simpl; [reflexivity|].
    rewrite IH. unfold import_line.
    destruct (parse_line to_datetime (strip raw)); reflexivity. }
  assert (Hcomp : forall xs ys,
            import_data to_datetime (import_data to_datetime self map_json xs)
              map_json ys
            = import_data to_datetime self map_json (xs ++ ys)).
  { intros xs ys. unfold import_data. rewrite fold_left_app. f_equal.
    set (st := fold_left _ xs _).
    assert (Hc : garden_config st = Some map_json) by (apply Hstate).
    destruct st as [c d l]. simpl in *. rewrite Hc. reflexivity. }
  split; [apply Hcomp|].
  rewrite Hcomp. unfold import_data. rewrite fold_import_line_database.
  simpl. unfold rows_of. rewrite flat_map_app. reflexivity.
Qed.
End ParsedRows.

Section RunFacts.
Import Regex Importer ImporterSpec ImporterRun.
Variable to_datetime : string -> option Z.

Lemma import_data_config (self : state) (map_json : GardenConfig)
    (lines : list string) :
  garden_config (import_data to_datetime self map_json lines) = Some map_json.
Proof.
  unfold import_data.
  set (st := {| garden_config := Some map_json; database := database self;
                logged := logged self |}).
  change (Some map_json) with (garden_config st). generalize st. clear st.
  induction lines as [|raw lines IH]; intros st; simpl; [reflexivity|].
  rewrite IH. unfold import_line.
  destruct (parse_line to_datetime (strip raw)); reflexivity.
Qed.

Lemma lookup_map {X Y} (f : X -> Y) (l : list X) (i : nat) :
  map f l !! i = f <$> (l !! i).
Proof.
  revert i. induction l as [|x l IH]; intros [|i]; simpl; auto.
Qed.

(** X5: [run] leaves the importer as [import_data] left it (the mapping
    drops, reorders and logs nothing) and adds the two columns, one cell
    per row: the name and the model of the row's sensor, and None for a
    row without sensor id or whose sensor is not in the configuration. *)
Theorem run_enriches_rows (self : state) (map_json : GardenConfig)
    (lines : list string) :
  let after := run to_datetime self map_json lines in
  let rows := database self ++ rows_of to_datetime lines in
  importer after = import_data to_datetime self map_json lines
  /\ database (importer after) = rows
  /\ exists names models,
       name_column after = Some names /\ model_column after = Some models
       /\ length names = length rows /\ length models = length rows
       /\ forall i r,
            rows !! i = Some r ->
            names !! i
            = Some (match sensor_id r with
                    | Some id => sensor_name <$> sensors map_json !! id
                    | None => None
                    end)
            /\ models !! i
               = Some (match sensor_id r with
                       | Some id => sensor_model <$> sensors map_json !! id
                       | None => None
                       end).
Proof.
  intros after rows. subst after. unfold run, apply_mapping.
  rewrite import_data_config.
  assert (Hdb : database (import_data to_datetime self map_json lines) = rows).
  { unfold import_data. rewrite fold_import_line_database. reflexivity. }
  simpl. rewrite Hdb. split; [reflexivity|]. split; [reflexivity|].
  do 2 eexists. split; [reflexivity|]. split; [reflexivity|].
  rewrite !length_map. split; [reflexivity|]. split; [reflexivity|].
  intros i r Hr. rewrite !lookup_map, Hr. simpl. unfold sensor_get.
  destruct (sensor_id r); auto.
Qed.
End RunFacts.

Section ImporterWitnesses.
Import Regex Importer ImporterSpec Invariants Examples.

(** The first measurement line of the test log gives a row that meets
    X1. *)
Lemma parsed_row_fields_witness :
  parse_line sample_to_datetime
    "[2025-01-15 10:30:15] INFO TempSensor[id=1001]: temperature=23.5"
  = Row {| timestamp := 1736937015000000; level := Some "INFO";
           type := Some "TempSensor"; sensor_id := Some "1001";
           value := VFloat 23.5 |}
  /\ text_all is_digit "1001".
Proof.
  assert (H : parse_line sample_to_datetime
                "[2025-01-15 10:30:15] INFO TempSensor[id=1001]: temperature=23.5"
              = Row {| timestamp := 1736937015000000; level := Some "INFO";
                       type := Some "TempSensor"; sensor_id := Some "1001";
                       value := VFloat 23.5 |}) by (vm_compute; reflexivity).
  split; [exact H|].
  destruct (parsed_row_fields sample_to_datetime _ _ H) as (_ & _ & _ & Hid & _).
  apply Hid. reflexivity.
Defined.
End ImporterWitnesses.

(** ** What the expansion keeps *)

Section ExpansionFacts.
Import Analyzer AnalyzerSpec Invariants.
Variable cfg : GardenConfig.

Lemma zone_rows_ok (r : Reading) (zs : list ZoneReading) :
  zone_rows cfg r = Ok zs ->
  length zs = fan_out cfg r
  /\ forall z, In z zs ->
       value r <> Init
       /\ sample z = add_columns cfg r
       /\ exists s ids g,
            sensor_id r = Some s
            /\ sensor_garden_mapping cfg !! s = Some ids
            /\ In (garden_id z) ids
            /\ gardens cfg !! garden_id z = Some g
            /\ row_vegetable_type z = vegetable_type g
            /\ row_location z = location g.
Proof.
  unfold zone_rows, expand_row, fan_out.
  destruct (value_ne_Init (value r)) eqn:Hv;
    [|intros H; injection H as <-; split; [reflexivity|contradiction]].
  unfold add_columns at 1. simpl.
  destruct (sensor_id r) as [s|] eqn:Hs; simpl;
    [|intros H; injection H as <-; split; [reflexivity|contradiction]].
  destruct (sensor_garden_mapping cfg !! s) as [ids|] eqn:Hids; simpl;
    [|intros H; injection H as <-; split; [reflexivity|contradiction]].
  destruct ids as [|id0 ids'];
    [intros H; injection H as <-; split; [reflexivity|contradiction]|].
  change (0 <? length (id0 :: ids'))%nat with true. cbv iota.
  intros H. split.
  - apply rmap_ok_inv in H. symmetry. eapply Forall2_length. exact H.
  - intros z Hz. destruct (rmap_ok_in _ _ _ _ H Hz) as (id & Hid & Hrow).
    unfold new_row, lookup_key in Hrow.
    destruct (gardens cfg !! id) as [g|] eqn:Hg; simpl in Hrow; [|discriminate].
    injection Hrow as <-. simpl.
    split; [apply value_ne_Init_iff; exact Hv|]. split; [reflexivity|].
    exists s, (id0 :: ids'), g. auto 8.
Qed.

(** X6: every row of [expanded_df] comes from a reading of the database
    whose value is not 'Init' and whose sensor is mapped to the row's
    garden; the garden is configured and the row carries its vegetable
    type and location. *)
Theorem expanded_row_origin (database : list Reading)
    (a : IrrigationAnalyzer) (z : ZoneReading) :
  new cfg database = Ok a ->
  In z (expanded_df a) ->
  exists r s ids g,
    In r database /\ sample z = add_columns cfg r /\ value r <> Init
    /\ sensor_id r = Some s
    /\ sensor_garden_mapping cfg !! s = Some ids
    /\ In (garden_id z) ids
    /\ gardens cfg !! garden_id z = Some g
    /\ row_vegetable_type z = vegetable_type g
    /\ row_location z = location g.
Proof.
  intros Ha Hz.
  assert (H : flatten (rmap (zone_rows cfg) database) = Ok (expanded_df a))
    by (apply new_ok_iff; eauto).
  unfold flatten in H.
  destruct (rmap (zone_rows cfg) database) as [rows|] eqn:Hrows;
    simpl in H; [|discriminate].
  injection H as H. rewrite <- H in Hz.
  apply in_concat in Hz as (zs & Hzs & Hz).
  destruct (rmap_ok_in _ _ _ _ Hrows Hzs) as (r & Hr & Hrz).
  destruct (zone_rows_ok r zs Hrz) as [_ Hall].
  destruct (Hall z Hz) as (Hv & Hsample & s & ids & g & H1 & H2 & H3 & H4 & H5 & H6).
  exists r, s, ids, g. auto 10.
Qed.

(** X7: the analyzer can be built exactly when every zone to which the
    sensor of a reading other than 'Init' is mapped is a configured
    garden. *)
Theorem construction_succeeds_iff (database : list Reading) :
  (exists a, new cfg database = Ok a)
  <-> (forall r s ids id,
         In r database -> value r <> Init -> sensor_id r = Some s ->
         sensor_garden_mapping cfg !! s = Some ids -> In id ids ->
         is_Some (gardens cfg !! id)).
Proof.
  split.
  - intros [a Ha] r s ids id Hr Hv Hs Hids Hid.
    destruct (gardens cfg !! id) as [g|] eqn:Hg; [eauto|]. exfalso.
    assert (Hraise : exists e, zone_rows cfg r = Raise e).
    { unfold zone_rows, expand_row.
      apply value_ne_Init_iff in Hv. rewrite Hv.
      rewrite (garden_ids_mapped cfg r s Hs), Hids.
      destruct ids as [|id0 ids']; [contradiction|].
      change (0 <? length (id0 :: ids'))%nat with true. cbv iota.
      destruct (rmap_raise_in (new_row cfg (add_columns cfg r)) (id0 :: ids')
                  id (KeyError id) Hid) as (y & e & _ & _ & ->).
      { unfold new_row, lookup_key. rewrite Hg. reflexivity. }
      eauto. }
    destruct Hraise as [e0 He0].
    destruct (rmap_raise_in (zone_rows cfg) database r e0 Hr He0)
      as (y & e & _ & _ & Hall).
    assert (Hnew : new cfg database = Raise e).
    { apply new_raise_iff. unfold flatten. rewrite Hall. reflexivity. }
    congruence.
  - intros Hall.
    destruct (rmap_ok_rel (zone_rows cfg) (fun _ _ => True) database)
      as (rows & Hrows & _).
    { intros r Hr. destruct (zone_rows cfg r) as [zs|e] eqn:Hz; [eauto|].
      exfalso. unfold zone_rows, expand_row in Hz.
      destruct (value_ne_Init (value r)) eqn:Hv; [|discriminate].
      apply value_ne_Init_iff in Hv.
      destruct (sensor_id r) as [s|] eqn:Hs;
        [|unfold add_columns in Hz; simpl in Hz; rewrite Hs in Hz; discriminate].
      rewrite (garden_ids_mapped cfg r s Hs) in Hz.
      destruct (sensor_garden_mapping cfg !! s) as [ids|] eqn:Hids;
        [|discriminate].
      destruct (0 <? length ids)%nat; [|discriminate].
      apply rmap_raise_inv in Hz as (id & Hid & Hz).
      apply new_row_raise in Hz as [_ Hnone].
      destruct (Hall r s ids id Hr Hv Hs Hids Hid) as [g Hg]. congruence. }
    destruct (proj2 (new_ok_iff cfg database (concat rows))) as (a & Ha & _);
      [unfold flatten; rewrite Hrows; reflexivity|].
    eauto.
Qed.

Lemma remove_inits_readings (database : list Reading) :
  map reading (remove_inits (map (add_columns cfg) database))
  = List.filter (fun r => value_ne_Init (value r)) database.
Proof.
  unfold remove_inits. induction database as [|r db IH]; simpl; [reflexivity|].
  destruct (value_ne_Init (value r)); simpl; rewrite IH; reflexivity.
Qed.

Lemma new_df (database : list Reading) (a : IrrigationAnalyzer) :
  new cfg database = Ok a ->
  df a = remove_inits (map (add_columns cfg) database) /\ config a = cfg.
Proof.
  unfold new, _prepare_data.
  destruct (rmap (expand_row cfg) _); simpl; [|discriminate].
  intros H. injection H as <-. auto.
Qed.

(** X8: [self.df] keeps exactly the readings other than 'Init', in
    order, and [expanded_df] has one row per reading and mapped zone:
    its length is the sum, over the readings other than 'Init', of the
    number of zones their sensor is mapped to. *)
Theorem expansion_counts (database : list Reading) (a : IrrigationAnalyzer) :
  new cfg database = Ok a ->
  map reading (df a) = List.filter (fun r => value_ne_Init (value r)) database
  /\ length (expanded_df a) = sum_list (map (fan_out cfg) database).
Proof.
  intros Ha. split.
  - destruct (new_df database a Ha) as [-> _]. apply remove_inits_readings.
  - assert (H : flatten (rmap (zone_rows cfg) database) = Ok (expanded_df a))
      by (apply new_ok_iff; eauto).
    unfold flatten in H.
    destruct (rmap (zone_rows cfg) database) as [rows|] eqn:Hrows;
      simpl in H; [|discriminate].
    injection H as <-. clear Ha. revert rows Hrows.
    induction database as [|r db IH]; simpl; intros rows Hrows.
    + injection Hrows as <-. reflexivity.
    + destruct (zone_rows cfg r) as [zs|] eqn:Hz; simpl in Hrows; [|discriminate].
      destruct (rmap (zone_rows cfg) db) as [rest|]; simpl in Hrows;
        [|discriminate].
      injection Hrows as <-. simpl. rewrite length_app, (IH rest eq_refl).
      destruct (zone_rows_ok r zs Hz) as [-> _]. reflexivity.
Qed.
End ExpansionFacts.

(** ** The entries of a result *)

Section EntryFacts.
Import Analyzer AnalyzerSpec Invariants.

Lemma filter_length_le_all {X} (f : X -> bool) (l : list X) :
  (length (List.filter f l) <= length l)%nat.
Proof.
  induction l as [|x l IH]; simpl; [lia|]. destruct (f x); simpl; lia.
Qed.

(** The two forms of the entry of a kind. *)
Lemma score_kind_ok_form (rng : Range) (rows : list ZoneReading)
    (entry : option Q * Detail) :
  score_kind rng rows = Ok entry ->
  (rows = [] /\ entry = (None, NoData))
  \/ (rows <> []
      /\ Forall (fun z => is_numeric (row_value z) = true) rows
      /\ let score :=
           percentage (length (rows_within rng rows)) (length rows) in
         entry = (Some score,
                  Scored (status_of score)
                    (Qmean (map float_or_zero (map row_value rows)))
                    (min rng) (max rng)
                    (length rows) (length (rows_within rng rows)))).
Proof.
  intros H. destruct rows as [|z rows'].
  - left. rewrite score_kind_no_rows in H. injection H as <-. auto.
  - right. pose proof (score_kind_ok_numeric _ _ _ H) as Hnum.
    assert (Hne : z :: rows' <> []) by discriminate.
    rewrite (score_kind_numeric rng _ Hne Hnum) in H. injection H as <-.
    auto.
Qed.

Lemma score_kind_consistent (rng : Range) (rows : list ZoneReading)
    (entry : option Q * Detail) :
  score_kind rng rows = Ok entry ->
  consistent rng (fst entry) (snd entry)
  /\ readings_count_of (snd entry) = length rows.
Proof.
  intros H. destruct (score_kind_ok_form _ _ _ H) as [[-> ->] | (Hne & _ & ->)].
  - simpl. auto.
  - cbv zeta. cbn [fst snd consistent readings_count_of].
    assert (Hn : (1 <= length rows)%nat)
      by (destruct rows; [congruence|simpl; lia]).
    pose proof (filter_length_le_all (fun z => within rng (row_value z)) rows)
      as Hk. fold (rows_within rng rows) in Hk.
    destruct (percentage_bounds _ _ Hn Hk) as [H0 H100].
    split; [|reflexivity].
    split; [exact Hn|]. split; [exact Hk|].
    split; [apply percentage_close; assumption|].
    split; [intros Heq; rewrite Heq; apply percentage_full; exact Hn|].
    split; [intros Heq; rewrite Heq; apply percentage_zero; exact Hn|].
    repeat split; auto.
Qed.

Lemma score_kinds_keys (ranges : gmap string Range) (recent : list ZoneReading) :
  forall todo entries,
    score_kinds ranges recent todo = Ok entries ->
    map fst entries
    = List.filter (fun kind => bool_decide (is_Some (ranges !! kind))) todo.
Proof.
  induction todo as [|k todo IH]; simpl; intros entries H.
  - injection H as <-. reflexivity.
  - destruct (ranges !! k) as [rng|] eqn:Hk.
    + rewrite bool_decide_eq_true_2 by eauto.
      destruct (score_kind rng (of_kind k recent)); [|discriminate].
      cbn [rbind] in H.
      destruct (score_kinds ranges recent todo) as [rest|]; [|discriminate].
      injection H as <-. simpl. rewrite (IH rest eq_refl). reflexivity.
    + rewrite bool_decide_eq_false_2 by (intros [? ?]; discriminate). auto.
Qed.

Lemma score_kinds_each (ranges : gmap string Range) (recent : list ZoneReading) :
  forall todo entries,
    score_kinds ranges recent todo = Ok entries ->
    Forall (fun e => exists rng,
                ranges !! fst e = Some rng
                /\ score_kind rng (of_kind (fst e) recent) = Ok (snd e))
      entries.
Proof.
  induction todo as [|k todo IH]; simpl; intros entries H.
  - injection H as <-. constructor.
  - destruct (ranges !! k) as [rng|] eqn:Hk; [|auto].
    destruct (score_kind rng (of_kind k recent)) as [entry|] eqn:He;
      [|discriminate].
    cbn [rbind] in H.
    destruct (score_kinds ranges recent todo) as [rest|]; [|discriminate].
    injection H as <-. constructor; [simpl; eauto|auto].
Qed.

Lemma score_kinds_raise (ranges : gmap string Range) (recent : list ZoneReading) :
  forall todo e,
    score_kinds ranges recent todo = Raise e -> exists msg, e = TypeError msg.
Proof.
  assert (Hcell : forall (f : Value -> result bool) col e,
            (forall v e', f v = Raise e' -> exists msg, e' = TypeError msg) ->
            rmap f col = Raise e -> exists msg, e = TypeError msg).
  { intros f col e Hf H. apply rmap_raise_inv in H as (v & _ & Hv). eauto. }
  assert (Hkind : forall rng rows e,
            score_kind rng rows = Raise e -> exists msg, e = TypeError msg).
  { intros rng rows e. unfold score_kind.
    destruct (length rows =? 0)%nat; [discriminate|].
    destruct (rmap (fun v => cell_ge v (min rng)) _) as [ge|e1] eqn:Hge.
    - cbn [rbind].
      destruct (rmap (fun v => cell_le v (max rng)) _) as [le|e2] eqn:Hle.
      + cbn [rbind]. unfold mean.
        destruct (rmap cell_float _) as [xs|e3] eqn:Hxs; [discriminate|].
        simpl. intros H. injection H as <-.
        apply rmap_raise_inv in Hxs as (v & _ & Hv).
        destruct v; simpl in Hv; [discriminate|]. injection Hv as <-. eauto.
      + simpl. intros H. injection H as <-.
        eapply Hcell; [|exact Hle]. intros [q|s] e' Hv; simpl in Hv;
          [discriminate|]. injection Hv as <-. eauto.
    - simpl. intros H. injection H as <-.
      eapply Hcell; [|exact Hge]. intros [q|s] e' Hv; simpl in Hv;
        [discriminate|]. injection Hv as <-. eauto. }
  induction todo as [|k todo IH]; simpl; intros e H; [discriminate|].
  destruct (ranges !! k) as [rng|]; [|eauto].
  destruct (score_kind rng (of_kind k recent)) as [entry|e1] eqn:He.
  - cbn [rbind] in H.
    destruct (score_kinds ranges recent todo) as [rest|e2]; [discriminate|].
    simpl in H. injection H as <-. eauto.
  - simpl in H. injection H as <-. eauto.
Qed.

Lemma ranged_kinds_in (ranges : gmap string Range) (kind : string) :
  In kind (ranged_kinds ranges)
  <-> In kind kinds /\ exists rng, ranges !! kind = Some rng.
Proof.
  unfold ranged_kinds. rewrite filter_In, bool_decide_eq_true.
  unfold is_Some. tauto.
Qed.

Lemma dict_get_in_keys {V} (key : string) (d : list (string * V)) (v : V) :
  dict_get key d = Some v -> In key (map fst d) /\ In (key, v) d.
Proof.
  induction d as [|[k x] d IH]; simpl; [discriminate|].
  destruct (String.eqb_spec k key) as [->|Hne].
  - intros H. injection H as <-. auto.
  - intros H. destruct (IH H). auto.
Qed.
End EntryFacts.

(** ** What a result holds *)

Section ResultFacts2.
Import Analyzer AnalyzerSpec Invariants.
Variables (self : IrrigationAnalyzer) (now : Z) (garden : string) (hours : Z).

Local Abbreviation cutoff := (now - hours * microseconds_per_hour)%Z.
Local Abbreviation chosen := (recent_rows garden cutoff (expanded_df self)).

(** X9: the keys of [individual_scores] and of [details] are the same:
    the kinds among temperature, moisture, light and humidity for which
    the garden's vegetable has a range, in that order; no other key of
    the profile ('pump' for one) is ever scored. *)
Theorem result_keys (g : Garden) (ranges : gmap string Range)
    (res : ComplianceResult) :
  gardens (config self) !! garden = Some g ->
  vegetables (config self) !! vegetable_type g = Some ranges ->
  calculate_compliance_score self now garden hours = Ok res ->
  map fst (individual_scores res) = ranged_kinds ranges
  /\ map fst (details res) = ranged_kinds ranges
  /\ forall kind, In kind (map fst (details res)) ->
                  In kind kinds /\ is_Some (ranges !! kind).
Proof.
  intros Hg Hr H.
  destruct (calculate_compliance_score_ok _ _ _ _ _ H)
    as (g' & ranges' & entries & Hg' & Hr' & _ & Hentries & Hs & Hd & _).
  assert (g' = g) by congruence. subst g'.
  assert (ranges' = ranges) by congruence. subst ranges'.
  pose proof (score_kinds_keys _ _ _ _ Hentries) as Hkeys.
  assert (Hk1 : map fst (individual_scores res) = ranged_kinds ranges).
  { rewrite Hs, map_map. simpl. exact Hkeys. }
  assert (Hk2 : map fst (details res) = ranged_kinds ranges).
  { rewrite Hd, map_map. simpl. exact Hkeys. }
  split; [exact Hk1|]. split; [exact Hk2|].
  intros kind Hin. rewrite Hk2 in Hin. apply ranged_kinds_in in Hin. exact Hin.
Qed.

(** X10: in a result, the score and the detail at each position are of
    the same kind and belong together: both say 'no data', or the
    detail counts n >= 1 readings of which k <= n are in range, the
    score is within 2^-46 of 100*k/n, exactly 100 when k = n and
    exactly 0 when k = 0, and lies between 0 and 100, the status is the
    tier of that score, and the detail repeats the range of the
    profile. *)
Theorem result_entries_consistent (g : Garden) (ranges : gmap string Range)
    (res : ComplianceResult) :
  gardens (config self) !! garden = Some g ->
  vegetables (config self) !! vegetable_type g = Some ranges ->
  calculate_compliance_score self now garden hours = Ok res ->
  Forall2 (fun s d => fst s = fst d
                      /\ exists rng, ranges !! fst s = Some rng
                                     /\ consistent rng (snd s) (snd d))
    (individual_scores res) (details res).
Proof.
  intros Hg Hr H.
  destruct (calculate_compliance_score_ok _ _ _ _ _ H)
    as (g' & ranges' & entries & Hg' & Hr' & _ & Hentries & -> & -> & _).
  assert (g' = g) by congruence. subst g'.
  assert (ranges' = ranges) by congruence. subst ranges'.
  pose proof (score_kinds_each _ _ _ _ Hentries) as Heach.
  clear Hentries H. induction Heach as [|e entries (rng & Hrng & He) _ IH];
    simpl; constructor; [|exact IH].
  simpl. split; [reflexivity|]. exists rng. split; [exact Hrng|].
  apply (score_kind_consistent _ _ _ He).
Qed.

Lemma defined_scores_bounded (ranges : gmap string Range)
    (recent : list ZoneReading) (entries : list (string * (option Q * Detail))) :
  Forall (fun e => exists rng,
              ranges !! fst e = Some rng
              /\ score_kind rng (of_kind (fst e) recent) = Ok (snd e))
    entries ->
  Forall (fun q => 0 <= q /\ q <= 100)%Q
    (valid_scores (map (fun e => (fst e, fst (snd e))) entries)).
Proof.
  unfold valid_scores.
  induction 1 as [|e entries (rng & _ & He) _ IH]; simpl; [constructor|].
  destruct (score_kind_consistent _ _ _ He) as [Hc _].
  destruct (fst (snd e)) as [s|] eqn:Hs; simpl; [|exact IH].
  constructor; [|exact IH].
  unfold consistent in Hc.
  destruct (snd (snd e)); [contradiction|]. tauto.
Qed.

(** At most four kinds are scored. *)
Lemma valid_scores_length (ranges : gmap string Range)
    (recent : list ZoneReading) (entries : list (string * (option Q * Detail))) :
  score_kinds ranges recent kinds = Ok entries ->
  (length (valid_scores (map (fun e => (fst e, fst (snd e))) entries)) <= 4)%nat.
Proof.
  intros H. pose proof (score_kinds_keys _ _ _ _ H) as Hkeys.
  assert (Hlen : (length entries <= 4)%nat).
  { rewrite <- (length_map fst entries), Hkeys.
    apply (filter_length_le_all _ kinds). }
  unfold valid_scores.
  assert (Hle : forall (l : list (string * option Q)),
            (length (omap snd l) <= length l)%nat).
  { induction l as [|[k [q|]] l IH]; cbn; lia. }
  specialize (Hle (map (fun e => (fst e, fst (snd e))) entries)).
  rewrite length_map in Hle. lia.
Qed.

(** X11: the overall score of a result lies between 0 and 100. *)
Theorem overall_score_bounds (res : ComplianceResult) :
  calculate_compliance_score self now garden hours = Ok res ->
  (0 <= overall_score res)%Q /\ (overall_score res <= 100)%Q.
Proof.
  intros H.
  destruct (calculate_compliance_score_ok _ _ _ _ _ H)
    as (g & ranges & entries & _ & _ & _ & Hentries & Hs & _ & ->).
  rewrite Hs. unfold overall.
  pose proof (defined_scores_bounded _ _ _ (score_kinds_each _ _ _ _ Hentries))
    as Hb.
  pose proof (valid_scores_length _ _ _ Hentries) as Hlen.
  destruct (valid_scores _) as [|q vs] eqn:Hv.
  - split; discriminate.
  - apply np_mean_bounds; [discriminate|exact Hlen|exact Hb].
Qed.

(** X12: what a call gives, in the order the code decides it: KeyError
    of the garden id when it is not a garden; KeyError of the vegetable
    type when it has no profile; OverflowError when the cutoff is no
    instant of [datetime]; KeyError 'garden_id' when no row was
    expanded at all; and, for a cutoff that a [Timestamp] holds, a
    result exactly when every selected row of every scored kind holds a
    number, and TypeError when one of them holds a text. *)
Theorem calculate_compliance_score_outcome :
  (gardens (config self) !! garden = None ->
   calculate_compliance_score self now garden hours = Raise (KeyError garden))
  /\ (forall g,
        gardens (config self) !! garden = Some g ->
        vegetables (config self) !! vegetable_type g = None ->
        calculate_compliance_score self now garden hours
        = Raise (KeyError (vegetable_type g)))
  /\ (forall g ranges,
        gardens (config self) !! garden = Some g ->
        vegetables (config self) !! vegetable_type g = Some ranges ->
        ~ (datetime_min <= cutoff <= datetime_max)%Z ->
        exists msg,
          calculate_compliance_score self now garden hours
          = Raise (OverflowError msg))
  /\ (forall g ranges,
        gardens (config self) !! garden = Some g ->
        vegetables (config self) !! vegetable_type g = Some ranges ->
        (datetime_min <= cutoff <= datetime_max)%Z ->
        expanded_df self = [] ->
        calculate_compliance_score self now garden hours
        = Raise (KeyError "garden_id"))
  /\ (forall g ranges,
        gardens (config self) !! garden = Some g ->
        vegetables (config self) !! vegetable_type g = Some ranges ->
        (timestamp_min <= cutoff <= timestamp_max)%Z ->
        expanded_df self <> [] ->
        ((exists res, calculate_compliance_score self now garden hours = Ok res)
         <-> forall kind z,
               In kind (ranged_kinds ranges) -> In z (of_kind kind chosen) ->
               is_numeric (row_value z) = true)
        /\ forall e,
             calculate_compliance_score self now garden hours = Raise e ->
             exists msg, e = TypeError msg).
Proof.
  split; [|split; [|split; [|split]]].
  - intros Hg. unfold calculate_compliance_score, lookup_key. rewrite Hg.
    reflexivity.
  - intros g Hg Hr. unfold calculate_compliance_score, lookup_key.
    rewrite Hg. cbn [rbind]. rewrite Hr. reflexivity.
  - intros g ranges Hg Hr Hout. unfold calculate_compliance_score, lookup_key.
    rewrite Hg. cbn [rbind]. rewrite Hr. cbn [rbind].
    destruct (hours_before now hours) as [t|e] eqn:Ht.
    + apply hours_before_ok in Ht as [-> Hin]. contradiction.
    + destruct (hours_before_raise _ _ _ Ht) as [[msg ->] _].
      exists msg. reflexivity.
  - intros g ranges Hg Hr Hin He.
    unfold calculate_compliance_score, lookup_key.
    rewrite Hg. cbn [rbind]. rewrite Hr. cbn [rbind].
    rewrite (proj2 (hours_before_ok now hours _) (conj eq_refl Hin)).
    cbn [rbind]. rewrite He. reflexivity.
  - intros g ranges Hg Hr Hts Hne.
    pose proof (timestamp_is_datetime _ Hts) as Hin. split; [split|].
    + intros [res H] kind z Hkind Hz.
      destruct (calculate_compliance_score_ok _ _ _ _ _ H)
        as (g' & ranges' & entries & Hg' & Hr' & _ & Hentries & _).
      assert (g' = g) by congruence. subst g'.
      assert (ranges' = ranges) by congruence. subst ranges'.
      apply ranged_kinds_in in Hkind as [Hkind [rng Hrng]].
      destruct (score_kinds_entry _ _ _ _ _ _ Hentries Hkind Hrng)
        as (entry & Hentry & _).
      pose proof (score_kind_ok_numeric _ _ _ Hentry) as Hnum.
      rewrite Forall_forall in Hnum. apply Hnum, list_elem_of_In, Hz.
    + intros Hnum.
      apply (calculate_compliance_score_returns self now garden hours g ranges
               Hg Hr Hin Hne).
      intros kind Hkind [rng Hrng]. apply Forall_forall. intros z Hz.
      apply (Hnum kind z); [|apply list_elem_of_In; exact Hz].
      apply ranged_kinds_in. eauto.
    + unfold calculate_compliance_score, lookup_key, recent_data.
      rewrite Hg. cbn [rbind]. rewrite Hr. cbn [rbind].
      rewrite (proj2 (hours_before_ok now hours _) (conj eq_refl Hin)).
      cbn [rbind].
      destruct (expanded_df self) as [|z0 rows]; [congruence|]. cbn [rbind].
      destruct (score_kinds ranges _ kinds) as [entries|e'] eqn:Hs;
        [discriminate|].
      simpl. intros e H. injection H as <-.
      eapply score_kinds_raise. exact Hs.
Qed.

Lemma defined_scores_in (scores : list (string * option Q)) :
  defined_scores scores = []
  <-> forall kind score, In (kind, score) scores -> score = None.
Proof.
  split; [|apply defined_scores_none].
  induction scores as [|[k [q|]] l IH]; simpl; intros Hd kind score Hin.
  - contradiction.
  - discriminate.
  - destruct Hin as [Heq|Hin]; [congruence|]. eapply IH; eassumption.
Qed.

(** X23: the overall score of a result is the arithmetic mean of the
    per-kind scores that are defined, up to the rounding of [np.mean]
    (at most 2^-44), and it is exactly 0 when no kind has a defined
    score. *)
Theorem overall_score_mean (res : ComplianceResult) :
  calculate_compliance_score self now garden hours = Ok res ->
  let defined := defined_scores (individual_scores res) in
  (defined <> [] ->
   (Qabs (overall_score res - arithmetic_mean defined) <= mean_tolerance)%Q)
  /\ (defined = [] -> overall_score res = 0%Q)
  /\ (defined = []
      <-> forall kind score,
            In (kind, score) (individual_scores res) -> score = None).
Proof.
  intros H defined.
  destruct (calculate_compliance_score_ok _ _ _ _ _ H)
    as (g & ranges & entries & _ & _ & _ & Hentries & Hs & _ & Ho).
  pose proof (defined_scores_bounded _ _ _ (score_kinds_each _ _ _ _ Hentries))
    as Hb.
  pose proof (valid_scores_length _ _ _ Hentries) as Hlen.
  rewrite <- Hs in Hb, Hlen. rewrite valid_scores_defined in Hb, Hlen.
  fold defined in Hb, Hlen.
  rewrite Ho. unfold overall. rewrite valid_scores_defined. fold defined.
  split; [|split].
  - intros Hne. destruct defined as [|q vs] eqn:Hd; [congruence|].
    apply np_mean_close; [discriminate|exact Hlen|exact Hb].
  - intros ->. reflexivity.
  - apply defined_scores_in.
Qed.
End ResultFacts2.

(** ** Which rows a result depends on *)

Section SelectionFacts.
Import Analyzer AnalyzerSpec Invariants.

Lemma filter_filter_mono {X} (f g1 g2 : X -> bool) (l : list X) :
  (forall x, g1 x = true -> g2 x = true) ->
  (length (List.filter f (List.filter g1 l))
   <= length (List.filter f (List.filter g2 l)))%nat.
Proof.
  intros Hg. induction l as [|x l IH]; simpl; [lia|].
  destruct (g1 x) eqn:H1.
  - rewrite (Hg x H1). simpl. destruct (f x); simpl; lia.
  - destruct (g2 x); simpl; [destruct (f x); simpl; lia|lia].
Qed.




(** X13: widening the look-back window never loses a reading: when both
    calls return, the readings counted for a kind with the wider window
    are at least those counted with the narrower one. *)
Theorem wider_window_counts_more (self : IrrigationAnalyzer) (now : Z)
    (garden : string) (hours hours' : Z) (res res' : ComplianceResult)
    (kind : string) (d d' : Detail) :
  (hours <= hours')%Z ->
  calculate_compliance_score self now garden hours = Ok res ->
  calculate_compliance_score self now garden hours' = Ok res' ->
  dict_get kind (details res) = Some d ->
  dict_get kind (details res') = Some d' ->
  (readings_count_of d <= readings_count_of d')%nat.
Proof.
  intros Hh H H' Hd Hd'.
  destruct (calculate_compliance_score_ok _ _ _ _ _ H)
    as (g & ranges & entries & Hg & Hr & _ & Hentries & _ & Hdet & _).
  destruct (calculate_compliance_score_ok _ _ _ _ _ H')
    as (g' & ranges' & entries' & Hg' & Hr' & _ & Hentries' & _ & Hdet' & _).
  assert (g' = g) by congruence. subst g'.
  assert (ranges' = ranges) by congruence. subst ranges'.
  rewrite Hdet, dict_get_map in Hd. rewrite Hdet', dict_get_map in Hd'.
  destruct (dict_get kind entries) as [entry|] eqn:He; [|discriminate].
  destruct (dict_get kind entries') as [entry'|] eqn:He'; [|discriminate].
  simpl in Hd, Hd'. injection Hd as <-. injection Hd' as <-.
  assert (Hkind : In kind (ranged_kinds ranges)).
  { pose proof (score_kinds_keys _ _ _ _ Hentries) as Hkeys.
    unfold ranged_kinds. rewrite <- Hkeys.
    apply (dict_get_in_keys _ _ _ He). }
  apply ranged_kinds_in in Hkind as [Hkind [rng Hrng]].
  destruct (score_kinds_entry _ _ _ _ _ _ Hentries Hkind Hrng)
    as (e0 & Hscore & Hget).
  destruct (score_kinds_entry _ _ _ _ _ _ Hentries' Hkind Hrng)
    as (e0' & Hscore' & Hget').
  assert (e0 = entry) by congruence. subst e0.
  assert (e0' = entry') by congruence. subst e0'.
  destruct (score_kind_consistent _ _ _ Hscore) as [_ ->].
  destruct (score_kind_consistent _ _ _ Hscore') as [_ ->].
  unfold of_kind, recent_rows. apply filter_filter_mono.
  intros z Hz. apply andb_true_iff in Hz as [Hzone Htime].
  apply andb_true_iff. split; [exact Hzone|].
  apply Z.leb_le in Htime. apply Z.leb_le.
  unfold microseconds_per_hour in *. lia.
Qed.

End SelectionFacts.

(** ** The recommendations *)

Section RecommendationFacts.
Import Analyzer AnalyzerSpec Invariants.

Lemma recommend_at_most_one (kind : string) (d : Detail) :
  (length (recommend kind d) <= 1)%nat
  /\ ~ In AllWithinOptimalRanges (recommend kind d)
  /\ forall k, In (NoRecentData k) (recommend kind d) -> k = kind.
Proof.
  destruct d as [|st avg lo hi n k]; simpl.
  - repeat split; [lia|intros [H|[]]; discriminate|].
    intros k' [H|[]]. congruence.
  - destruct (Qlt_bool avg lo), (Qlt_bool hi avg);
      repeat match goal with
             | |- context [if ?b then _ else _] => destruct b
             end;
      simpl; (repeat split; [lia|intros H|intros k' H]);
      repeat match goal with H : _ \/ _ |- _ => destruct H end;
      try discriminate; try contradiction.
Qed.

Lemma flat_map_recommend (ds : list (string * Detail)) :
  let lines := flat_map (fun e => recommend (fst e) (snd e)) ds in
  (length lines <= length ds)%nat
  /\ ~ In AllWithinOptimalRanges lines
  /\ forall k, In (NoRecentData k) lines -> In k (map fst ds).
Proof.
  induction ds as [|[k d] ds (IHlen & IHall & IHno)]; simpl.
  - repeat split; [lia|tauto|tauto].
  - destruct (recommend_at_most_one k d) as (Hlen & Hall & Hno).
    rewrite length_app. repeat split.
    + lia.
    + intros H. apply in_app_iff in H. tauto.
    + intros k' H. apply in_app_iff in H as [H|H]; [left; symmetry|right]; auto.
Qed.

Lemma recommendations_of_result (self : IrrigationAnalyzer) (now : Z)
    (garden : string) (res : ComplianceResult) :
  calculate_compliance_score self now garden default_time_window_hours = Ok res ->
  get_irrigation_recommendations self now garden
  = Ok (match flat_map (fun e => recommend (fst e) (snd e)) (details res) with
        | [] => [AllWithinOptimalRanges]
        | lines => lines
        end).
Proof.
  intros H. unfold get_irrigation_recommendations. rewrite H. cbn [rbind].
  destruct (calculate_compliance_score_ok _ _ _ _ _ H)
    as (g & _ & _ & Hg & _).
  unfold lookup_key. rewrite Hg. cbn [rbind].
  destruct (flat_map _ (details res)); reflexivity.
Qed.

(** X15: the recommendations are never empty and hold at most four
    lines; the line 'All parameters are within optimal ranges!' only
    ever stands alone; a 'no recent data' line is always about one of
    the four kinds; and an exception of the scoring is passed on
    unchanged. *)
Theorem recommendations_shape (self : IrrigationAnalyzer) (now : Z)
    (garden : string) :
  (forall lines,
      get_irrigation_recommendations self now garden = Ok lines ->
      lines <> [] /\ (length lines <= 4)%nat
      /\ (In AllWithinOptimalRanges lines -> lines = [AllWithinOptimalRanges])
      /\ forall kind, In (NoRecentData kind) lines -> In kind kinds)
  /\ (forall e,
        get_irrigation_recommendations self now garden = Raise e
        <-> calculate_compliance_score self now garden
              default_time_window_hours = Raise e).
Proof.
  destruct (calculate_compliance_score self now garden default_time_window_hours)
    as [res|e0] eqn:H.
  - rewrite (recommendations_of_result _ _ _ _ H). split.
    + intros lines Hl. injection Hl as <-.
      destruct (calculate_compliance_score_ok _ _ _ _ _ H)
        as (g & ranges & entries & _ & _ & _ & Hentries & _ & Hd & _).
      pose proof (score_kinds_keys _ _ _ _ Hentries) as Hkeys.
      assert (Hk : map fst (details res) = ranged_kinds ranges).
      { rewrite Hd, map_map. simpl. exact Hkeys. }
      assert (Hlen : (length (details res) <= 4)%nat).
      { rewrite <- (length_map fst), Hk. unfold ranged_kinds.
        apply (filter_length_le_all _ kinds). }
      destruct (flat_map_recommend (details res)) as (Hl & Hall & Hno).
      destruct (flat_map _ (details res)) as [|l ls] eqn:Hf.
      * repeat split; [discriminate|simpl; lia|].
        intros kind [Hin|[]]. discriminate.
      * repeat split; [discriminate|lia|intros Hin; contradiction|].
        intros kind Hin. apply Hno in Hin. rewrite Hk in Hin.
        apply ranged_kinds_in in Hin. tauto.
    + intros e. split; discriminate.
  - unfold get_irrigation_recommendations. rewrite H. simpl. split.
    + discriminate.
    + intros e. split; intros He; injection He as ->; reflexivity.
Qed.
End RecommendationFacts.

(** ** The report and the data of the overview *)

Section ReportFacts.
Import Analyzer AnalyzerSpec Invariants Reports.

Lemma kinds_nodup : List.NoDup kinds.
Proof.
  unfold kinds. repeat constructor; simpl; intuition discriminate.
Qed.

Lemma dict_get_nodup {V} (key : string) (v : V) (d : list (string * V)) :
  List.NoDup (map fst d) -> In (key, v) d -> dict_get key d = Some v.
Proof.
  induction d as [|[k x] d IH]; simpl; intros Hnd Hin; [contradiction|].
  inversion Hnd as [|? ? Hk Hnd']; subst.
  destruct Hin as [Heq|Hin].
  - injection Heq as -> ->. rewrite String.eqb_refl. reflexivity.
  - destruct (String.eqb_spec k key) as [->|Hne]; [|auto].
    exfalso. apply Hk. apply in_map_iff. exists (key, v). auto.
Qed.

(** The entries behind a result: distinct kinds, each entry consistent. *)
Lemma result_entries (self : IrrigationAnalyzer) (now : Z) (garden : string)
    (hours : Z) (res : ComplianceResult) :
  calculate_compliance_score self now garden hours = Ok res ->
  exists entries,
    individual_scores res = map (fun e => (fst e, fst (snd e))) entries
    /\ details res = map (fun e => (fst e, snd (snd e))) entries
    /\ List.NoDup (map fst entries)
    /\ Forall (fun e => exists rng, consistent rng (fst (snd e)) (snd (snd e)))
         entries.
Proof.
  intros H.
  destruct (calculate_compliance_score_ok _ _ _ _ _ H)
    as (g & ranges & entries & _ & _ & _ & Hentries & Hs & Hd & _).
  exists entries. split; [exact Hs|]. split; [exact Hd|]. split.
  - rewrite (score_kinds_keys _ _ _ _ Hentries).
    apply List.NoDup_filter, kinds_nodup.
  - pose proof (score_kinds_each _ _ _ _ Hentries) as Heach.
    eapply Forall_impl; [exact Heach|].
    intros e (rng & _ & He). exists rng.
    apply (score_kind_consistent _ _ _ He).
Qed.

(** X17: [generate_garden_report] fails only where the scoring fails
    and with the same exception: reading the score of a kind that has a
    mean never misses the key and never formats None.  When the scoring
    returns, the report returns that result and prints, after the
    header, one section per kind that has a score, in the order of the
    scores; a kind without data gets no section. *)
Theorem generate_garden_report_outcome (self : IrrigationAnalyzer) (now : Z)
    (garden : string) :
  (forall e,
      calculate_compliance_score self now garden default_time_window_hours
      = Raise e ->
      generate_garden_report self now garden = Raise e)
  /\ (forall res,
        calculate_compliance_score self now garden default_time_window_hours
        = Ok res ->
        exists header sections,
          generate_garden_report self now garden
          = Ok (header :: sections, res)
          /\ section_kind header = None
          /\ map section_kind sections
             = map (fun s => Some (fst s))
                 (List.filter has_score (individual_scores res))).
Proof.
  split.
  - intros e H. unfold generate_garden_report. rewrite H. reflexivity.
  - intros res H. unfold generate_garden_report. rewrite H. cbn [rbind].
    destruct (calculate_compliance_score_ok _ _ _ _ _ H) as (g & _ & _ & Hg & _).
    unfold lookup_key. rewrite Hg. cbn [rbind].
    destruct (result_entries _ _ _ _ _ H) as (entries & Hs & Hd & Hnd & Hall).
    pose (sec := fun e : string * (option Q * Detail) =>
                   match snd e with
                   | (Some score, Scored st avg lo hi n k) =>
                       [SensorSection (fst e) avg lo hi score st k n]
                   | _ => []
                   end).
    assert (Hsec : rmap (fun e => report_section (individual_scores res)
                                    (fst e) (snd e)) (details res)
                   = Ok (map sec entries)).
    { rewrite Hd. clear Hd. rewrite Forall_forall in Hall.
      assert (Hget : forall e, In e entries ->
                dict_get (fst e) (individual_scores res) = Some (fst (snd e))).
      { intros e He. rewrite Hs.
        rewrite (dict_get_map (fun p : option Q * Detail => fst p)).
        rewrite (dict_get_nodup (fst e) (snd e) entries Hnd); [reflexivity|].
        destruct e; exact He. }
      assert (Hone : forall e, In e entries ->
                report_section (individual_scores res) (fst e) (snd (snd e))
                = Ok (sec e)).
      { intros e He. specialize (Hget e He).
        destruct (Hall e (proj2 (list_elem_of_In _ _) He)) as [rng Hc].
        unfold report_section, sec. destruct e as [k [s d]]. simpl in *.
        destruct d as [|st avg lo hi n c]; [destruct s; reflexivity|].
        rewrite Hget. destruct s; [reflexivity|contradiction]. }
      clear Hget Hall Hnd Hs. induction entries as [|e entries IH]; simpl;
        [reflexivity|].
      rewrite (Hone e) by (left; reflexivity). cbn [rbind].
      rewrite IH by (intros e' He'; apply Hone; right; exact He').
      reflexivity. }
    rewrite Hsec. cbn [rbind]. do 2 eexists.
    split; [reflexivity|]. split; [reflexivity|].
    rewrite Hs. clear Hsec Hs Hd Hnd H. induction Hall as [|e entries [rng Hc] _ IH];
      simpl; [reflexivity|].
    rewrite map_app, IH. unfold sec at 1, has_score at 2.
    destruct e as [k [[s|] [|st avg lo hi n c]]]; simpl in *;
      try contradiction; reflexivity.
Qed.

(** X18: the row of the heat map for a result always has four cells,
    each between 0 and 100; a kind without a score (no data, or no range
    in the profile) shows as 0, like a kind none of whose readings is in
    range. *)
Theorem matrix_row_shape (self : IrrigationAnalyzer) (now : Z)
    (garden : string) (hours : Z) (res : ComplianceResult) :
  calculate_compliance_score self now garden hours = Ok res ->
  length (matrix_row res) = 4%nat
  /\ Forall (fun q => 0 <= q /\ q <= 100)%Q (matrix_row res)
  /\ forall i kind,
       kinds !! i = Some kind ->
       matrix_row res !! i
       = Some (match dict_get kind (individual_scores res) with
               | Some (Some score) => score
               | _ => 0%Q
               end).
Proof.
  intros H. split; [reflexivity|]. split.
  - destruct (calculate_compliance_score_ok _ _ _ _ _ H)
      as (g & ranges & entries & _ & _ & _ & Hentries & Hs & _).
    pose proof (defined_scores_bounded _ _ _ (score_kinds_each _ _ _ _ Hentries))
      as Hb.
    rewrite <- Hs in Hb. rewrite Forall_forall in Hb.
    assert (Hcell : forall kind,
              (0 <= match default (Some 0%Q)
                            (dict_get kind (individual_scores res)) with
                    | Some score => score
                    | None => 0%Q
                    end
               <= 100)%Q).
    { intros kind.
      destruct (dict_get kind (individual_scores res)) as [[s|]|] eqn:Hget;
        simpl; try (split; discriminate).
      apply Hb. unfold valid_scores. apply list_elem_of_omap.
      exists (kind, Some s). split; [|reflexivity].
      apply list_elem_of_In. apply (dict_get_in_keys _ _ _ Hget). }
    unfold matrix_row. repeat constructor; apply Hcell.
  - intros i kind Hi. unfold matrix_row.
    rewrite lookup_map. change ["temperature"; "moisture"; "light"; "humidity"]
      with kinds. rewrite Hi. simpl.
    destruct (dict_get kind (individual_scores res)) as [[s|]|]; reflexivity.
Qed.

Lemma count_up_get (veg key : string) (counts : list (string * nat)) :
  default 0%nat (dict_get key (count_up veg counts))
  = (default 0%nat (dict_get key counts)
     + if String.eqb veg key then 1 else 0)%nat.
Proof.
  induction counts as [|[k n] counts IH]; simpl.
  - destruct (String.eqb veg key); reflexivity.
  - destruct (String.eqb_spec k veg) as [->|Hne]; simpl.
    + destruct (String.eqb veg key); simpl; lia.
    + destruct (String.eqb_spec k key) as [->|Hk]; simpl.
      * apply String.eqb_neq in Hne. rewrite String.eqb_sym, Hne. lia.
      * exact IH.
Qed.

Lemma count_up_keys (veg : string) (counts : list (string * nat)) :
  List.NoDup (map fst counts) ->
  List.NoDup (map fst (count_up veg counts))
  /\ (forall k, In k (map fst (count_up veg counts))
                <-> k = veg \/ In k (map fst counts))
  /\ sum_list (map snd (count_up veg counts)) = S (sum_list (map snd counts)).
Proof.
  induction counts as [|[k n] counts IH]; simpl; intros Hnd.
  - split; [constructor; [simpl; tauto|constructor]|].
    split; [intros k; simpl; intuition congruence|reflexivity].
  - inversion Hnd as [|? ? Hk Hnd']; subst.
    destruct (String.eqb_spec k veg) as [->|Hne]; simpl.
    + split; [exact Hnd|]. split; [intros k; intuition congruence|reflexivity].
    + destruct (IH Hnd') as (IHnd & IHin & IHsum).
      split; [constructor; [rewrite IHin; intuition congruence|exact IHnd]|].
      split; [intros k'; rewrite IHin; intuition congruence|rewrite IHsum; lia].
Qed.

(** X19: the counts behind the pie chart have one entry per vegetable
    type of the results, each the number of results of that type, and
    add up to the number of results. *)
Theorem vegetable_counts_total (compliance_data : list ComplianceResult) :
  List.NoDup (map fst (vegetable_counts compliance_data))
  /\ sum_list (map snd (vegetable_counts compliance_data))
     = length compliance_data
  /\ forall veg,
       default 0%nat (dict_get veg (vegetable_counts compliance_data))
       = length (of_vegetable veg compliance_data)
       /\ (In veg (map fst (vegetable_counts compliance_data))
           <-> In veg (map result_vegetable_type compliance_data)).
Proof.
  unfold vegetable_counts.
  assert (H : forall data counts,
            List.NoDup (map fst counts) ->
            let final := fold_left
                           (fun counts comp =>
                              count_up (result_vegetable_type comp) counts)
                           data counts in
            List.NoDup (map fst final)
            /\ sum_list (map snd final)
               = (sum_list (map snd counts) + length data)%nat
            /\ forall veg,
                 default 0%nat (dict_get veg final)
                 = (default 0%nat (dict_get veg counts)
                    + length (of_vegetable veg data))%nat
                 /\ (In veg (map fst final)
                     <-> In veg (map fst counts)
                         \/ In veg (map result_vegetable_type data))).
  { induction data as [|comp data IH]; intros counts Hnd; simpl.
    - repeat split; auto; try lia; tauto.
    - destruct (count_up_keys (result_vegetable_type comp) counts Hnd)
        as (Hnd' & Hin' & Hsum').
      destruct (IH _ Hnd') as (IHnd & IHsum & IHveg).
      split; [exact IHnd|]. split; [rewrite IHsum, Hsum'; lia|].
      intros veg. destruct (IHveg veg) as [IHget IHin]. split.
      + rewrite IHget, count_up_get. unfold of_vegetable. simpl.
        destruct (String.eqb (result_vegetable_type comp) veg); simpl; lia.
      + rewrite IHin, Hin'. intuition congruence. }
  destruct (H compliance_data [] (List.NoDup_nil _)) as (Hnd & Hsum & Hveg).
  split; [exact Hnd|]. split; [exact Hsum|].
  intros veg. destruct (Hveg veg) as [Hget Hin]. split; [exact Hget|].
  rewrite Hin. simpl. tauto.
Qed.
End ReportFacts.

(** ** The further properties on the examples *)

Section FurtherExamples.
Import Importer Analyzer AnalyzerSpec Invariants Reports Examples.

Local Abbreviation moist := (built sample_config moisture_rows).

Lemma moisture_analyzer_built : new sample_config moisture_rows = Ok moist.
Proof. vm_compute. reflexivity. Qed.

(** The first expanded row of the moisture readings is a row of garden
    1, a configured garden. *)
Lemma expanded_row_origin_witness :
  new sample_config moisture_rows = Ok moist
  /\ exists z l,
       expanded_df moist = z :: l
       /\ is_Some (gardens sample_config !! garden_id z).
Proof.
  assert (H : new sample_config moisture_rows = Ok moist)
    by (vm_compute; reflexivity).
  split; [exact H|].
  destruct (expanded_df moist) as [|z l] eqn:He; [vm_compute in He; discriminate|].
  exists z, l. split; [reflexivity|].
  destruct (expanded_row_origin sample_config moisture_rows moist z H)
    as (r & s & ids & g & _ & _ & _ & _ & _ & _ & Hg & _).
  - rewrite He. left. reflexivity.
  - eauto.
Defined.

(** Two readings of a sensor mapped to two gardens give four rows. *)
Lemma expansion_counts_witness :
  new sample_config moisture_rows = Ok moist
  /\ length (expanded_df moist) = 4%nat.
Proof.
  assert (H : new sample_config moisture_rows = Ok moist)
    by (vm_compute; reflexivity).
  split; [exact H|].
  rewrite (proj2 (expansion_counts sample_config moisture_rows moist H)).
  vm_compute. reflexivity.
Defined.

(** Lettuce has a range for moisture only: garden 2 is scored on
    moisture alone. *)
Lemma result_keys_witness :
  calculate_compliance_score moist noon "garden_2" 24
  = Ok (scored moist noon "garden_2" 24)
  /\ map fst (details (scored moist noon "garden_2" 24)) = ["moisture"].
Proof.
  assert (H : calculate_compliance_score moist noon "garden_2" 24
              = Ok (scored moist noon "garden_2" 24))
    by (vm_compute; reflexivity).
  split; [exact H|].
  destruct (result_keys moist noon "garden_2" 24 garden_2
              {[ "moisture" := {| min := 50; max := 80 |} ]} _
              ltac:(vm_compute; reflexivity) ltac:(vm_compute; reflexivity) H)
    as (_ & -> & _).
  vm_compute. reflexivity.
Defined.

(** Garden 1 on the twenty moisture readings: the entries of its three
    kinds belong together, the moisture score with the counts 20 and
    11. *)
Lemma result_entries_consistent_witness :
  calculate_compliance_score (built sample_config twenty_rows) noon
    "garden_1" 24
  = Ok (scored (built sample_config twenty_rows) noon "garden_1" 24)
  /\ dict_get "moisture"
       (details (scored (built sample_config twenty_rows) noon "garden_1" 24))
     = Some (Scored "Poor" (1360 # 20) 40 70 20 11)
  /\ Forall2 (fun s d => fst s = fst d
                         /\ exists rng, tomato_ranges !! fst s = Some rng
                                        /\ consistent rng (snd s) (snd d))
       (individual_scores
          (scored (built sample_config twenty_rows) noon "garden_1" 24))
       (details (scored (built sample_config twenty_rows) noon "garden_1" 24)).
Proof.
  assert (H : calculate_compliance_score (built sample_config twenty_rows)
                noon "garden_1" 24
              = Ok (scored (built sample_config twenty_rows) noon
                      "garden_1" 24))
    by (vm_compute; reflexivity).
  split; [exact H|]. split; [vm_compute; reflexivity|].
  apply (result_entries_consistent (built sample_config twenty_rows) noon
           "garden_1" 24 garden_1 tomato_ranges _
           ltac:(vm_compute; reflexivity) ltac:(vm_compute; reflexivity) H).
Defined.

(** Garden 1 on a temperature reading in range and three moisture
    readings, one in range: the overall score is the mean of 100 and
    of the double 1/3*100, up to rounding; garden 2 next to the light
    reading of other gardens has no defined score and the overall score
    0. *)
Lemma overall_score_mean_witness :
  defined_scores
    (individual_scores
       (scored (built sample_config mixed_rows) noon "garden_1" 24))
  = [100%Q; percentage 1 3]
  /\ (Qabs (overall_score
              (scored (built sample_config mixed_rows) noon "garden_1" 24)
            - arithmetic_mean [100%Q; percentage 1 3])
      <= mean_tolerance)%Q
  /\ overall_score (scored (built sample_config dim_rows) noon "garden_2" 24)
     = 0%Q.
Proof.
  assert (Hd : defined_scores
                 (individual_scores
                    (scored (built sample_config mixed_rows) noon
                       "garden_1" 24))
               = [100%Q; percentage 1 3]) by (vm_compute; reflexivity).
  split; [exact Hd|]. split.
  - destruct (overall_score_mean (built sample_config mixed_rows) noon
                "garden_1" 24
                (scored (built sample_config mixed_rows) noon "garden_1" 24))
      as (Hm & _ & _); [vm_compute; reflexivity|].
    rewrite Hd in Hm. apply Hm. discriminate.
  - destruct (overall_score_mean (built sample_config dim_rows) noon
                "garden_2" 24
                (scored (built sample_config dim_rows) noon "garden_2" 24))
      as (_ & Hz & _); [vm_compute; reflexivity|].
    apply Hz. vm_compute. reflexivity.
Defined.

Lemma overall_score_bounds_witness :
  calculate_compliance_score moist noon "garden_1" 24
  = Ok (scored moist noon "garden_1" 24)
  /\ (0 <= overall_score (scored moist noon "garden_1" 24))%Q
  /\ (overall_score (scored moist noon "garden_1" 24) <= 100)%Q.
Proof.
  assert (H : calculate_compliance_score moist noon "garden_1" 24
              = Ok (scored moist noon "garden_1" 24))
    by (vm_compute; reflexivity).
  split; [exact H|]. exact (overall_score_bounds moist noon "garden_1" 24 _ H).
Defined.

(** With a window of no hour the two readings of the last half hour are
    out; with a day they are in. *)
Lemma wider_window_counts_more_witness :
  dict_get "moisture" (details (scored moist noon "garden_1" 0)) = Some NoData
  /\ dict_get "moisture" (details (scored moist noon "garden_1" 24))
     = Some (Scored "Poor" (130 # 2) 40 70 2 1)
  /\ (readings_count_of NoData
      <= readings_count_of (Scored "Poor" (130 # 2) 40 70 2 1))%nat.
Proof.
  assert (H0 : dict_get "moisture" (details (scored moist noon "garden_1" 0))
               = Some NoData) by (vm_compute; reflexivity).
  assert (H24 : dict_get "moisture" (details (scored moist noon "garden_1" 24))
                = Some (Scored "Poor" (130 # 2) 40 70 2 1))
    by (vm_compute; reflexivity).
  split; [exact H0|]. split; [exact H24|].
  apply (wider_window_counts_more moist noon "garden_1" 0 24
           (scored moist noon "garden_1" 0) (scored moist noon "garden_1" 24)
           "moisture").
  - lia.
  - vm_compute. reflexivity.
  - vm_compute. reflexivity.
  - exact H0.
  - exact H24.
Defined.


Lemma matrix_row_shape_witness :
  calculate_compliance_score moist noon "garden_1" 24
  = Ok (scored moist noon "garden_1" 24)
  /\ length (matrix_row (scored moist noon "garden_1" 24)) = 4%nat.
Proof.
  assert (H : calculate_compliance_score moist noon "garden_1" 24
              = Ok (scored moist noon "garden_1" 24))
    by (vm_compute; reflexivity).
  split; [exact H|].
  exact (proj1 (matrix_row_shape moist noon "garden_1" 24 _ H)).
Defined.

(** Garden 1 has a temperature range and no temperature reading. *)
Lemma kind_without_rows_has_no_data_witness :
  of_kind "temperature"
    (recent_rows "garden_1" (noon - 24 * microseconds_per_hour)
       (expanded_df moist)) = []
  /\ dict_get "temperature" (individual_scores (scored moist noon "garden_1" 24))
     = Some None.
Proof.
  assert (Hrows : of_kind "temperature"
                    (recent_rows "garden_1" (noon - 24 * microseconds_per_hour)
                       (expanded_df moist)) = [])
    by (vm_compute; reflexivity).
  split; [exact Hrows|].
  apply (kind_without_rows_has_no_data moist noon "garden_1" 24
           (scored moist noon "garden_1" 24) garden_1 tomato_ranges
           "temperature" {| min := 18; max := 28 |}).
  - vm_compute. reflexivity.
  - vm_compute. reflexivity.
  - vm_compute. reflexivity.
  - vm_compute. reflexivity.
  - left. reflexivity.
  - exact Hrows.
Defined.

Lemma recommend_one_line_witness :
  exists line, recommend "moisture" (Scored "Poor" 30 40 70 2 0) = [line].
Proof.
  apply recommend_one_line. left. right. left. reflexivity.
Defined.
End FurtherExamples.

(** ** The kind of a sensor *)

Section KindFacts.
Import Analyzer Invariants.

Lemma prefix_app (p s : string) :
  String.prefix p s = true <-> exists after, s = (p ++ after)%string.
Proof.
  revert s. induction p as [|c p IH]; intros s.
  - destruct s; simpl; (split; [intros _; eexists; reflexivity|reflexivity]).
  - destruct s as [|d s]; simpl.
    + split; [discriminate|intros [after H]; discriminate].
    + destruct (Ascii.ascii_dec c d) as [->|Hne].
      * rewrite IH. split; intros [after H]; exists after.
        -- rewrite H. reflexivity.
        -- change (String d s = String d (p ++ after)%string) in H. congruence.
      * split; [discriminate|intros [after H]].
        change (String d s = String c (p ++ after)%string) in H. congruence.
Qed.

Lemma contains_has_word (word text : string) :
  contains word text = true <-> has_word word text.
Proof.
  unfold has_word. induction text as [|c text IH]; cbn [contains].
  - rewrite orb_false_r, prefix_app. split.
    + intros [after H]. exists "", after. exact H.
    + intros ([|b before] & after & H); [eauto|].
      change (EmptyString = String b (before ++ word ++ after)%string) in H.
      discriminate.
  - rewrite orb_true_iff, prefix_app, IH. split.
    + intros [[after H] | (before & after & H)].
      * exists "", after. exact H.
      * exists (String c before), after. rewrite H. reflexivity.
    + intros ([|b before] & after & H).
      * left. exists after. exact H.
      * right. exists before, after.
        change (String c text = String b (before ++ word ++ after)%string) in H.
        congruence.
Qed.

(** X22: the kind of a sensor is decided by the first of the words
    Temperature, Moisture, Light, Humidity, Pump, in that order, that
    occurs in its name as written (capital first letter); a name with
    none of them gives no kind.  A reading gets the kind of the name of
    its sensor, and none when it has no sensor id or its sensor is not
    in the configuration. *)
Theorem kind_of_name_first_keyword (n : string) :
  (kind_of_name n = Some "temperature" <-> has_word "Temperature" n)
  /\ (kind_of_name n = Some "moisture"
      <-> ~ has_word "Temperature" n /\ has_word "Moisture" n)
  /\ (kind_of_name n = Some "light"
      <-> ~ has_word "Temperature" n /\ ~ has_word "Moisture" n
          /\ has_word "Light" n)
  /\ (kind_of_name n = Some "humidity"
      <-> ~ has_word "Temperature" n /\ ~ has_word "Moisture" n
          /\ ~ has_word "Light" n /\ has_word "Humidity" n)
  /\ (kind_of_name n = Some "pump"
      <-> ~ has_word "Temperature" n /\ ~ has_word "Moisture" n
          /\ ~ has_word "Light" n /\ ~ has_word "Humidity" n
          /\ has_word "Pump" n)
  /\ (kind_of_name n = None
      <-> ~ has_word "Temperature" n /\ ~ has_word "Moisture" n
          /\ ~ has_word "Light" n /\ ~ has_word "Humidity" n
          /\ ~ has_word "Pump" n)
  /\ forall cfg r,
       sensor_type (add_columns cfg r)
       = match sensor_id r with
         | Some id =>
             match sensors cfg !! id with
             | Some info => kind_of_name (sensor_name info)
             | None => None
             end
         | None => None
         end.
Proof.
  rewrite <- !contains_has_word. unfold kind_of_name.
  destruct (contains "Temperature" n), (contains "Moisture" n),
    (contains "Light" n), (contains "Humidity" n), (contains "Pump" n);
    (repeat split; try discriminate; try tauto; try congruence;
     try (intros; repeat match goal with H : _ /\ _ |- _ => destruct H end;
          congruence));
    try (intros cfg r; unfold add_columns, sensor_type_map; simpl;
         destruct (sensor_id r) as [id|]; simpl; [|reflexivity];
         rewrite lookup_omap; destruct (sensors cfg !! id); reflexivity).
Qed.
End KindFacts.
